(** * The single-file uploader of [arcsecond/uploader/uploader.py]

    A shallow embedding of [DataFileUploader]: the object's attributes and
    the history of what it did to the outside world form an explicit
    state, exceptions are outcomes of a small state-and-exception monad,
    and the remote service, the context's two methods and the host are
    variables of a section.

    What the embedding leaves to the environment:
    - the file exists and keeps its size for the whole call ([stat] and
      [open] succeed);
    - wall-clock readings ([datetime.now]) are only logged, so the line
      reporting the duration carries no number;
    - the progress fraction is the exact rational of which Python's float
      is the nearest double, and the textual bar is not rendered;
    - paths are pure POSIX paths: an anchor and a list of names;
    - the state lists the handles the uploader has opened and not closed
      itself; when the Python runtime finalises a file object that nothing
      refers to any more is not followed. *)

From Stdlib Require Import String Ascii List ZArith QArith Qminmax Bool Lia.
From Stdlib Require Import DecimalString.
Import ListNotations.
Close Scope Q_scope.
Open Scope string_scope.

(** ** Python values *)

Module Py.

(** The values that travel in request payloads and server records. *)
Inductive value :=
| None_
| Bool_ (b : bool)
| Int_ (z : Z)
| Str_ (s : string)
| List_ (l : list string).

(** A [dict] keeps insertion order. *)
Definition dict := list (string * value).

(** [d.get(k)]: the value at [k], [None] when the key is absent. *)
Fixpoint get (d : dict) (k : string) : value :=
  match d with
  | [] => None_
  | (k', v) :: d' => if String.eqb k' k then v else get d' k
  end.

(** [d.update(k=v)]: replace in place, or append a new key. *)
Fixpoint update (d : dict) (k : string) (v : value) : dict :=
  match d with
  | [] => [(k, v)]
  | (k', v') :: d' =>
      if String.eqb k' k then (k', v) :: d' else (k', v') :: update d' k v
  end.

(** An attribute that is a string or [None], as a payload value. *)
Definition of_opt (o : option string) : value :=
  match o with Some s => Str_ s | None => None_ end.

(** Truth value of a string-or-[None] attribute: [None] and [''] are false. *)
Definition truthy (o : option string) : bool :=
  match o with
  | Some s => negb (String.eqb s "")
  | None => false
  end.

(** [str(o)] inside an f-string. *)
Definition str_opt (o : option string) : string :=
  match o with Some s => s | None => "None" end.

(** [str(z)] for an integer. *)
Definition str_int (z : Z) : string := NilZero.string_of_int (Z.to_int z).

(** [needle in hay] on strings: a case-sensitive substring test. *)
Fixpoint contains (needle hay : string) : bool :=
  if String.prefix needle hay then true
  else match hay with
       | EmptyString => false
       | String _ rest => contains needle rest
       end.

End Py.

(** ** pathlib, pure POSIX paths *)

Module Pathlib.

Record Path := { anchor : string; names : list string }.

(** [str(p)]: the empty relative path prints as a dot. *)
Definition str (p : Path) : string :=
  match anchor p, names p with
  | EmptyString, [] => "."
  | a, ns => a ++ String.concat "/" ns
  end.

(** [p.name]: the final component, [''] when there is none. *)
Definition name (p : Path) : string := last (names p) "".

Fixpoint strip_prefix (pre l : list string) : option (list string) :=
  match pre, l with
  | [], _ => Some l
  | x :: pre', y :: l' =>
      if String.eqb x y then strip_prefix pre' l' else None
  | _ :: _, [] => None
  end.

(** [p.relative_to(other)]: [None] stands for the [ValueError] raised when
    [other] is not a prefix of [p]. *)
Definition relative_to (p other : Path) : option Path :=
  if String.eqb (anchor p) (anchor other) then
    match strip_prefix (names other) (names p) with
    | Some rest => Some {| anchor := ""; names := rest |}
    | None => None
    end
  else None.

End Pathlib.

Import Pathlib.

(** ** constants.py: the two enumerations, as the uploader uses them *)

Inductive Status := NEW | PREPARING | UPLOADING | FINISHING | OK | SKIPPED | ERROR.

Module Substatus.
Inductive t := PENDING | CHECKING | UPLOADING | TAGGING | ALREADY_SYNCED | DONE | ERROR.
End Substatus.

(** [self._status]: a three-slot list whose last slot is always [None]. *)
Definition status : Type := Status * Substatus.t * option string.

Definition Status_eqb (a b : Status) : bool :=
  match a, b with
  | NEW, NEW | PREPARING, PREPARING | UPLOADING, UPLOADING
  | FINISHING, FINISHING | OK, OK | SKIPPED, SKIPPED | ERROR, ERROR => true
  | _, _ => false
  end.

(** ** errors.py and the built-in exceptions that can escape *)

Inductive exn :=
| UploadRemoteFileInvalidatedContextError
| UploadRemoteDatasetCheckError (msg : string)
| UploadRemoteDatasetPreparationError (msg : string)
| UploadRemoteFileError (msg : string)
| UploadRemoteFileMetadataError (msg : string)
| UploadRemoteFileCustomTagsError (msg : string)
| ValueError
| ZeroDivisionError
| AttributeError.

(** The classes named by the three [except] clauses.  The error classes are
    siblings: none is caught under another's name. *)
Definition is_DatasetPreparationError (e : exn) : bool :=
  match e with UploadRemoteDatasetPreparationError _ => true | _ => false end.

Definition is_FileError (e : exn) : bool :=
  match e with UploadRemoteFileError _ => true | _ => false end.

Definition is_FileMetadataError (e : exn) : bool :=
  match e with UploadRemoteFileMetadataError _ => true | _ => false end.

(** ** context.py *)

(** Modelled from the spec: the [UploadContext] of context.py, whose source
    is not at hand.  Its read accessors are the fields; its mutator
    [update_dataset] and its tag validator are variables of the section
    below. *)
Record UploadContext := {
  username : string;
  organisation_subdomain : string;
  dataset_uuid : option string;
  dataset_name : option string;
  telescope_uuid : option string;
  _should_update_dataset_with_telescope : bool;
  is_validated : bool;
  is_raw_data : bool;
  custom_tags : option (list string)
}.

(** ** The remote service *)

(** The error half of the client's [(value, error)] pair: [error.status]
    and [str(error)].  An error object is true, [None] is false. *)
Record ApiError := { error_status : Z; error_text : string }.

(** The multipart body: the dataset field and the file field, which holds
    the file's base name and the handle it is read from. *)
Record MultipartEncoder := {
  field_dataset : option string;
  field_file : string * nat
}.

Inductive request :=
| datasets_read (uuid : option string)
| datasets_update (uuid : option string) (payload : Py.dict)
| datasets_create (payload : Py.dict)
| datafiles_create (data : MultipartEncoder)
| datafiles_update (pk : Py.value) (json : Py.dict).

(** The client answers the n-th request of a run; while it sends a body it
    reads it piecewise, and [body_reads n] lists the monitor's
    [bytes_read] after each read. *)
Record ArcsecondAPI := {
  respond : nat -> request -> option Py.dict * option ApiError;
  body_reads : nat -> list Z
}.

(** ** What the uploader does to the outside world *)

Inductive log_line :=
| Opening_upload_sequence
| Preparing_Dataset
| Dataset_preparation_failed
| Dataset_preparation_done
| Start_uploading
| Starting_upload_to_Arcsecond (bytes : Z)
| Upload_duration
| Upload_of_file_failed (file : Path)
| Updating_file_metadata
| Update_of_metadata_failed
| Upload_skipped
| Upload_done
| Closing_upload_sequence.

Inductive event :=
| Log (prefix : string) (line : log_line)
| Sleep (seconds : Z)
| Open (file : Path) (handle : nat)
| Request (r : request)
| Printed (fraction : Q).

(** ** The state: the object's attributes, then the world's history *)

Record State := {
  _context : UploadContext;
  _status : status;
  _datafile : option Py.dict;
  __bytes_read : Z;
  open_files : list nat;
  next_handle : nat;
  api_calls : nat;
  trace : list event
}.

(** [__init__]: the attributes of a fresh uploader, in a fresh world. *)
Definition init (context : UploadContext) : State :=
  {| _context := context;
     _status := (NEW, Substatus.PENDING, None);
     _datafile := None;
     __bytes_read := 0;
     open_files := [];
     next_handle := 0;
     api_calls := 0;
     trace := [] |}.

(** ** The monad: a state that survives a raised exception *)

Inductive outcome (A : Type) :=
| Returns (a : A)
| Raises (e : exn).
Arguments Returns {A} a.
Arguments Raises {A} e.

Definition M (A : Type) : Type := State -> outcome A * State.

Definition ret {A} (a : A) : M A := fun s => (Returns a, s).

Definition bind {A B} (m : M A) (k : A -> M B) : M B :=
  fun s =>
    match m s with
    | (Returns a, s') => k a s'
    | (Raises e, s') => (Raises e, s')
    end.

Definition raise {A} (e : exn) : M A := fun s => (Raises e, s).

(** [try: body / except <class>: handler]. *)
Definition try_except {A} (body : M A) (class : exn -> bool) (handler : M A) : M A :=
  fun s =>
    match body s with
    | (Raises e, s') => if class e then handler s' else (Raises e, s')
    | r => r
    end.

Declare Scope uploader_scope.
Delimit Scope uploader_scope with up.
Notation "x <- m ;; k" := (bind m (fun x => k))
  (at level 61, m at next level, right associativity) : uploader_scope.
Notation "m ;; k" := (bind m (fun _ => k))
  (at level 61, right associativity) : uploader_scope.
Open Scope uploader_scope.

Definition get_context : M UploadContext := fun s => (Returns (_context s), s).
Definition get_status : M status := fun s => (Returns (_status s), s).
Definition get_datafile : M (option Py.dict) := fun s => (Returns (_datafile s), s).

Definition with_context (c : UploadContext) (s : State) : State :=
  {| _context := c; _status := _status s; _datafile := _datafile s;
     __bytes_read := __bytes_read s; open_files := open_files s;
     next_handle := next_handle s; api_calls := api_calls s; trace := trace s |}.

Definition with_status (st : status) (s : State) : State :=
  {| _context := _context s; _status := st; _datafile := _datafile s;
     __bytes_read := __bytes_read s; open_files := open_files s;
     next_handle := next_handle s; api_calls := api_calls s; trace := trace s |}.

Definition with_datafile (d : option Py.dict) (s : State) : State :=
  {| _context := _context s; _status := _status s; _datafile := d;
     __bytes_read := __bytes_read s; open_files := open_files s;
     next_handle := next_handle s; api_calls := api_calls s; trace := trace s |}.

Definition with_bytes_read (n : Z) (s : State) : State :=
  {| _context := _context s; _status := _status s; _datafile := _datafile s;
     __bytes_read := n; open_files := open_files s;
     next_handle := next_handle s; api_calls := api_calls s; trace := trace s |}.

Definition with_event (e : event) (s : State) : State :=
  {| _context := _context s; _status := _status s; _datafile := _datafile s;
     __bytes_read := __bytes_read s; open_files := open_files s;
     next_handle := next_handle s; api_calls := api_calls s;
     trace := trace s ++ [e] |}.

(** The world after [open]: the new handle is listed in [open_files].  The
    source has no [close] and no [with] block, so the uploader itself
    never takes a handle off that list.  The Python runtime does finalise
    a file object once nothing refers to it, which is not followed here:
    a listed handle is one the uploader opened and did not close, and it
    is sure to be open still only as long as its file object is referred
    to, as it is by the exception of the attempt that opened it. *)
Definition with_open (file : Path) (s : State) : State :=
  {| _context := _context s; _status := _status s; _datafile := _datafile s;
     __bytes_read := __bytes_read s;
     open_files := open_files s ++ [next_handle s];
     next_handle := S (next_handle s); api_calls := api_calls s;
     trace := trace s ++ [Open file (next_handle s)] |}.

Definition with_request (r : request) (s : State) : State :=
  {| _context := _context s; _status := _status s; _datafile := _datafile s;
     __bytes_read := __bytes_read s; open_files := open_files s;
     next_handle := next_handle s; api_calls := S (api_calls s);
     trace := trace s ++ [Request r] |}.

Definition set_context (c : UploadContext) : M unit := fun s => (Returns tt, with_context c s).
Definition set_status (st : status) : M unit := fun s => (Returns tt, with_status st s).
Definition set_datafile (d : option Py.dict) : M unit := fun s => (Returns tt, with_datafile d s).
Definition set_bytes_read (n : Z) : M unit := fun s => (Returns tt, with_bytes_read n s).
Definition emit (e : event) : M unit := fun s => (Returns tt, with_event e s).

(** [time.sleep(seconds)]. *)
Definition sleep (seconds : Z) : M unit := emit (Sleep seconds).

(** [open(file, 'rb')]: the new handle. *)
Definition open_rb (file : Path) : M nat :=
  fun s => (Returns (next_handle s), with_open file s).

(** ** The progress fraction of [percent_printer] *)

(** [min(float(bytes_read) / float(file_size), 1.0)]; [None] stands for the
    [ZeroDivisionError] that Python's float division raises on a zero
    divisor. *)
Definition fraction (bytes_read file_size : Z) : option Q :=
  if (file_size =? 0)%Z then None
  else Some (Qmin (inject_Z bytes_read / inject_Z file_size)%Q 1%Q).

Definition bar_length : Z := 40.

(** ** A concrete observatory, for running the uploader *)

Module Example.

Definition root : Path := {| anchor := "/"; names := ["data"] |}.
Definition file : Path := {| anchor := "/"; names := ["data"; "night1"; "m31.fits"] |}.
Definition prefix : string := "[night1/m31.fits]".

(** A validated context that names its dataset, without a UUID yet. *)
Definition by_name : UploadContext :=
  {| username := "alice"; organisation_subdomain := "obs";
     dataset_uuid := None; dataset_name := Some "M31-survey";
     telescope_uuid := None; _should_update_dataset_with_telescope := false;
     is_validated := true; is_raw_data := false; custom_tags := None |}.

(** A validated context whose dataset exists, with a telescope to sync. *)
Definition by_uuid : UploadContext :=
  {| username := "alice"; organisation_subdomain := "obs";
     dataset_uuid := Some "d-1"; dataset_name := Some "M31-survey";
     telescope_uuid := Some "t-9"; _should_update_dataset_with_telescope := true;
     is_validated := true; is_raw_data := false; custom_tags := Some ["survey"] |}.

Definition not_validated : UploadContext :=
  {| username := "alice"; organisation_subdomain := "obs";
     dataset_uuid := Some "d-1"; dataset_name := None;
     telescope_uuid := None; _should_update_dataset_with_telescope := false;
     is_validated := false; is_raw_data := false; custom_tags := None |}.

Definition no_dataset : UploadContext :=
  {| username := "alice"; organisation_subdomain := "obs";
     dataset_uuid := None; dataset_name := Some "";
     telescope_uuid := None; _should_update_dataset_with_telescope := false;
     is_validated := true; is_raw_data := false; custom_tags := None |}.

(** A context that stores the UUID of the record it is given. *)
Definition store (c : UploadContext) (data : option Py.dict) : UploadContext :=
  {| username := username c; organisation_subdomain := organisation_subdomain c;
     dataset_uuid := match data with
                     | Some record =>
                         match Py.get record "uuid" with
                         | Py.Str_ uuid => Some uuid
                         | _ => dataset_uuid c
                         end
                     | None => dataset_uuid c
                     end;
     dataset_name := dataset_name c; telescope_uuid := telescope_uuid c;
     _should_update_dataset_with_telescope := _should_update_dataset_with_telescope c;
     is_validated := is_validated c; is_raw_data := is_raw_data c;
     custom_tags := custom_tags c |}.

(** A validator that accepts every tag list. *)
Definition accept (c : UploadContext) (tags : list string) : option exn := None.

Definition created : Py.dict := [("uuid", Py.Str_ "d-1")].
Definition stored : Py.dict := [("pk", Py.Int_ 7)].
Definition duplicate : ApiError :=
  {| error_status := 409; error_text := "File already exists in dataset d-1." |}.
Definition unavailable : ApiError :=
  {| error_status := 503; error_text := "Service unavailable" |}.

(** The body is read in three pieces; the last count includes the
    multipart framing and exceeds the file's size. *)
Definition three_reads (n : nat) : list Z := [512; 1024; 1211]%Z.

(** A server that accepts everything. *)
Definition willing : ArcsecondAPI :=
  {| respond := fun _ r =>
       match r with
       | datasets_create _ => (Some created, None)
       | datafiles_create _ => (Some stored, None)
       | _ => (Some [], None)
       end;
     body_reads := three_reads |}.

(** A server that already holds the file. *)
Definition holding : ArcsecondAPI :=
  {| respond := fun _ r =>
       match r with
       | datasets_create _ => (Some created, None)
       | datafiles_create _ => (None, Some duplicate)
       | _ => (Some [], None)
       end;
     body_reads := three_reads |}.

(** A server on which one kind of request always fails. *)
Definition failing (ph : nat) : ArcsecondAPI :=
  {| respond := fun _ r =>
       match ph, r with
       | 0, (datasets_read _ | datasets_update _ _ | datasets_create _) =>
           (None, Some unavailable)
       | 1, datafiles_create _ => (None, Some unavailable)
       | 2, datafiles_update _ _ => (None, Some unavailable)
       | _, datasets_create _ => (Some created, None)
       | _, datafiles_create _ => (Some stored, None)
       | _, _ => (Some [], None)
       end;
     body_reads := three_reads |}.

(** A server whose first answer to the upload is lost, and which holds
    the file when asked again: the third request of the run is the
    second upload. *)
Definition forgetful : ArcsecondAPI :=
  {| respond := fun n r =>
       match r with
       | datasets_create _ => (Some created, None)
       | datafiles_create _ =>
           if Nat.ltb n 2 then (None, Some unavailable) else (None, Some duplicate)
       | _ => (Some [], None)
       end;
     body_reads := three_reads |}.

(** A server that accepts the upload and returns no record for it. *)
Definition recordless : ArcsecondAPI :=
  {| respond := fun _ r =>
       match r with
       | datasets_create _ => (Some created, None)
       | datafiles_create _ => (None, None)
       | _ => (Some [], None)
       end;
     body_reads := three_reads |}.

(** A server that fails once in each phase and then gives way: the
    requests of a run are numbered from 0, and the first, the third and the
    fifth are refused. *)
Definition stumbling : ArcsecondAPI :=
  {| respond := fun n r =>
       if Nat.even n then (None, Some unavailable)
       else match r with
            | datasets_create _ => (Some created, None)
            | datafiles_create _ => (Some stored, None)
            | _ => (Some [], None)
            end;
     body_reads := three_reads |}.

(** A file record that has no primary key. *)
Definition keyless : Py.dict := [("name", Py.Str_ "m31.fits")].

(** A file that is not under the root. *)
Definition stray : Path := {| anchor := "/"; names := ["tmp"; "m31.fits"] |}.

End Example.

(** ** DataFileUploader *)

Section DataFileUploader.

(** The constructor's arguments and the host. *)
Variable root_path file_path : Path.
Variable hostname : string.
Variable __version__ : string.
(** [self._file_size], the size [stat] reports. *)
Variable _file_size : Z.
(** [self._api]. *)
Variable api : ArcsecondAPI.
(** [context.update_dataset(data)], seen as the context it leaves. *)
Variable update_dataset : UploadContext -> option Py.dict -> UploadContext.
(** [context._validate_custom_tags(tags)]: the exception it raises, if any. *)
Variable _validate_custom_tags : UploadContext -> list string -> option exn.

(** [log_prefix]: the file's path relative to the root, in brackets. *)
Definition log_prefix : option string :=
  match relative_to file_path root_path with
  | Some rel => Some ("[" ++ str rel ++ "]")
  | None => None
  end.

(** [self._logger.info(f'{self.log_prefix} ...')]. *)
Definition info (line : log_line) : M unit :=
  match log_prefix with
  | Some prefix => emit (Log prefix line)
  | None => raise ValueError
  end.

(** A call of the client that carries no streamed body. *)
Definition call (r : request) : M (option Py.dict * option ApiError) :=
  fun s => (Returns (respond api (api_calls s) r), with_request r s).

Definition _prepare_dataset : M unit :=
  info Preparing_Dataset ;;
  set_status (PREPARING, Substatus.CHECKING, None) ;;
  context <- get_context ;;
  if Py.truthy (dataset_uuid context) then
    r <- (if _should_update_dataset_with_telescope context then
            let payload := [("telescope", Py.of_opt (telescope_uuid context))] in
            call (datasets_update (dataset_uuid context) payload)
          else
            call (datasets_read (dataset_uuid context))) ;;
    match snd r with
    | Some error =>
        info Dataset_preparation_failed ;;
        raise (UploadRemoteDatasetPreparationError (error_text error))
    | None => info Dataset_preparation_done
    end
  else if Py.truthy (dataset_name context) then
    let payload := [("name", Py.of_opt (dataset_name context))] in
    let payload :=
      if _should_update_dataset_with_telescope context
      then Py.update payload "telescope" (Py.of_opt (telescope_uuid context))
      else payload in
    r <- call (datasets_create payload) ;;
    match snd r with
    | Some error =>
        info Dataset_preparation_failed ;;
        raise (UploadRemoteDatasetPreparationError (error_text error))
    | None =>
        set_context (update_dataset context (fst r)) ;;
        info Dataset_preparation_done
    end
  else raise (UploadRemoteDatasetCheckError "No dataset specified.").

Definition __get_upload_data : M MultipartEncoder :=
  context <- get_context ;;
  handle <- open_rb file_path ;;
  ret {| field_dataset := dataset_uuid context;
         field_file := (name file_path, handle) |}.

(** The monitor's callback, at one read of the body. *)
Definition percent_printer (monitor_bytes_read : Z) : M unit :=
  set_bytes_read monitor_bytes_read ;;
  match fraction monitor_bytes_read _file_size with
  | Some f => emit (Printed f)
  | None => raise ZeroDivisionError
  end.

Fixpoint monitor (reads : list Z) : M unit :=
  match reads with
  | [] => ret tt
  | bytes_read :: rest => percent_printer bytes_read ;; monitor rest
  end.

(** [self._api.datafiles.create(data=data, headers=...)]: the request is
    issued, the body is read under the monitor, the answer comes back. *)
Definition create_datafile (data : MultipartEncoder)
  : M (option Py.dict * option ApiError) :=
  fun s =>
    let n := api_calls s in
    match monitor (body_reads api n) (with_request (datafiles_create data) s) with
    | (Returns _, s') => (Returns (respond api n (datafiles_create data)), s')
    | (Raises e, s') => (Raises e, s')
    end.

Definition _perform_upload : M unit :=
  info Start_uploading ;;
  set_status (UPLOADING, Substatus.UPLOADING, None) ;;
  info (Starting_upload_to_Arcsecond _file_size) ;;
  data <- __get_upload_data ;;
  r <- create_datafile data ;;
  set_datafile (fst r) ;;
  match snd r with
  | None => info Upload_duration
  | Some error =>
      if Py.contains "already exists in dataset" (error_text error) then
        set_status (SKIPPED, Substatus.ALREADY_SYNCED, None)
      else
        set_status (ERROR, Substatus.ERROR, None) ;;
        info (Upload_of_file_failed file_path) ;;
        raise (UploadRemoteFileError
                 (Py.str_int (error_status error) ++ " - " ++ error_text error))
  end.

Definition _update_file_metadata
    (is_raw : option bool) (custom_tags_arg : option (list string)) : M unit :=
  info Updating_file_metadata ;;
  set_status (FINISHING, Substatus.TAGGING, None) ;;
  context <- get_context ;;
  let tag_root := "arcsecond|root|" ++ str root_path in
  let tag_origin := "arcsecond|origin|" ++ hostname in
  let tag_uploader := "arcsecond|uploader|" ++ username context in
  let tag_version := "arcsecond|version|" ++ __version__ in
  let tags := [tag_root; tag_origin; tag_uploader; tag_version] in
  let tags :=
    if Py.truthy (telescope_uuid context)
    then (tags ++ [("arcsecond|telescope|" ++ Py.str_opt (telescope_uuid context))%string])%list
    else tags in
  tags <- match custom_tags_arg with
          | Some given =>
              match _validate_custom_tags context given with
              | Some e => raise e
              | None => ret (tags ++ given)%list
              end
          | None =>
              match custom_tags context with
              | Some own => ret (tags ++ own)%list
              | None => ret tags
              end
          end ;;
  let is_raw_flag :=
    match is_raw with Some b => b | None => is_raw_data context end in
  let payload := [("tags", Py.List_ tags);
                  ("is_raw", Py.Bool_ is_raw_flag);
                  ("fsname", Py.Str_ hostname);
                  ("fspath", Py.Str_ (str root_path))] in
  datafile <- get_datafile ;;
  pk <- match datafile with
        | Some record => ret (Py.get record "pk")
        | None => raise AttributeError
        end ;;
  r <- call (datafiles_update pk payload) ;;
  match snd r with
  | Some error =>
      set_status (ERROR, Substatus.ERROR, None) ;;
      info Update_of_metadata_failed ;;
      raise (UploadRemoteFileMetadataError (error_text error))
  | None => set_status (OK, Substatus.DONE, None)
  end.

Definition upload_file
    (is_raw : option bool) (custom_tags_arg : option (list string)) : M status :=
  info Opening_upload_sequence ;;
  context <- get_context ;;
  if negb (is_validated context) then
    raise UploadRemoteFileInvalidatedContextError
  else
    try_except _prepare_dataset is_DatasetPreparationError
      (sleep 1 ;; _prepare_dataset) ;;
    try_except _perform_upload is_FileError
      (sleep 1 ;; _perform_upload) ;;
    st <- get_status ;;
    (if Status_eqb (fst (fst st)) SKIPPED then
       info Upload_skipped
     else
       info Upload_done ;;
       try_except (_update_file_metadata is_raw custom_tags_arg) is_FileMetadataError
         (sleep 1 ;; _update_file_metadata is_raw custom_tags_arg)) ;;
    info Closing_upload_sequence ;;
    get_status.


(** ** Reading a trace *)

Inductive phase := Preparation | Transport | Tagging.

Definition phase_eqb (a b : phase) : bool :=
  match a, b with
  | Preparation, Preparation | Transport, Transport | Tagging, Tagging => true
  | _, _ => false
  end.

(** The phase a log line is written by; the orchestrator's own lines
    belong to none. *)
Definition line_phase (l : log_line) : option phase :=
  match l with
  | Preparing_Dataset | Dataset_preparation_failed | Dataset_preparation_done =>
      Some Preparation
  | Start_uploading | Starting_upload_to_Arcsecond _ | Upload_duration
  | Upload_of_file_failed _ => Some Transport
  | Updating_file_metadata | Update_of_metadata_failed => Some Tagging
  | Opening_upload_sequence | Upload_skipped | Upload_done
  | Closing_upload_sequence => None
  end.

Definition request_phase (r : request) : phase :=
  match r with
  | datasets_read _ | datasets_update _ _ | datasets_create _ => Preparation
  | datafiles_create _ => Transport
  | datafiles_update _ _ => Tagging
  end.

Definition event_phase (e : event) : option phase :=
  match e with
  | Log _ l => line_phase l
  | Request r => Some (request_phase r)
  | Open _ _ | Printed _ => Some Transport
  | Sleep _ => None
  end.

Definition of_phase (ph : phase) (e : event) : bool :=
  match event_phase e with
  | Some ph' => phase_eqb ph ph'
  | None => false
  end.

(** What a phase did in a stretch of trace: nothing, when it did not run. *)
Definition ran (ph : phase) (t : list event) : list event :=
  filter (of_phase ph) t.

(** Each phase's function logs one line on entry. *)
Definition is_entry (ph : phase) (e : event) : bool :=
  match ph, e with
  | Preparation, Log _ Preparing_Dataset
  | Transport, Log _ Start_uploading
  | Tagging, Log _ Updating_file_metadata => true
  | _, _ => false
  end.

Definition attempts (ph : phase) (t : list event) : nat :=
  length (filter (is_entry ph) t).

(** The network calls in a stretch of trace, in order. *)
Definition requests (t : list event) : list request :=
  flat_map (fun e => match e with Request r => [r] | _ => [] end) t.

(** The handles [open] returned in a stretch of trace, in order. *)
Definition handles_opened (t : list event) : list nat :=
  flat_map (fun e => match e with Open _ h => [h] | _ => [] end) t.

(** The pauses in a stretch of trace, in order. *)
Definition sleeps (t : list event) : list Z :=
  flat_map (fun e => match e with Sleep z => [z] | _ => [] end) t.

(** ** The three retried blocks of [upload_file], by name *)

Definition prepare_phase : M unit :=
  try_except _prepare_dataset is_DatasetPreparationError
    (sleep 1 ;; _prepare_dataset).

Definition transport_phase : M unit :=
  try_except _perform_upload is_FileError
    (sleep 1 ;; _perform_upload).

Definition tagging_phase (is_raw : option bool) (tags : option (list string)) : M unit :=
  try_except (_update_file_metadata is_raw tags) is_FileMetadataError
    (sleep 1 ;; _update_file_metadata is_raw tags).

(** The body the transport sends from a given state. *)
Definition upload_data (s : State) : MultipartEncoder :=
  {| field_dataset := dataset_uuid (_context s);
     field_file := (name file_path, next_handle s) |}.

(** ** What each phase leaves behind *)

(** The request the resolver sends for a context, none when the context
    names no dataset. *)
Definition resolver_request (c : UploadContext) : option request :=
  if Py.truthy (dataset_uuid c) then
    if _should_update_dataset_with_telescope c
    then Some (datasets_update (dataset_uuid c)
                 [("telescope", Py.of_opt (telescope_uuid c))])
    else Some (datasets_read (dataset_uuid c))
  else if Py.truthy (dataset_name c) then
    Some (datasets_create
            ([("name", Py.of_opt (dataset_name c))] ++
             if _should_update_dataset_with_telescope c
             then [("telescope", Py.of_opt (telescope_uuid c))]
             else [])%list)
  else None.

Definition is_create (r : request) : bool :=
  match r with datasets_create _ => true | _ => false end.

Definition prepared (prefix : string) (s : State) : outcome unit * State :=
  let s1 := with_status (PREPARING, Substatus.CHECKING, None)
              (with_event (Log prefix Preparing_Dataset) s) in
  match resolver_request (_context s) with
  | None => (Raises (UploadRemoteDatasetCheckError "No dataset specified."), s1)
  | Some r =>
      let s2 := with_request r s1 in
      match respond api (api_calls s) r with
      | (_, Some error) =>
          (Raises (UploadRemoteDatasetPreparationError (error_text error)),
           with_event (Log prefix Dataset_preparation_failed) s2)
      | (data, None) =>
          (Returns tt,
           with_event (Log prefix Dataset_preparation_done)
             (if is_create r
              then with_context (update_dataset (_context s) data) s2
              else s2))
      end
  end.

(** The state after the monitor has seen the given reads: it stops at the
    first read whose fraction cannot be computed. *)
Fixpoint monitored (reads : list Z) (s : State) : State :=
  match reads with
  | [] => s
  | bytes_read :: rest =>
      match fraction bytes_read _file_size with
      | Some f => monitored rest (with_event (Printed f) (with_bytes_read bytes_read s))
      | None => with_bytes_read bytes_read s
      end
  end.

Definition monitor_outcome (reads : list Z) : outcome unit :=
  match reads with
  | [] => Returns tt
  | _ :: _ => if (_file_size =? 0)%Z then Raises ZeroDivisionError else Returns tt
  end.

Definition uploaded (prefix : string) (s : State) : outcome unit * State :=
  let s1 := with_event (Log prefix (Starting_upload_to_Arcsecond _file_size))
              (with_status (UPLOADING, Substatus.UPLOADING, None)
                 (with_event (Log prefix Start_uploading) s)) in
  let data := upload_data s in
  let s2 := monitored (body_reads api (api_calls s))
              (with_request (datafiles_create data) (with_open file_path s1)) in
  match monitor_outcome (body_reads api (api_calls s)) with
  | Raises e => (Raises e, s2)
  | Returns _ =>
      match respond api (api_calls s) (datafiles_create data) with
      | (record, None) =>
          (Returns tt, with_event (Log prefix Upload_duration) (with_datafile record s2))
      | (record, Some error) =>
          if Py.contains "already exists in dataset" (error_text error) then
            (Returns tt,
             with_status (SKIPPED, Substatus.ALREADY_SYNCED, None) (with_datafile record s2))
          else
            (Raises (UploadRemoteFileError
                       (Py.str_int (error_status error) ++ " - " ++ error_text error)),
             with_event (Log prefix (Upload_of_file_failed file_path))
               (with_status (ERROR, Substatus.ERROR, None) (with_datafile record s2)))
      end
  end.

(** The tag list in the order the specification gives: root, origin,
    uploader, version, the telescope when the context has one, then the
    custom tags, those of the call before those of the context. *)
Definition tag_list (c : UploadContext) (given : option (list string)) : list string :=
  let root := "arcsecond|root|" ++ str root_path in
  let origin := "arcsecond|origin|" ++ hostname in
  let uploader := "arcsecond|uploader|" ++ username c in
  let version := "arcsecond|version|" ++ __version__ in
  let telescope :=
    if Py.truthy (telescope_uuid c)
    then ["arcsecond|telescope|" ++ Py.str_opt (telescope_uuid c)]
    else [] in
  let custom :=
    match given with
    | Some tags => tags
    | None => match custom_tags c with Some tags => tags | None => [] end
    end in
  ([root; origin; uploader; version] ++ telescope ++ custom)%list.

Definition metadata_payload
    (c : UploadContext) (is_raw : option bool) (given : option (list string)) : Py.dict :=
  [("tags", Py.List_ (tag_list c given));
   ("is_raw", Py.Bool_ (match is_raw with Some b => b | None => is_raw_data c end));
   ("fsname", Py.Str_ hostname);
   ("fspath", Py.Str_ (str root_path))].

(** The exception the validator raises on the tags of the call, if any. *)
Definition tags_refused (c : UploadContext) (given : option (list string)) : option exn :=
  match given with
  | Some tags => _validate_custom_tags c tags
  | None => None
  end.

Definition tagged (prefix : string) (is_raw : option bool) (given : option (list string))
    (s : State) : outcome unit * State :=
  let s1 := with_status (FINISHING, Substatus.TAGGING, None)
              (with_event (Log prefix Updating_file_metadata) s) in
  match tags_refused (_context s) given with
  | Some e => (Raises e, s1)
  | None =>
      match _datafile s with
      | None => (Raises AttributeError, s1)
      | Some record =>
          let r := datafiles_update (Py.get record "pk")
                     (metadata_payload (_context s) is_raw given) in
          let s2 := with_request r s1 in
          match snd (respond api (api_calls s) r) with
          | Some error =>
              (Raises (UploadRemoteFileMetadataError (error_text error)),
               with_event (Log prefix Update_of_metadata_failed)
                 (with_status (ERROR, Substatus.ERROR, None) s2))
          | None => (Returns tt, with_status (OK, Substatus.DONE, None) s2)
          end
      end
  end.

(** What [upload_file] does once the transport phase is over. *)
Definition finish (is_raw : option bool) (given : option (list string)) : M status :=
  st <- get_status ;;
  (if Status_eqb (fst (fst st)) SKIPPED then
     info Upload_skipped
   else
     info Upload_done ;;
     tagging_phase is_raw given) ;;
  info Closing_upload_sequence ;;
  get_status.

(** The progress events of a transfer: one per read, up to the first read
    whose fraction cannot be computed. *)
Fixpoint progress (reads : list Z) : list event :=
  match reads with
  | [] => []
  | bytes_read :: rest =>
      match fraction bytes_read _file_size with
      | Some f => Printed f :: progress rest
      | None => []
      end
  end.

(** A stretch of trace written by one phase alone. *)
Definition only (ph : phase) (t : list event) : Prop :=
  Forall (fun e => event_phase e = Some ph) t.

(** The requests one run of the tagger sends: none when the validator
    refuses the tags or no file record is at hand. *)
Definition tagger_requests (c : UploadContext) (datafile : option Py.dict)
    (is_raw : option bool) (given : option (list string)) : list request :=
  match tags_refused c given, datafile with
  | None, Some record =>
      [datafiles_update (Py.get record "pk") (metadata_payload c is_raw given)]
  | _, _ => []
  end.


(** What one attempt of a phase writes: events of that phase only, with at
    most one request among them. *)
Definition attempt_of (ph : phase) (d : list event) : Prop :=
  only ph d /\ length (requests d) <= 1.

(** What a retried block writes: requests of its phase, at most two, and
    at most one pause, of one second. *)
Definition block_of (ph : phase) (d : list event) : Prop :=
  Forall (fun r => request_phase r = ph) (requests d) /\
  length (requests d) <= 2 /\
  Forall (eq 1%Z) (sleeps d) /\
  length (sleeps d) <= 1.

(** From one state to a later one, the file was opened once for each
    transport attempt in between, each time under a new handle, numbered
    from the next free one on. *)
Definition opens_per_attempt (before after : State) : Prop :=
  exists d,
    trace after = (trace before ++ d)%list /\
    handles_opened d = seq (next_handle before) (attempts Transport d) /\
    next_handle after = next_handle before + attempts Transport d.

(** The fractions printed in a stretch of trace, in order. *)
Definition printed (t : list event) : list Q :=
  flat_map (fun e => match e with Printed f => [f] | _ => [] end) t.

(** The fraction printed at a read of a file that is not empty. *)
Definition shown (bytes_read : Z) : Q :=
  Qmin (inject_Z bytes_read / inject_Z _file_size)%Q 1%Q.

(** Two states in the same world: the same context, the same next free
    handle and the same number of requests sent; their status, their file
    record, their byte count and their history may differ. *)
Definition same_world (a b : State) : Prop :=
  _context a = _context b /\
  next_handle a = next_handle b /\
  api_calls a = api_calls b.

(** Two states that moreover hold the same status and the same record. *)
Definition same_uploader (a b : State) : Prop :=
  same_world a b /\ _status a = _status b /\ _datafile a = _datafile b.

(** Two runs that wrote the same events. *)
Definition alike (a a' b b' : State) : Prop :=
  exists d, trace a' = (trace a ++ d)%list /\ trace b' = (trace b ++ d)%list.

(** ** Stepping through the primitives *)

Lemma info_logs prefix line s :
  log_prefix = Some prefix ->
  info line s = (Returns tt, with_event (Log prefix line) s).
Proof. intros H. unfold info. now rewrite H. Qed.

Lemma prepare_steps prefix s :
  log_prefix = Some prefix ->
  _prepare_dataset s = prepared prefix s.
Proof.
  intros H. unfold _prepare_dataset, prepared, resolver_request, info.
  rewrite H. cbn.
  destruct (Py.truthy (dataset_uuid (_context s))).
  - destruct (_should_update_dataset_with_telescope (_context s)); cbn;
      match goal with |- context [respond api ?n ?r] =>
        destruct (respond api n r) as [data [error|]] end; reflexivity.
  - destruct (Py.truthy (dataset_name (_context s))); [|reflexivity].
    destruct (_should_update_dataset_with_telescope (_context s)); cbn;
      match goal with |- context [respond api ?n ?r] =>
        destruct (respond api n r) as [data [error|]] end; reflexivity.
Qed.

Lemma monitor_steps reads : forall s,
  monitor reads s = (monitor_outcome reads, monitored reads s).
Proof.
  induction reads as [|b rest IH]; intros s; [reflexivity|].
  cbn [monitor monitored monitor_outcome].
  unfold percent_printer, bind, set_bytes_read, fraction.
  destruct (_file_size =? 0)%Z eqn:E; [reflexivity|].
  unfold emit. rewrite IH. unfold monitor_outcome. rewrite E.
  destruct rest; reflexivity.
Qed.

Lemma create_steps data s :
  create_datafile data s =
    let s' := monitored (body_reads api (api_calls s))
                (with_request (datafiles_create data) s) in
    match monitor_outcome (body_reads api (api_calls s)) with
    | Returns _ => (Returns (respond api (api_calls s) (datafiles_create data)), s')
    | Raises e => (Raises e, s')
    end.
Proof.
  unfold create_datafile. rewrite monitor_steps.
  destruct (monitor_outcome _); reflexivity.
Qed.

Lemma upload_steps prefix s :
  log_prefix = Some prefix ->
  _perform_upload s = uploaded prefix s.
Proof.
  intros H. unfold _perform_upload, uploaded, info, __get_upload_data.
  rewrite H. unfold bind. cbn -[create_datafile monitored].
  rewrite create_steps. cbn -[monitored].
  destruct (monitor_outcome _); [|reflexivity].
  unfold upload_data.
  match goal with |- context [respond api ?n ?r] =>
    destruct (respond api n r) as [record [error|]] end; cbn -[monitored];
    [|reflexivity].
  destruct (Py.contains _ _); reflexivity.
Qed.

Lemma metadata_steps prefix is_raw given s :
  log_prefix = Some prefix ->
  _update_file_metadata is_raw given s = tagged prefix is_raw given s.
Proof.
  intros H. unfold _update_file_metadata, tagged, tags_refused, info.
  rewrite H. unfold metadata_payload, tag_list.
  destruct (Py.truthy (telescope_uuid (_context s))) eqn:T;
    destruct given as [tags|]; cbn -[String.append]; rewrite T;
    try destruct (_validate_custom_tags (_context s) tags);
    try destruct (custom_tags (_context s)) as [own|];
    cbn -[String.append]; try reflexivity;
    (destruct (_datafile s) as [record|]; cbn -[String.append]; [|reflexivity]);
    match goal with |- context [respond api ?n ?r] =>
      destruct (respond api n r) as [data [error|]] end; reflexivity.
Qed.

Lemma upload_file_steps prefix is_raw given s :
  log_prefix = Some prefix ->
  upload_file is_raw given s =
    if is_validated (_context s) then
      (prepare_phase ;; transport_phase ;; finish is_raw given)
        (with_event (Log prefix Opening_upload_sequence) s)
    else
      (Raises UploadRemoteFileInvalidatedContextError,
       with_event (Log prefix Opening_upload_sequence) s).
Proof.
  intros H. unfold upload_file. unfold bind at 1. rewrite (info_logs _ _ _ H).
  unfold bind at 1. cbn [get_context with_event _context].
  destruct (is_validated (_context s)); reflexivity.
Qed.

(** ** Traces *)

Lemma ran_app ph a b : ran ph (a ++ b) = (ran ph a ++ ran ph b)%list.
Proof. apply filter_app. Qed.

Lemma attempts_app ph a b : attempts ph (a ++ b) = attempts ph a + attempts ph b.
Proof. unfold attempts. now rewrite filter_app, length_app. Qed.

Lemma requests_app a b : requests (a ++ b) = (requests a ++ requests b)%list.
Proof. apply flat_map_app. Qed.

Lemma handles_opened_app a b :
  handles_opened (a ++ b) = (handles_opened a ++ handles_opened b)%list.
Proof. apply flat_map_app. Qed.

Lemma sleeps_app a b : sleeps (a ++ b) = (sleeps a ++ sleeps b)%list.
Proof. apply flat_map_app. Qed.

Lemma only_app ph a b : only ph a -> only ph b -> only ph (a ++ b).
Proof. intros. apply Forall_app. now split. Qed.

Lemma only_ran_other ph ph' t : only ph t -> ph <> ph' -> ran ph' t = [].
Proof.
  intros H N. induction H as [|e t He _ IH]; [reflexivity|].
  unfold ran in *. cbn [filter]. unfold of_phase at 1. rewrite He, IH.
  destruct ph, ph'; try reflexivity; now elim N.
Qed.

Lemma only_attempts_other ph ph' t : only ph t -> ph <> ph' -> attempts ph' t = 0.
Proof.
  intros H N. induction H as [|e t He _ IH]; [reflexivity|].
  unfold attempts in *. cbn.
  destruct e as [p l| | | |]; try (destruct ph'; exact IH).
  destruct l; cbn in He; try discriminate He; injection He as <-;
    destruct ph'; try exact IH; now elim N.
Qed.

Lemma only_sleeps ph t : only ph t -> sleeps t = [].
Proof.
  intros H. induction H as [|e t He _ IH]; [reflexivity|].
  destruct e; try exact IH. discriminate He.
Qed.

Lemma only_handles_other ph t :
  only ph t -> ph <> Transport -> handles_opened t = [].
Proof.
  intros H N. induction H as [|e t He _ IH]; [reflexivity|].
  destruct e; try exact IH. injection He as <-. now elim N.
Qed.

Lemma progress_only reads : only Transport (progress reads).
Proof.
  induction reads as [|b rest IH]; cbn; [constructor|].
  destruct (fraction b _file_size); constructor; auto.
Qed.

Lemma progress_attempts ph reads : attempts ph (progress reads) = 0.
Proof.
  induction reads as [|b rest IH]; cbn; [reflexivity|].
  destruct (fraction b _file_size); [|reflexivity].
  unfold attempts in *. cbn. destruct ph; exact IH.
Qed.

Lemma progress_requests reads : requests (progress reads) = [].
Proof.
  induction reads as [|b rest IH]; cbn; [reflexivity|].
  destruct (fraction b _file_size); [exact IH|reflexivity].
Qed.

Lemma progress_handles reads : handles_opened (progress reads) = [].
Proof.
  induction reads as [|b rest IH]; cbn; [reflexivity|].
  destruct (fraction b _file_size); [exact IH|reflexivity].
Qed.

(** ** The monitor touches the progress display only *)

Lemma monitored_trace reads : forall s,
  trace (monitored reads s) = (trace s ++ progress reads)%list.
Proof.
  induction reads as [|b rest IH]; intros s; cbn; [now rewrite app_nil_r|].
  destruct (fraction b _file_size); cbn; [|now rewrite app_nil_r].
  rewrite IH. cbn. now rewrite <- app_assoc.
Qed.

Lemma monitored_keeps reads : forall s,
  _context (monitored reads s) = _context s /\
  _status (monitored reads s) = _status s /\
  _datafile (monitored reads s) = _datafile s /\
  open_files (monitored reads s) = open_files s /\
  next_handle (monitored reads s) = next_handle s /\
  api_calls (monitored reads s) = api_calls s.
Proof.
  induction reads as [|b rest IH]; intros s; cbn; [repeat split|].
  destruct (fraction b _file_size); cbn; [|repeat split].
  apply (IH (with_event _ (with_bytes_read b s))).
Qed.

Lemma monitor_outcome_returns reads :
  _file_size <> 0%Z -> monitor_outcome reads = Returns tt.
Proof.
  intros H. destruct reads; [reflexivity|]. cbn.
  now destruct (Z.eqb_spec _file_size 0).
Qed.

(** ** What one attempt of each phase writes and keeps *)

Lemma prepare_effect prefix s o s' :
  log_prefix = Some prefix ->
  _prepare_dataset s = (o, s') ->
  exists d, trace s' = (trace s ++ d)%list /\
            only Preparation d /\ attempts Preparation d = 1 /\
            open_files s' = open_files s.
Proof.
  intros H E. rewrite (prepare_steps _ _ H) in E. unfold prepared in E.
  destruct (resolver_request (_context s)) as [r|] eqn:R.
  - assert (P : request_phase r = Preparation).
    { unfold resolver_request in R.
      repeat match type of R with
             | (if ?b then _ else _) = _ => destruct b
             end; inversion R; reflexivity. }
    destruct (respond api (api_calls s) r) as [data [error|]];
      inversion E; subst; clear E.
    + exists [Log prefix Preparing_Dataset; Request r;
              Log prefix Dataset_preparation_failed].
      cbn. rewrite <- !app_assoc. repeat split.
      repeat constructor. cbn. now rewrite P.
    + exists [Log prefix Preparing_Dataset; Request r;
              Log prefix Dataset_preparation_done].
      destruct (is_create r); cbn; rewrite <- !app_assoc; repeat split;
        repeat constructor; cbn; now rewrite P.
  - inversion E; subst; clear E.
    exists [Log prefix Preparing_Dataset]. cbn. repeat split.
    repeat constructor.
Qed.

Lemma upload_effect prefix s o s' :
  log_prefix = Some prefix ->
  _perform_upload s = (o, s') ->
  (exists d, trace s' = (trace s ++ d)%list /\
             only Transport d /\ attempts Transport d = 1) /\
  _context s' = _context s /\
  open_files s' = (open_files s ++ [next_handle s])%list /\
  next_handle s' = S (next_handle s).
Proof.
  intros H E. rewrite (upload_steps _ _ H) in E. unfold uploaded in E.
  set (reads := body_reads api (api_calls s)) in *.
  set (head := [Log prefix Start_uploading;
                Log prefix (Starting_upload_to_Arcsecond _file_size);
                Open file_path (next_handle s);
                Request (datafiles_create (upload_data s))]).
  assert (Hhead : only Transport head) by (repeat constructor).
  assert (Htail : forall l, line_phase l = Some Transport -> is_entry Transport (Log prefix l) = false ->
            only Transport (head ++ progress reads ++ [Log prefix l]) /\
            attempts Transport (head ++ progress reads ++ [Log prefix l]) = 1).
  { intros l Hl He. split.
    - apply only_app; [exact Hhead|]. apply only_app; [apply progress_only|].
      repeat constructor. exact Hl.
    - rewrite !attempts_app, progress_attempts.
      change (attempts Transport head) with 1.
      unfold attempts. cbn [filter]. now rewrite He. }
  match type of E with context [monitored reads ?s0] =>
    pose proof (monitored_trace reads s0) as T;
    destruct (monitored_keeps reads s0) as (K1 & K2 & K3 & K4 & K5 & K6);
    set (m := monitored reads s0) in *
  end.
  cbn in T, K1, K4, K5.
  destruct (monitor_outcome reads).
  - destruct (respond api (api_calls s) (datafiles_create (upload_data s)))
      as [record [error|]].
    + destruct (Py.contains _ _); inversion E; subst; clear E; cbn.
      * split; [|now rewrite K1, K4, K5].
        exists (head ++ progress reads)%list. rewrite T.
        rewrite <- !app_assoc. repeat split.
        -- apply only_app; [exact Hhead|apply progress_only].
        -- now rewrite attempts_app, progress_attempts.
      * split; [|now rewrite K1, K4, K5].
        exists (head ++ progress reads ++ [Log prefix (Upload_of_file_failed file_path)])%list.
        rewrite T. rewrite <- !app_assoc. split; [reflexivity|].
        now apply Htail.
    + inversion E; subst; clear E; cbn.
      split; [|now rewrite K1, K4, K5].
      exists (head ++ progress reads ++ [Log prefix Upload_duration])%list.
      rewrite T. rewrite <- !app_assoc. split; [reflexivity|].
      now apply Htail.
  - inversion E; subst; clear E.
    split; [|now rewrite K1, K4, K5].
    exists (head ++ progress reads)%list. rewrite T.
    rewrite <- !app_assoc. repeat split.
    + apply only_app; [exact Hhead|apply progress_only].
    + now rewrite attempts_app, progress_attempts.
Qed.

Lemma upload_opens prefix s o s' :
  log_prefix = Some prefix ->
  _perform_upload s = (o, s') ->
  exists d, trace s' = (trace s ++ d)%list /\
            attempts Transport d = 1 /\
            handles_opened d = [next_handle s].
Proof.
  intros H E.
  destruct (upload_effect _ _ _ _ H E) as ((d & T & _ & A) & _).
  exists d. split; [exact T|]. split; [exact A|].
  rewrite (upload_steps _ _ H) in E. unfold uploaded in E.
  set (reads := body_reads api (api_calls s)) in *.
  set (head := [Log prefix Start_uploading;
                Log prefix (Starting_upload_to_Arcsecond _file_size);
                Open file_path (next_handle s);
                Request (datafiles_create (upload_data s))]).
  match type of E with context [monitored reads ?s0] =>
    pose proof (monitored_trace reads s0) as T0;
    set (m := monitored reads s0) in *
  end.
  cbn in T0.
  assert (R : forall tail, handles_opened tail = [] ->
                trace s' = (trace s ++ head ++ progress reads ++ tail)%list ->
                handles_opened d = [next_handle s]).
  { intros tail Q T'. rewrite T in T'. apply app_inv_head in T'. subst d.
    now rewrite !handles_opened_app, progress_handles, Q. }
  destruct (monitor_outcome reads).
  - destruct (respond api (api_calls s) (datafiles_create (upload_data s)))
      as [record [error|]].
    + destruct (Py.contains _ _); inversion E; subst s'; clear E.
      * apply (R []); [reflexivity|]. cbn. rewrite T0, app_nil_r.
        now rewrite <- !app_assoc.
      * apply (R [Log prefix (Upload_of_file_failed file_path)]); [reflexivity|].
        cbn. rewrite T0. now rewrite <- !app_assoc.
    + inversion E; subst s'; clear E.
      apply (R [Log prefix Upload_duration]); [reflexivity|].
      cbn. rewrite T0. now rewrite <- !app_assoc.
  - inversion E; subst s'; clear E.
    apply (R []); [reflexivity|]. rewrite T0, app_nil_r.
    now rewrite <- !app_assoc.
Qed.

Lemma metadata_effect prefix is_raw given s o s' :
  log_prefix = Some prefix ->
  _update_file_metadata is_raw given s = (o, s') ->
  (exists d, trace s' = (trace s ++ d)%list /\
             only Tagging d /\ attempts Tagging d = 1) /\
  _context s' = _context s /\
  open_files s' = open_files s.
Proof.
  intros H E. rewrite (metadata_steps _ _ _ _ H) in E. unfold tagged in E.
  destruct (tags_refused (_context s) given).
  { inversion E; subst; clear E. split; [|split; reflexivity].
    exists [Log prefix Updating_file_metadata]. repeat split. repeat constructor. }
  destruct (_datafile s) as [record|].
  2:{ inversion E; subst; clear E. split; [|split; reflexivity].
      exists [Log prefix Updating_file_metadata]. repeat split. repeat constructor. }
  match type of E with context [respond api ?n ?r] =>
    destruct (respond api n r) as [data [error|]] end;
    cbn in E; inversion E; subst; clear E; (split; [|split; reflexivity]).
  - eexists [Log prefix Updating_file_metadata; Request _;
             Log prefix Update_of_metadata_failed].
    cbn. rewrite <- !app_assoc. repeat split. repeat constructor.
  - eexists [Log prefix Updating_file_metadata; Request _].
    cbn. rewrite <- !app_assoc. repeat split. repeat constructor.
Qed.

(** ** The retried blocks *)

Lemma retry_once {A} (f : M A) class s e s1 :
  f s = (Raises e, s1) -> class e = true ->
  try_except f class (sleep 1 ;; f) s = f (with_event (Sleep 1) s1).
Proof. intros E C. unfold try_except. now rewrite E, C. Qed.

Lemma no_retry {A} (f : M A) class s a s1 :
  f s = (Returns a, s1) ->
  try_except f class (sleep 1 ;; f) s = (Returns a, s1).
Proof. intros E. unfold try_except. now rewrite E. Qed.

Lemma block_trace {A} ph (f : M A) class :
  (forall s o s', f s = (o, s') ->
     exists d, trace s' = (trace s ++ d)%list /\ only ph d) ->
  forall s o s', try_except f class (sleep 1 ;; f) s = (o, s') ->
    exists d, trace s' = (trace s ++ d)%list /\
              forall ph', ph <> ph' -> ran ph' d = [].
Proof.
  intros F s o s' E. unfold try_except in E.
  destruct (f s) as [[a|e] s1] eqn:E1.
  - inversion E; subst. destruct (F _ _ _ E1) as (d & T & O).
    exists d. split; [exact T|]. intros. now apply (only_ran_other ph).
  - destruct (F _ _ _ E1) as (d1 & T1 & O1).
    destruct (class e).
    + change ((sleep 1 ;; f) s1) with (f (with_event (Sleep 1) s1)) in E.
      destruct (F _ _ _ E) as (d2 & T2 & O2).
      exists (d1 ++ Sleep 1 :: d2)%list. split.
      * rewrite T2. cbn. rewrite T1. now rewrite <- !app_assoc.
      * intros ph' N. rewrite ran_app. cbn.
        change [] with (@nil event ++ [])%list. f_equal; now apply (only_ran_other ph).
    + inversion E; subst. exists d1. split; [exact T1|].
      intros. now apply (only_ran_other ph).
Qed.

Lemma block_keeps {A B} (field : State -> B) (f : M A) class :
  (forall e s, field (with_event e s) = field s) ->
  (forall s o s', f s = (o, s') -> field s' = field s) ->
  forall s o s', try_except f class (sleep 1 ;; f) s = (o, s') ->
    field s' = field s.
Proof.
  intros W F s o s' E. unfold try_except in E.
  destruct (f s) as [[a|e] s1] eqn:E1.
  - inversion E; subst. eauto.
  - destruct (class e).
    + change ((sleep 1 ;; f) s1) with (f (with_event (Sleep 1) s1)) in E.
      rewrite (F _ _ _ E), W. eauto.
    + inversion E; subst. eauto.
Qed.

Lemma prepare_writes prefix :
  log_prefix = Some prefix ->
  forall s o s', _prepare_dataset s = (o, s') ->
    exists d, trace s' = (trace s ++ d)%list /\ only Preparation d.
Proof.
  intros H s o s' E.
  destruct (prepare_effect _ _ _ _ H E) as (d & T & O & _). eauto.
Qed.

Lemma upload_writes prefix :
  log_prefix = Some prefix ->
  forall s o s', _perform_upload s = (o, s') ->
    exists d, trace s' = (trace s ++ d)%list /\ only Transport d.
Proof.
  intros H s o s' E.
  destruct (upload_effect _ _ _ _ H E) as ((d & T & O & _) & _). eauto.
Qed.

Lemma upload_keeps_context prefix :
  log_prefix = Some prefix ->
  forall s o s', _perform_upload s = (o, s') -> _context s' = _context s.
Proof. intros H s o s' E. apply (upload_effect _ _ _ _ H E). Qed.

Lemma metadata_keeps_context prefix is_raw given :
  log_prefix = Some prefix ->
  forall s o s', _update_file_metadata is_raw given s = (o, s') ->
    _context s' = _context s.
Proof. intros H s o s' E. apply (metadata_effect _ _ _ _ _ _ H E). Qed.

Lemma prepare_phase_quiet prefix s o s' :
  log_prefix = Some prefix ->
  prepare_phase s = (o, s') ->
  exists d, trace s' = (trace s ++ d)%list /\
            ran Transport d = [] /\ ran Tagging d = [].
Proof.
  intros H E.
  destruct (block_trace Preparation _ _ (prepare_writes _ H) _ _ _ E) as (d & T & Q).
  exists d. repeat split; [exact T| |]; apply Q; discriminate.
Qed.

Lemma transport_phase_quiet prefix s o s' :
  log_prefix = Some prefix ->
  transport_phase s = (o, s') ->
  (exists d, trace s' = (trace s ++ d)%list /\ ran Tagging d = []) /\
  _context s' = _context s.
Proof.
  intros H E. split.
  - destruct (block_trace Transport _ _ (upload_writes _ H) _ _ _ E) as (d & T & Q).
    exists d. split; [exact T|]. apply Q; discriminate.
  - apply (block_keeps _context _ _ (fun _ _ => eq_refl)
             (upload_keeps_context _ H) _ _ _ E).
Qed.

Lemma tagging_phase_keeps prefix is_raw given s o s' :
  log_prefix = Some prefix ->
  tagging_phase is_raw given s = (o, s') ->
  _context s' = _context s.
Proof.
  intros H E.
  apply (block_keeps _context _ _ (fun _ _ => eq_refl)
           (metadata_keeps_context _ _ _ H) _ _ _ E).
Qed.

Lemma finish_keeps prefix is_raw given s o s' :
  log_prefix = Some prefix ->
  finish is_raw given s = (o, s') ->
  _context s' = _context s.
Proof.
  intros H E. unfold finish, info in E. rewrite H in E.
  unfold bind, get_status in E.
  destruct (Status_eqb _ _).
  - cbn in E. inversion E; subst. reflexivity.
  - cbn -[tagging_phase] in E.
    destruct (tagging_phase _ _ _) as [[[]|e] s1] eqn:E1;
      inversion E; subst; cbn;
      now rewrite (tagging_phase_keeps _ _ _ _ _ _ H E1).
Qed.

(** ** After the transport *)

Lemma finish_skipped prefix is_raw given s :
  log_prefix = Some prefix ->
  Status_eqb (fst (fst (_status s))) SKIPPED = true ->
  finish is_raw given s =
    (Returns (_status s),
     with_event (Log prefix Closing_upload_sequence)
       (with_event (Log prefix Upload_skipped) s)).
Proof.
  intros H E. unfold finish, info. rewrite H.
  unfold bind at 1. cbn [get_status]. now rewrite E.
Qed.

Lemma finish_tags prefix is_raw given s :
  log_prefix = Some prefix ->
  Status_eqb (fst (fst (_status s))) SKIPPED = false ->
  finish is_raw given s =
    (tagging_phase is_raw given ;; info Closing_upload_sequence ;; get_status)
      (with_event (Log prefix Upload_done) s).
Proof.
  intros H E. unfold finish, info. rewrite H.
  unfold bind at 1. cbn [get_status]. rewrite E.
  unfold bind, emit. destruct (tagging_phase _ _ _) as [[[]|e] s1]; reflexivity.
Qed.

Lemma upload_refused prefix s record error :
  log_prefix = Some prefix ->
  _file_size <> 0%Z ->
  respond api (api_calls s) (datafiles_create (upload_data s)) = (record, Some error) ->
  exists s',
    _perform_upload s =
      ((if Py.contains "already exists in dataset" (error_text error)
        then Returns tt
        else Raises (UploadRemoteFileError
                       (Py.str_int (error_status error) ++ " - " ++ error_text error))),
       s') /\
    _status s' =
      if Py.contains "already exists in dataset" (error_text error)
      then (SKIPPED, Substatus.ALREADY_SYNCED, None)
      else (ERROR, Substatus.ERROR, None).
Proof.
  intros H NZ R. rewrite (upload_steps _ _ H). unfold uploaded.
  rewrite (monitor_outcome_returns _ NZ), R.
  destruct (Py.contains _ _); eexists; split; reflexivity.
Qed.

Lemma upload_accepted prefix s record :
  log_prefix = Some prefix ->
  _file_size <> 0%Z ->
  respond api (api_calls s) (datafiles_create (upload_data s)) = (record, None) ->
  exists s',
    _perform_upload s = (Returns tt, s') /\
    _status s' = (UPLOADING, Substatus.UPLOADING, None) /\
    _datafile s' = record /\
    _context s' = _context s /\
    api_calls s' = S (api_calls s).
Proof.
  intros H NZ R. rewrite (upload_steps _ _ H). unfold uploaded.
  rewrite (monitor_outcome_returns _ NZ), R.
  eexists. split; [reflexivity|]. cbn.
  match goal with |- context [monitored ?r ?s0] =>
    destruct (monitored_keeps r s0) as (K1 & K2 & K3 & K4 & K5 & K6) end.
  rewrite K1, K2, K6. repeat split.
Qed.

Lemma metadata_answered prefix is_raw given s record :
  log_prefix = Some prefix ->
  tags_refused (_context s) given = None ->
  _datafile s = Some record ->
  let r := datafiles_update (Py.get record "pk")
             (metadata_payload (_context s) is_raw given) in
  exists s',
    _update_file_metadata is_raw given s =
      (match snd (respond api (api_calls s) r) with
       | Some error => Raises (UploadRemoteFileMetadataError (error_text error))
       | None => Returns tt
       end, s') /\
    _status s' =
      match snd (respond api (api_calls s) r) with
      | Some _ => (ERROR, Substatus.ERROR, None)
      | None => (OK, Substatus.DONE, None)
      end /\
    trace s' = (trace s ++ Log prefix Updating_file_metadata :: Request r ::
                  match snd (respond api (api_calls s) r) with
                  | Some _ => [Log prefix Update_of_metadata_failed]
                  | None => []
                  end)%list.
Proof.
  intros H V D r. rewrite (metadata_steps _ _ _ _ H). unfold tagged.
  rewrite V, D. fold r.
  destruct (snd (respond api (api_calls s) r)); eexists;
    (split; [reflexivity|]); cbn; rewrite <- !app_assoc; split; reflexivity.
Qed.

Lemma two_attempts {A} ph (f : M A) :
  (forall s o s', f s = (o, s') ->
     exists d, trace s' = (trace s ++ d)%list /\ only ph d /\ attempts ph d = 1) ->
  forall s e s1 o s2,
    f s = (Raises e, s1) ->
    f (with_event (Sleep 1) s1) = (o, s2) ->
    exists d, trace s2 = (trace s ++ d)%list /\
              attempts ph d = 2 /\ sleeps d = [1%Z] /\
              forall ph', ph <> ph' -> ran ph' d = [].
Proof.
  intros F s e s1 o s2 E1 E2.
  destruct (F _ _ _ E1) as (d1 & T1 & O1 & A1).
  destruct (F _ _ _ E2) as (d2 & T2 & O2 & A2).
  exists (d1 ++ Sleep 1 :: d2)%list. split; [|split; [|split]].
  - rewrite T2. cbn. rewrite T1. now rewrite <- !app_assoc.
  - rewrite attempts_app, A1.
    change (Sleep 1 :: d2) with ([Sleep 1] ++ d2)%list.
    rewrite attempts_app, A2. now destruct ph.
  - change (Sleep 1 :: d2) with ([Sleep 1] ++ d2)%list.
    now rewrite !sleeps_app, (only_sleeps _ _ O1), (only_sleeps _ _ O2).
  - intros ph' N. change (Sleep 1 :: d2) with ([Sleep 1] ++ d2)%list.
    now rewrite !ran_app, (only_ran_other _ _ _ O1 N), (only_ran_other _ _ _ O2 N).
Qed.

Lemma metadata_requests prefix is_raw given s o s' :
  log_prefix = Some prefix ->
  _update_file_metadata is_raw given s = (o, s') ->
  exists d, trace s' = (trace s ++ d)%list /\
            requests d = tagger_requests (_context s) (_datafile s) is_raw given.
Proof.
  intros H E. rewrite (metadata_steps _ _ _ _ H) in E.
  unfold tagged in E. unfold tagger_requests.
  destruct (tags_refused (_context s) given).
  { inversion E; subst. now exists [Log prefix Updating_file_metadata]. }
  destruct (_datafile s) as [record|].
  2:{ inversion E; subst. now exists [Log prefix Updating_file_metadata]. }
  match type of E with context [respond api ?n ?r] =>
    destruct (respond api n r) as [data [error|]] end;
    cbn in E; inversion E; subst; clear E.
  - eexists [Log prefix Updating_file_metadata; Request _;
             Log prefix Update_of_metadata_failed].
    cbn. rewrite <- !app_assoc. split; reflexivity.
  - eexists [Log prefix Updating_file_metadata; Request _].
    cbn. rewrite <- !app_assoc. split; reflexivity.
Qed.

(** ** The orchestrator's entry checks *)

(** C3. When the context is not validated, [upload_file] raises
    [UploadRemoteFileInvalidatedContextError] at once: the one thing it
    has done is to log the opening line, so it has sent no request, run
    no phase and left the status as it was, which for a fresh uploader
    is (NEW, PENDING, None). *)
Theorem invalidated_context_is_refused prefix is_raw given s :
  log_prefix = Some prefix ->
  is_validated (_context s) <> true ->
  exists s' d,
    upload_file is_raw given s =
      (Raises UploadRemoteFileInvalidatedContextError, s') /\
    trace s' = (trace s ++ d)%list /\
    requests d = [] /\
    (forall ph, ran ph d = []) /\
    api_calls s' = api_calls s /\
    _status s' = _status s /\
    (forall c, s = init c -> _status s' = (NEW, Substatus.PENDING, None)).
Proof.
  intros H V. rewrite (upload_file_steps _ _ _ _ H).
  destruct (is_validated (_context s)); [now elim V|].
  exists (with_event (Log prefix Opening_upload_sequence) s),
         [Log prefix Opening_upload_sequence].
  do 3 (split; [reflexivity|]).
  split; [intros []; reflexivity|].
  do 2 (split; [reflexivity|]).
  intros c ->. reflexivity.
Qed.

(** C4. A context with neither a dataset UUID nor a dataset name makes the
    resolver raise [UploadRemoteDatasetCheckError] before any request,
    and [upload_file] lets that error through without a retry: the
    resolver is entered once, there is no pause, and no later phase
    runs. *)
Theorem missing_dataset_is_not_retried prefix is_raw given s :
  log_prefix = Some prefix ->
  Py.truthy (dataset_uuid (_context s)) = false ->
  Py.truthy (dataset_name (_context s)) = false ->
  (exists s',
     _prepare_dataset s =
       (Raises (UploadRemoteDatasetCheckError "No dataset specified."), s') /\
     api_calls s' = api_calls s) /\
  (is_validated (_context s) = true ->
   exists s' d,
     upload_file is_raw given s =
       (Raises (UploadRemoteDatasetCheckError "No dataset specified."), s') /\
     trace s' = (trace s ++ d)%list /\
     attempts Preparation d = 1 /\
     sleeps d = [] /\
     requests d = [] /\
     ran Transport d = [] /\
     ran Tagging d = []).
Proof.
  intros H U N.
  assert (R : forall s0, _context s0 = _context s ->
                resolver_request (_context s0) = None).
  { intros s0 ->. unfold resolver_request. now rewrite U, N. }
  split.
  - rewrite (prepare_steps _ _ H). unfold prepared. rewrite (R s eq_refl).
    eexists. split; reflexivity.
  - intros V. rewrite (upload_file_steps _ _ _ _ H), V.
    unfold bind at 1. unfold prepare_phase, try_except.
    rewrite (prepare_steps _ _ H). unfold prepared.
    rewrite (R (with_event (Log prefix Opening_upload_sequence) s) eq_refl).
    cbn [is_DatasetPreparationError].
    eexists. exists [Log prefix Opening_upload_sequence; Log prefix Preparing_Dataset].
    split; [reflexivity|]. cbn. rewrite <- app_assoc. repeat split.
Qed.

(** ** The dataset resolver *)

(** C5. The resolver looks at the UUID first.  With a UUID it sends one
    request, an update carrying the telescope when the telescope is to be
    synced and a plain read otherwise, and it leaves the context alone.
    With a name only it sends one create, whose payload is the name and,
    when the telescope is to be synced, the telescope; on success the
    returned record is handed to [update_dataset] and the result becomes
    the context.  On either path an error answer is raised as
    [UploadRemoteDatasetPreparationError] with the error's text. *)
Theorem dataset_resolution_branches prefix s :
  log_prefix = Some prefix ->
  let c := _context s in
  let telescope := ("telescope", Py.of_opt (telescope_uuid c)) in
  (Py.truthy (dataset_uuid c) = true ->
   let r := if _should_update_dataset_with_telescope c
            then datasets_update (dataset_uuid c) [telescope]
            else datasets_read (dataset_uuid c) in
   exists o s' d,
     _prepare_dataset s = (o, s') /\
     trace s' = (trace s ++ d)%list /\
     requests d = [r] /\
     _context s' = c /\
     o = match snd (respond api (api_calls s) r) with
         | Some error =>
             Raises (UploadRemoteDatasetPreparationError (error_text error))
         | None => Returns tt
         end) /\
  (Py.truthy (dataset_uuid c) = false ->
   Py.truthy (dataset_name c) = true ->
   let r := datasets_create
              (("name", Py.of_opt (dataset_name c)) ::
               if _should_update_dataset_with_telescope c
               then [telescope] else []) in
   exists o s' d,
     _prepare_dataset s = (o, s') /\
     trace s' = (trace s ++ d)%list /\
     requests d = [r] /\
     match snd (respond api (api_calls s) r) with
     | Some error =>
         o = Raises (UploadRemoteDatasetPreparationError (error_text error)) /\
         _context s' = c
     | None =>
         o = Returns tt /\
         _context s' = update_dataset c (fst (respond api (api_calls s) r))
     end).
Proof.
  intros H c telescope. subst c telescope. split.
  - intros U r. rewrite (prepare_steps _ _ H). unfold prepared.
    assert (R : resolver_request (_context s) = Some r).
    { unfold resolver_request. rewrite U. subst r.
      now destruct (_should_update_dataset_with_telescope _). }
    rewrite R.
    assert (C : is_create r = false).
    { subst r. now destruct (_should_update_dataset_with_telescope _). }
    rewrite C.
    destruct (respond api (api_calls s) r) as [data [error|]]; cbn [snd].
    + do 2 eexists.
      exists [Log prefix Preparing_Dataset; Request r;
              Log prefix Dataset_preparation_failed].
      split; [reflexivity|]. cbn. rewrite <- !app_assoc. repeat split.
    + do 2 eexists.
      exists [Log prefix Preparing_Dataset; Request r;
              Log prefix Dataset_preparation_done].
      split; [reflexivity|]. cbn. rewrite <- !app_assoc. repeat split.
  - intros U N r. rewrite (prepare_steps _ _ H). unfold prepared.
    assert (R : resolver_request (_context s) = Some r).
    { unfold resolver_request. rewrite U, N. subst r.
      now destruct (_should_update_dataset_with_telescope _). }
    rewrite R. change (is_create r) with true. cbv iota.
    destruct (respond api (api_calls s) r) as [data [error|]]; cbn [snd fst].
    + do 2 eexists.
      exists [Log prefix Preparing_Dataset; Request r;
              Log prefix Dataset_preparation_failed].
      split; [reflexivity|]. cbn. rewrite <- !app_assoc. repeat split.
    + do 2 eexists.
      exists [Log prefix Preparing_Dataset; Request r;
              Log prefix Dataset_preparation_done].
      split; [reflexivity|]. cbn. rewrite <- !app_assoc. repeat split.
Qed.

(** ** The transport and its duplicate heuristic *)

(** C1. When the server answers the upload with an error whose text
    contains "already exists in dataset", [_perform_upload] returns
    normally with status (SKIPPED, ALREADY_SYNCED, None); any other error
    answer sets (ERROR, ERROR, None) and raises [UploadRemoteFileError]
    with the status code and the text.  In [upload_file], whether that
    answer comes at the first transport attempt or at the retry, the
    SKIPPED status is what is returned and the tagger has not run. *)
Theorem duplicate_upload_is_skipped prefix :
  log_prefix = Some prefix ->
  _file_size <> 0%Z ->
  (forall s record error,
     respond api (api_calls s) (datafiles_create (upload_data s)) =
       (record, Some error) ->
     if Py.contains "already exists in dataset" (error_text error) then
       exists s', _perform_upload s = (Returns tt, s') /\
                  _status s' = (SKIPPED, Substatus.ALREADY_SYNCED, None)
     else
       exists s', _perform_upload s =
                    (Raises (UploadRemoteFileError
                               (Py.str_int (error_status error) ++ " - " ++
                                error_text error)), s') /\
                  _status s' = (ERROR, Substatus.ERROR, None)) /\
  (forall is_raw given s s1 s2 record error,
     is_validated (_context s) = true ->
     prepare_phase (with_event (Log prefix Opening_upload_sequence) s) =
       (Returns tt, s1) ->
     (s2 = s1 \/
      exists m s1', _perform_upload s1 = (Raises (UploadRemoteFileError m), s1') /\
                    s2 = with_event (Sleep 1) s1') ->
     respond api (api_calls s2) (datafiles_create (upload_data s2)) =
       (record, Some error) ->
     Py.contains "already exists in dataset" (error_text error) = true ->
     exists s' d,
       upload_file is_raw given s =
         (Returns (SKIPPED, Substatus.ALREADY_SYNCED, None), s') /\
       _status s' = (SKIPPED, Substatus.ALREADY_SYNCED, None) /\
       trace s' = (trace s ++ d)%list /\
       ran Tagging d = []).
Proof.
  intros H NZ. split.
  - intros s record error R.
    destruct (upload_refused _ _ _ _ H NZ R) as (s' & E & S).
    destruct (Py.contains _ _); eauto.
  - intros is_raw given s s1 s2 record error V P W R C.
    destruct (upload_refused _ _ _ _ H NZ R) as (s3 & E & S).
    rewrite C in E, S.
    assert (T : transport_phase s1 = (Returns tt, s3)).
    { destruct W as [->|(m & s1' & E1 & ->)].
      - now apply no_retry.
      - unfold transport_phase. now rewrite (retry_once _ _ _ _ _ E1 eq_refl). }
    rewrite (upload_file_steps _ _ _ _ H), V.
    unfold bind at 1. rewrite P. unfold bind at 1. rewrite T.
    rewrite (finish_skipped _ _ _ _ H) by now rewrite S.
    destruct (prepare_phase_quiet _ _ _ _ H P) as (dp & Tp & _ & Qp).
    destruct (transport_phase_quiet _ _ _ _ H T) as ((dt & Tt & Qt) & _).
    eexists.
    exists (Log prefix Opening_upload_sequence :: dp ++ dt ++
            [Log prefix Upload_skipped; Log prefix Closing_upload_sequence])%list.
    rewrite S. split; [reflexivity|]. split; [exact S|]. split.
    + cbn. rewrite Tt, Tp. cbn. rewrite <- !app_assoc. reflexivity.
    + change (Log prefix Opening_upload_sequence :: ?l)
        with ([Log prefix Opening_upload_sequence] ++ l)%list.
      now rewrite !ran_app, Qp, Qt.
Qed.

(** ** One retry per phase *)

(** C2. In each of the three phases, a first attempt that raises the
    phase's own error is followed by a pause of one second and exactly
    one more attempt, whatever that attempt yields.  When the second
    attempt raises too, [upload_file] raises the same exception in the
    state that attempt left, so nothing runs after it: since the phase
    began there were two attempts and one pause, and no later phase has
    written anything since the call began. *)
Theorem second_failure_propagates prefix is_raw given s :
  log_prefix = Some prefix ->
  is_validated (_context s) = true ->
  let s0 := with_event (Log prefix Opening_upload_sequence) s in
  (forall m s1,
     _prepare_dataset s0 = (Raises (UploadRemoteDatasetPreparationError m), s1) ->
     prepare_phase s0 = _prepare_dataset (with_event (Sleep 1) s1) /\
     forall e s2,
       _prepare_dataset (with_event (Sleep 1) s1) = (Raises e, s2) ->
       upload_file is_raw given s = (Raises e, s2) /\
       (exists d, trace s2 = (trace s0 ++ d)%list /\
                  attempts Preparation d = 2 /\ sleeps d = [1%Z]) /\
       (exists d, trace s2 = (trace s ++ d)%list /\
                  ran Transport d = [] /\ ran Tagging d = [])) /\
  (forall s1 m s2,
     prepare_phase s0 = (Returns tt, s1) ->
     _perform_upload s1 = (Raises (UploadRemoteFileError m), s2) ->
     transport_phase s1 = _perform_upload (with_event (Sleep 1) s2) /\
     forall e s3,
       _perform_upload (with_event (Sleep 1) s2) = (Raises e, s3) ->
       upload_file is_raw given s = (Raises e, s3) /\
       (exists d, trace s3 = (trace s1 ++ d)%list /\
                  attempts Transport d = 2 /\ sleeps d = [1%Z]) /\
       (exists d, trace s3 = (trace s ++ d)%list /\ ran Tagging d = [])) /\
  (forall s1 s2 m s3,
     prepare_phase s0 = (Returns tt, s1) ->
     transport_phase s1 = (Returns tt, s2) ->
     Status_eqb (fst (fst (_status s2))) SKIPPED = false ->
     let s2' := with_event (Log prefix Upload_done) s2 in
     _update_file_metadata is_raw given s2' =
       (Raises (UploadRemoteFileMetadataError m), s3) ->
     tagging_phase is_raw given s2' =
       _update_file_metadata is_raw given (with_event (Sleep 1) s3) /\
     forall e s4,
       _update_file_metadata is_raw given (with_event (Sleep 1) s3) = (Raises e, s4) ->
       upload_file is_raw given s = (Raises e, s4) /\
       (exists d, trace s4 = (trace s2' ++ d)%list /\
                  attempts Tagging d = 2 /\ sleeps d = [1%Z])).
Proof.
  intros H V s0. split; [|split].
  - intros m s1 E1.
    assert (R : prepare_phase s0 = _prepare_dataset (with_event (Sleep 1) s1))
      by (unfold prepare_phase; now rewrite (retry_once _ _ _ _ _ E1 eq_refl)).
    split; [exact R|]. intros e s2 E2.
    split; [|split].
    + rewrite (upload_file_steps _ _ _ _ H), V. fold s0.
      unfold bind at 1. now rewrite R, E2.
    + destruct (two_attempts Preparation _
                  (fun s o s' E =>
                     match prepare_effect _ _ _ _ H E with
                     | ex_intro _ d (conj T (conj only_d (conj A _))) =>
                         ex_intro _ d (conj T (conj only_d A))
                     end) _ _ _ _ _ E1 E2) as (d & T & A & S & _).
      eauto.
    + rewrite <- R in E2.
      destruct (prepare_phase_quiet _ _ _ _ H E2) as (d & T & Q1 & Q2).
      exists (Log prefix Opening_upload_sequence :: d). split; [|split].
      * rewrite T. cbn. now rewrite <- app_assoc.
      * exact Q1.
      * exact Q2.
  - intros s1 m s2 P E1.
    assert (R : transport_phase s1 = _perform_upload (with_event (Sleep 1) s2))
      by (unfold transport_phase; now rewrite (retry_once _ _ _ _ _ E1 eq_refl)).
    split; [exact R|]. intros e s3 E2.
    split; [|split].
    + rewrite (upload_file_steps _ _ _ _ H), V. fold s0.
      unfold bind at 1. rewrite P. unfold bind at 1. now rewrite R, E2.
    + destruct (two_attempts Transport _
                  (fun s o s' E => proj1 (upload_effect _ _ _ _ H E))
                  _ _ _ _ _ E1 E2) as (d & T & A & S & _).
      eauto.
    + rewrite <- R in E2.
      destruct (prepare_phase_quiet _ _ _ _ H P) as (dp & Tp & _ & Qp).
      destruct (transport_phase_quiet _ _ _ _ H E2) as ((dt & Tt & Qt) & _).
      exists (Log prefix Opening_upload_sequence :: dp ++ dt)%list. split.
      * rewrite Tt, Tp. cbn. now rewrite <- !app_assoc.
      * change (Log prefix Opening_upload_sequence :: ?l)
          with ([Log prefix Opening_upload_sequence] ++ l)%list.
        now rewrite !ran_app, Qp, Qt.
  - intros s1 s2 m s3 P T N s2' E1.
    assert (R : tagging_phase is_raw given s2' =
                _update_file_metadata is_raw given (with_event (Sleep 1) s3))
      by (unfold tagging_phase; now rewrite (retry_once _ _ _ _ _ E1 eq_refl)).
    split; [exact R|]. intros e s4 E2.
    split.
    + rewrite (upload_file_steps _ _ _ _ H), V. fold s0.
      unfold bind at 1. rewrite P. unfold bind at 1. rewrite T.
      rewrite (finish_tags _ _ _ _ H N). fold s2'.
      unfold bind at 1. now rewrite R, E2.
    + destruct (two_attempts Tagging _
                  (fun s o s' E => proj1 (metadata_effect _ _ _ _ _ _ H E))
                  _ _ _ _ _ E1 E2) as (d & T' & A & S & _).
      eauto.
Qed.

Lemma prepare_effect_status prefix s o s' :
  log_prefix = Some prefix ->
  _prepare_dataset s = (o, s') ->
  _status s' = (PREPARING, Substatus.CHECKING, None).
Proof.
  intros H E. rewrite (prepare_steps _ _ H) in E. unfold prepared in E.
  destruct (resolver_request (_context s)) as [r|].
  - destruct (respond api (api_calls s) r) as [data [error|]];
      inversion E; subst; [reflexivity|].
    now destruct (is_create r).
  - now inversion E.
Qed.

(** ** The tagger *)

(** C7. When the dataset is resolved, the server accepts the upload and
    then accepts the metadata update, [upload_file] returns
    (OK, DONE, None), and that status is the tagger's doing: the status is
    (PREPARING, CHECKING, None) when the preparation is over and
    (UPLOADING, UPLOADING, None) when the transport is over; the tagger,
    run once from there, sends the one metadata update and leaves
    (OK, DONE, None); and [upload_file] ends in the state the tagger left,
    with the closing log line added and nothing else.  Whenever
    [_update_file_metadata] returns, the status is (OK, DONE, None).  When
    the server answers the metadata update with an error, the tagger sets
    (ERROR, ERROR, None) and raises [UploadRemoteFileMetadataError] with
    the error's text. *)
Theorem full_success_is_done prefix is_raw given :
  log_prefix = Some prefix ->
  _file_size <> 0%Z ->
  (forall s s1 record,
     is_validated (_context s) = true ->
     prepare_phase (with_event (Log prefix Opening_upload_sequence) s) =
       (Returns tt, s1) ->
     respond api (api_calls s1) (datafiles_create (upload_data s1)) =
       (Some record, None) ->
     tags_refused (_context s1) given = None ->
     snd (respond api (S (api_calls s1))
            (datafiles_update (Py.get record "pk")
               (metadata_payload (_context s1) is_raw given))) = None ->
     exists s2 s3 d,
       _status s1 = (PREPARING, Substatus.CHECKING, None) /\
       transport_phase s1 = (Returns tt, s2) /\
       _status s2 = (UPLOADING, Substatus.UPLOADING, None) /\
       _update_file_metadata is_raw given (with_event (Log prefix Upload_done) s2) =
         (Returns tt, s3) /\
       trace s3 = (trace (with_event (Log prefix Upload_done) s2) ++ d)%list /\
       attempts Tagging d = 1 /\
       requests d = [datafiles_update (Py.get record "pk")
                       (metadata_payload (_context s1) is_raw given)] /\
       _status s3 = (OK, Substatus.DONE, None) /\
       upload_file is_raw given s =
         (Returns (OK, Substatus.DONE, None),
          with_event (Log prefix Closing_upload_sequence) s3)) /\
  (forall s s',
     _update_file_metadata is_raw given s = (Returns tt, s') ->
     _status s' = (OK, Substatus.DONE, None)) /\
  (forall s record data error,
     tags_refused (_context s) given = None ->
     _datafile s = Some record ->
     respond api (api_calls s)
       (datafiles_update (Py.get record "pk")
          (metadata_payload (_context s) is_raw given)) = (data, Some error) ->
     exists s',
       _update_file_metadata is_raw given s =
         (Raises (UploadRemoteFileMetadataError (error_text error)), s') /\
       _status s' = (ERROR, Substatus.ERROR, None)).
Proof.
  intros H NZ. split; [|split].
  - intros s s1 record V P R G A.
    assert (S1 : _status s1 = (PREPARING, Substatus.CHECKING, None)).
    { unfold prepare_phase, try_except in P.
      destruct (_prepare_dataset _) as [[[]|e] s0] eqn:E0.
      - inversion P; subst. apply (prepare_effect_status _ _ _ _ H E0).
      - destruct (is_DatasetPreparationError e); [|discriminate P].
        change ((sleep 1 ;; _prepare_dataset) s0)
          with (_prepare_dataset (with_event (Sleep 1) s0)) in P.
        apply (prepare_effect_status _ _ _ _ H P). }
    destruct (upload_accepted _ _ _ H NZ R) as (s2 & E & S2 & D & C & N).
    assert (T : transport_phase s1 = (Returns tt, s2)) by now apply no_retry.
    assert (G' : tags_refused (_context (with_event (Log prefix Upload_done) s2)) given
                 = None) by (cbn [_context with_event]; now rewrite C).
    destruct (metadata_answered prefix is_raw given
                (with_event (Log prefix Upload_done) s2) record H G' D)
      as (s3 & E3 & S3 & T3).
    cbn [_context with_event api_calls] in E3, S3, T3.
    rewrite C, N, A in E3, S3, T3.
    exists s2, s3.
    eexists [Log prefix Updating_file_metadata; Request _].
    split; [exact S1|]. split; [exact T|]. split; [exact S2|].
    split; [exact E3|]. split; [exact T3|].
    split; [reflexivity|]. split; [reflexivity|]. split; [exact S3|].
    rewrite (upload_file_steps _ _ _ _ H), V.
    unfold bind at 1. rewrite P. unfold bind at 1. rewrite T.
    rewrite (finish_tags _ _ _ _ H) by now rewrite S2.
    unfold bind at 1. unfold tagging_phase.
    rewrite (no_retry _ is_FileMetadataError _ _ _ E3).
    unfold info. rewrite H. unfold bind, emit, get_status.
    cbn [_status with_event]. now rewrite S3.
  - intros s s' E. rewrite (metadata_steps _ _ _ _ H) in E. unfold tagged in E.
    destruct (tags_refused _ _); [discriminate|].
    destruct (_datafile s); [|discriminate].
    destruct (snd (respond _ _ _)); [discriminate|].
    inversion E; subst. reflexivity.
  - intros s record data error G D R.
    destruct (metadata_answered prefix is_raw given s record H G D) as (s' & E & S & _).
    rewrite R in E, S. eauto.
Qed.

(** C8. The request the tagger sends carries the tags in a fixed order:
    root, origin (the host name), uploader, version, the telescope tag
    exactly when the context has a telescope UUID, then the custom tags,
    which are those of the call when the call gives any and those of the
    context otherwise.  The request depends on the context, the file
    record and the arguments only: two runs that agree on them send the
    same requests, whatever else differs in the uploader's state. *)
Theorem tag_list_is_stable prefix is_raw given :
  log_prefix = Some prefix ->
  (forall s record,
     tags_refused (_context s) given = None ->
     _datafile s = Some record ->
     exists o s' d,
       _update_file_metadata is_raw given s = (o, s') /\
       trace s' = (trace s ++ d)%list /\
       requests d =
         [datafiles_update (Py.get record "pk")
            [("tags", Py.List_ (tag_list (_context s) given));
             ("is_raw", Py.Bool_ (match is_raw with
                                  | Some b => b
                                  | None => is_raw_data (_context s)
                                  end));
             ("fsname", Py.Str_ hostname);
             ("fspath", Py.Str_ (str root_path))]]) /\
  (forall c,
     tag_list c given =
       ("arcsecond|root|" ++ str root_path) ::
       ("arcsecond|origin|" ++ hostname) ::
       ("arcsecond|uploader|" ++ username c) ::
       ("arcsecond|version|" ++ __version__) ::
       ((if Py.truthy (telescope_uuid c)
         then [("arcsecond|telescope|" ++ Py.str_opt (telescope_uuid c))%string]
         else []) ++
        match given with
        | Some tags => tags
        | None => match custom_tags c with Some tags => tags | None => [] end
        end)%list) /\
  (forall s1 s2 o1 o2 s1' s2',
     _context s1 = _context s2 ->
     _datafile s1 = _datafile s2 ->
     _update_file_metadata is_raw given s1 = (o1, s1') ->
     _update_file_metadata is_raw given s2 = (o2, s2') ->
     exists d1 d2,
       trace s1' = (trace s1 ++ d1)%list /\
       trace s2' = (trace s2 ++ d2)%list /\
       requests d1 = requests d2).
Proof.
  intros H. split; [|split].
  - intros s record G D.
    destruct (_update_file_metadata is_raw given s) as [o s'] eqn:E.
    destruct (metadata_requests _ _ _ _ _ _ H E) as (d & T & R).
    unfold tagger_requests in R. rewrite G, D in R.
    exists o, s', d. auto.
  - intros c. reflexivity.
  - intros s1 s2 o1 o2 s1' s2' C D E1 E2.
    destruct (metadata_requests _ _ _ _ _ _ H E1) as (d1 & T1 & R1).
    destruct (metadata_requests _ _ _ _ _ _ H E2) as (d2 & T2 & R2).
    exists d1, d2. rewrite R1, R2, C, D. auto.
Qed.

(** ** The file handle and the shared context *)


(** C10. Nothing undoes the resolver's write to the context: whatever
    [upload_file] yields after the preparation has returned, an exception
    of a later phase included, the context is the one the preparation
    left; and when the preparation was a create that the server accepted,
    that context is [update_dataset] of the old one and the returned
    record. *)
Theorem created_dataset_is_kept prefix is_raw given s o s' :
  log_prefix = Some prefix ->
  is_validated (_context s) = true ->
  upload_file is_raw given s = (o, s') ->
  (forall s1,
     prepare_phase (with_event (Log prefix Opening_upload_sequence) s) =
       (Returns tt, s1) ->
     _context s' = _context s1) /\
  (forall data,
     Py.truthy (dataset_uuid (_context s)) = false ->
     Py.truthy (dataset_name (_context s)) = true ->
     respond api (api_calls s)
       (datasets_create
          (("name", Py.of_opt (dataset_name (_context s))) ::
           if _should_update_dataset_with_telescope (_context s)
           then [("telescope", Py.of_opt (telescope_uuid (_context s)))]
           else [])) = (data, None) ->
     _context s' = update_dataset (_context s) data).
Proof.
  intros H V E.
  assert (K : forall s1,
            prepare_phase (with_event (Log prefix Opening_upload_sequence) s) =
              (Returns tt, s1) -> _context s' = _context s1).
  { intros s1 P. rewrite (upload_file_steps _ _ _ _ H), V in E.
    unfold bind at 1 in E. rewrite P in E. unfold bind at 1 in E.
    destruct (transport_phase s1) as [[[]|e] s2] eqn:T.
    - rewrite (finish_keeps _ _ _ _ _ _ H E).
      apply (transport_phase_quiet _ _ _ _ H T).
    - inversion E; subst. apply (transport_phase_quiet _ _ _ _ H T). }
  split; [exact K|].
  intros data U N R.
  set (s0 := with_event (Log prefix Opening_upload_sequence) s) in *.
  assert (Q : resolver_request (_context s0) =
              Some (datasets_create
                      (("name", Py.of_opt (dataset_name (_context s))) ::
                       if _should_update_dataset_with_telescope (_context s)
                       then [("telescope", Py.of_opt (telescope_uuid (_context s)))]
                       else []))).
  { unfold resolver_request. cbn [s0 _context with_event]. rewrite U, N.
    now destruct (_should_update_dataset_with_telescope _). }
  assert (P : _prepare_dataset s0 = prepared prefix s0) by apply (prepare_steps _ _ H).
  unfold prepared in P. rewrite Q in P.
  change (api_calls s0) with (api_calls s) in P. rewrite R in P.
  cbn [is_create] in P.
  rewrite (K _ (no_retry _ _ _ _ _ P)). reflexivity.
Qed.

(** ** Further lemmas on the ways out of each phase *)

Lemma info_fails line s :
  log_prefix = None -> info line s = (Raises ValueError, s).
Proof. intros H. unfold info. now rewrite H. Qed.

Lemma block_returns {A} (f : M A) class s a s' :
  try_except f class (sleep 1 ;; f) s = (Returns a, s') ->
  exists s0, f s0 = (Returns a, s').
Proof.
  unfold try_except. intros E.
  destruct (f s) as [[a0|e] s1] eqn:E1.
  - inversion E; subst. eauto.
  - destruct (class e); [|discriminate].
    exists (with_event (Sleep 1) s1). exact E.
Qed.

Lemma block_raises {A} (f : M A) class s e s' :
  try_except f class (sleep 1 ;; f) s = (Raises e, s') ->
  exists s0, f s0 = (Raises e, s').
Proof.
  unfold try_except. intros E.
  destruct (f s) as [[a0|e0] s1] eqn:E1; [discriminate|].
  destruct (class e0).
  - exists (with_event (Sleep 1) s1). exact E.
  - inversion E; subst. eauto.
Qed.

Lemma prepare_exit prefix s o s' :
  log_prefix = Some prefix ->
  _prepare_dataset s = (o, s') ->
  _status s' = (PREPARING, Substatus.CHECKING, None) /\
  next_handle s' = next_handle s.
Proof.
  intros H E. rewrite (prepare_steps _ _ H) in E. unfold prepared in E.
  destruct (resolver_request (_context s)) as [r|].
  - destruct (respond api (api_calls s) r) as [data [error|]];
      inversion E; subst; [now split|].
    destruct (is_create r); now split.
  - inversion E; subst. now split.
Qed.

Lemma upload_exit prefix s o s' :
  log_prefix = Some prefix ->
  _perform_upload s = (o, s') ->
  (o = Returns tt /\ _status s' = (UPLOADING, Substatus.UPLOADING, None)) \/
  (o = Returns tt /\ _status s' = (SKIPPED, Substatus.ALREADY_SYNCED, None)) \/
  ((exists m, o = Raises (UploadRemoteFileError m)) /\
   _status s' = (ERROR, Substatus.ERROR, None)) \/
  (o = Raises ZeroDivisionError /\
   _status s' = (UPLOADING, Substatus.UPLOADING, None) /\
   _file_size = 0%Z /\ _datafile s' = _datafile s).
Proof.
  intros H E. rewrite (upload_steps _ _ H) in E. unfold uploaded in E.
  match type of E with context [monitored ?r ?s0] =>
    destruct (monitored_keeps r s0) as (K1 & K2 & K3 & K4 & K5 & K6);
    set (m := monitored r s0) in *
  end.
  cbn in K2, K3.
  destruct (monitor_outcome _) as [[]|e] eqn:O.
  - destruct (respond api _ _) as [record [error|]].
    + destruct (Py.contains _ _); inversion E; subst; cbn.
      * right. left. now split.
      * right. right. left. split; [eauto|reflexivity].
    + inversion E; subst. left. split; [reflexivity|exact K2].
  - inversion E; subst. right. right. right.
    unfold monitor_outcome in O. destruct (body_reads api (api_calls s)); [discriminate|].
    destruct (Z.eqb_spec _file_size 0); [|discriminate].
    inversion O; subst. repeat split; assumption.
Qed.

Lemma metadata_exit prefix is_raw given s o s' :
  log_prefix = Some prefix ->
  _update_file_metadata is_raw given s = (o, s') ->
  (o = Returns tt /\ _status s' = (OK, Substatus.DONE, None)) \/
  ((exists e, o = Raises e) /\
   (_status s' = (FINISHING, Substatus.TAGGING, None) \/
    _status s' = (ERROR, Substatus.ERROR, None))).
Proof.
  intros H E. rewrite (metadata_steps _ _ _ _ H) in E. unfold tagged in E.
  destruct (tags_refused _ _).
  { inversion E; subst. right. split; [eauto|now left]. }
  destruct (_datafile s).
  2:{ inversion E; subst. right. split; [eauto|now left]. }
  destruct (snd (respond _ _ _)); inversion E; subst.
  - right. split; [eauto|now right].
  - left. now split.
Qed.

(** ** The status a caller reads *)

(** X1. Whenever [upload_file] returns, the value it returns is the status
    the uploader is left with, and it is one of two: (OK, DONE, None) or
    (SKIPPED, ALREADY_SYNCED, None).  No transitional or error status is
    ever returned. *)
Theorem returned_status_is_terminal is_raw given s st s' :
  upload_file is_raw given s = (Returns st, s') ->
  st = _status s' /\
  (st = (OK, Substatus.DONE, None) \/
   st = (SKIPPED, Substatus.ALREADY_SYNCED, None)).
Proof.
  intros E. destruct log_prefix as [prefix|] eqn:L.
  2:{ unfold upload_file, bind in E. now rewrite (info_fails _ _ L) in E. }
  rewrite (upload_file_steps _ _ _ _ L) in E.
  destruct (is_validated _); [|discriminate].
  unfold bind at 1 in E.
  destruct (prepare_phase _) as [[[]|e] s1]; [|discriminate].
  unfold bind at 1 in E.
  destruct (transport_phase s1) as [[[]|e] s2] eqn:T; [|discriminate].
  destruct (block_returns _ _ _ _ _ T) as (s0 & U).
  destruct (upload_exit _ _ _ _ L U) as [(_ & S)|[(_ & S)|[((m & F) & _)|(F & _)]]];
    try discriminate F.
  - rewrite (finish_tags _ _ _ _ L) in E by now rewrite S.
    unfold bind at 1 in E.
    destruct (tagging_phase _ _ _) as [[[]|e] s3] eqn:G; [|discriminate].
    destruct (block_returns _ _ _ _ _ G) as (s4 & D).
    destruct (metadata_exit _ _ _ _ _ _ L D) as [(_ & S3)|((e & F) & _)];
      [|discriminate F].
    unfold info in E. rewrite L in E. unfold bind, emit, get_status in E.
    inversion E; subst. cbn. rewrite S3. auto.
  - rewrite (finish_skipped _ _ _ _ L) in E by now rewrite S.
    inversion E; subst. cbn. rewrite S. auto.
Qed.

(** X2. A call that raises never leaves a success status behind: if the
    status was neither OK nor SKIPPED when [upload_file] was called and the
    call raises, whatever the exception, the status is neither OK nor
    SKIPPED afterwards. *)
Theorem raised_call_never_reports_success is_raw given s e s' :
  fst (fst (_status s)) <> OK ->
  fst (fst (_status s)) <> SKIPPED ->
  upload_file is_raw given s = (Raises e, s') ->
  fst (fst (_status s')) <> OK /\ fst (fst (_status s')) <> SKIPPED.
Proof.
  intros N1 N2 E. destruct log_prefix as [prefix|] eqn:L.
  2:{ unfold upload_file, bind in E. rewrite (info_fails _ _ L) in E.
      inversion E; subst. now split. }
  rewrite (upload_file_steps _ _ _ _ L) in E.
  destruct (is_validated _); [|inversion E; subst; now split].
  unfold bind at 1 in E.
  destruct (prepare_phase _) as [[[]|e1] s1] eqn:P.
  2:{ inversion E; subst. destruct (block_raises _ _ _ _ _ P) as (s0 & F).
      destruct (prepare_exit _ _ _ _ L F) as (S & _). rewrite S. now split. }
  unfold bind at 1 in E.
  destruct (transport_phase s1) as [[[]|e2] s2] eqn:T.
  2:{ inversion E; subst. destruct (block_raises _ _ _ _ _ T) as (s0 & F).
      destruct (upload_exit _ _ _ _ L F)
        as [(C & _)|[(C & _)|[(_ & S)|(_ & S & _)]]];
        try discriminate C; rewrite S; now split. }
  destruct (block_returns _ _ _ _ _ T) as (s0 & U).
  destruct (upload_exit _ _ _ _ L U) as [(_ & S)|[(_ & S)|[((m & F) & _)|(F & _)]]];
    try discriminate F.
  - rewrite (finish_tags _ _ _ _ L) in E by now rewrite S.
    unfold bind at 1 in E.
    destruct (tagging_phase _ _ _) as [[[]|e3] s3] eqn:G.
    + unfold info in E. rewrite L in E. discriminate E.
    + inversion E; subst. destruct (block_raises _ _ _ _ _ G) as (s4 & D).
      destruct (metadata_exit _ _ _ _ _ _ L D) as [(C & _)|(_ & [S3|S3])];
        try discriminate C; rewrite S3; now split.
  - rewrite (finish_skipped _ _ _ _ L) in E by now rewrite S. discriminate E.
Qed.

Lemma prepare_raises_keeps prefix s e s' :
  log_prefix = Some prefix ->
  _prepare_dataset s = (Raises e, s') ->
  _context s' = _context s /\
  (is_DatasetPreparationError e = true \/
   e = UploadRemoteDatasetCheckError "No dataset specified.").
Proof.
  intros H E. rewrite (prepare_steps _ _ H) in E. unfold prepared in E.
  destruct (resolver_request (_context s)) as [r|].
  - destruct (respond api (api_calls s) r) as [data [error|]];
      inversion E; subst. split; [reflexivity|now left].
  - inversion E; subst. split; [reflexivity|now right].
Qed.

(** ** Failures that are not retried *)

(** X3. An empty file stops the transport for good.  When the file's size
    is 0 and the client reads the body at least once, [upload_file] raises
    [ZeroDivisionError] from the progress callback of the first transport
    attempt: the request has been issued, there is no pause and no second
    attempt, the server's answer is never looked at (the record slot keeps
    its value) and the status stays (UPLOADING, UPLOADING, None).
    Conversely, whatever the file's size, a transport attempt that raises
    [ZeroDivisionError] was given an empty file whose body the client read
    at least once. *)
Theorem empty_file_is_not_retried prefix is_raw given s s1 :
  log_prefix = Some prefix ->
  (is_validated (_context s) = true ->
   prepare_phase (with_event (Log prefix Opening_upload_sequence) s) = (Returns tt, s1) ->
   _file_size = 0%Z ->
   body_reads api (api_calls s1) <> [] ->
   exists s' d,
     upload_file is_raw given s = (Raises ZeroDivisionError, s') /\
     trace s' = (trace s1 ++ d)%list /\
     attempts Transport d = 1 /\
     sleeps d = [] /\
     requests d = [datafiles_create (upload_data s1)] /\
     _datafile s' = _datafile s1 /\
     _status s' = (UPLOADING, Substatus.UPLOADING, None)) /\
  (forall s2 s3,
     _perform_upload s2 = (Raises ZeroDivisionError, s3) ->
     _file_size = 0%Z /\ body_reads api (api_calls s2) <> []).
Proof.
  intros L. split.
  - intros V P Z0 R.
    rewrite (upload_file_steps _ _ _ _ L), V.
    unfold bind at 1. rewrite P. unfold bind at 1.
    unfold transport_phase, try_except.
    rewrite (upload_steps _ _ L). unfold uploaded.
    assert (O : monitor_outcome (body_reads api (api_calls s1)) =
                Raises ZeroDivisionError).
    { unfold monitor_outcome. destruct (body_reads api (api_calls s1)) as [|b rest];
        [now elim R|]. now rewrite Z0. }
    rewrite O. cbn [is_FileError].
    assert (G : progress (body_reads api (api_calls s1)) = []).
    { destruct (body_reads api (api_calls s1)) as [|b rest]; [reflexivity|].
      cbn. unfold fraction. now rewrite Z0. }
    match goal with |- context [monitored ?r ?s0] =>
      pose proof (monitored_trace r s0) as T;
      destruct (monitored_keeps r s0) as (K1 & K2 & K3 & K4 & K5 & K6)
    end.
    rewrite G in T. cbn in T, K2, K3.
    eexists. eexists [Log prefix Start_uploading;
                      Log prefix (Starting_upload_to_Arcsecond _file_size);
                      Open file_path (next_handle s1);
                      Request (datafiles_create (upload_data s1))].
    split; [reflexivity|]. rewrite T, K2, K3, app_nil_r, <- !app_assoc.
    repeat split.
  - intros s2 s3 E. rewrite (upload_steps _ _ L) in E. unfold uploaded in E.
    unfold monitor_outcome in E.
    destruct (body_reads api (api_calls s2)) as [|b rest].
    + destruct (respond api _ _) as [record [error|]];
        [destruct (Py.contains _ _)|]; discriminate E.
    + destruct (Z.eqb_spec _file_size 0) as [Z0|_].
      * split; [exact Z0|discriminate].
      * destruct (respond api _ _) as [record [error|]];
          [destruct (Py.contains _ _)|]; discriminate E.
Qed.

(** X4. A preparation that fails for good leaves no mark of an error.
    When the preparation block of [upload_file] raises, at its first
    attempt or at its retry, [upload_file] raises the same exception, which
    is a dataset-check or a dataset-preparation error; the status is
    (PREPARING, CHECKING, None), not (ERROR, ERROR, None); the context is
    untouched; no file has been opened. *)
Theorem failed_preparation_is_not_marked prefix is_raw given s e s1 :
  log_prefix = Some prefix ->
  is_validated (_context s) = true ->
  prepare_phase (with_event (Log prefix Opening_upload_sequence) s) = (Raises e, s1) ->
  upload_file is_raw given s = (Raises e, s1) /\
  (is_DatasetPreparationError e = true \/
   e = UploadRemoteDatasetCheckError "No dataset specified.") /\
  _status s1 = (PREPARING, Substatus.CHECKING, None) /\
  _context s1 = _context s /\
  open_files s1 = open_files s.
Proof.
  intros L V P. split.
  { rewrite (upload_file_steps _ _ _ _ L), V. unfold bind at 1. now rewrite P. }
  destruct (block_raises _ _ _ _ _ P) as (s0 & F).
  destruct (prepare_raises_keeps _ _ _ _ L F) as (_ & K).
  destruct (prepare_exit _ _ _ _ L F) as (S & _).
  split; [exact K|]. split; [exact S|]. split.
  - unfold prepare_phase, try_except in P.
    destruct (_prepare_dataset _) as [[[]|e1] s2] eqn:E1; [discriminate|].
    destruct (prepare_raises_keeps _ _ _ _ L E1) as (C1 & _).
    destruct (is_DatasetPreparationError e1).
    + change ((sleep 1 ;; _prepare_dataset) s2)
        with (_prepare_dataset (with_event (Sleep 1) s2)) in P.
      destruct (prepare_raises_keeps _ _ _ _ L P) as (C2 & _).
      rewrite C2. exact C1.
    + inversion P; subst. exact C1.
  - apply (block_keeps open_files _ _ (fun _ _ => eq_refl)) in P; [exact P|].
    intros s2 o s3 E.
    destruct (prepare_effect _ _ _ _ L E) as (d & _ & _ & _ & F'). exact F'.
Qed.

(** ** What a retry does again *)

Lemma prepare_requests prefix s o s' :
  log_prefix = Some prefix ->
  _prepare_dataset s = (o, s') ->
  exists d, trace s' = (trace s ++ d)%list /\
            requests d = match resolver_request (_context s) with
                         | Some r => [r]
                         | None => []
                         end.
Proof.
  intros H E. rewrite (prepare_steps _ _ H) in E. unfold prepared in E.
  destruct (resolver_request (_context s)) as [r|].
  - destruct (respond api (api_calls s) r) as [data [error|]];
      inversion E; subst; clear E.
    + exists [Log prefix Preparing_Dataset; Request r;
              Log prefix Dataset_preparation_failed].
      cbn. now rewrite <- !app_assoc.
    + exists [Log prefix Preparing_Dataset; Request r;
              Log prefix Dataset_preparation_done].
      destruct (is_create r); cbn; now rewrite <- !app_assoc.
  - inversion E; subst. now exists [Log prefix Preparing_Dataset].
Qed.

Lemma upload_requests prefix s o s' :
  log_prefix = Some prefix ->
  _perform_upload s = (o, s') ->
  exists d, trace s' = (trace s ++ d)%list /\
            requests d = [datafiles_create (upload_data s)].
Proof.
  intros H E. rewrite (upload_steps _ _ H) in E. unfold uploaded in E.
  set (reads := body_reads api (api_calls s)) in *.
  set (head := [Log prefix Start_uploading;
                Log prefix (Starting_upload_to_Arcsecond _file_size);
                Open file_path (next_handle s);
                Request (datafiles_create (upload_data s))]).
  match type of E with context [monitored reads ?s0] =>
    pose proof (monitored_trace reads s0) as T;
    set (m := monitored reads s0) in *
  end.
  cbn in T.
  assert (R : forall tail, requests tail = [] ->
                requests (head ++ progress reads ++ tail) =
                [datafiles_create (upload_data s)]).
  { intros tail Q. now rewrite !requests_app, progress_requests, Q. }
  assert (R0 : requests (head ++ progress reads) = [datafiles_create (upload_data s)])
    by now rewrite requests_app, progress_requests.
  destruct (monitor_outcome reads).
  - destruct (respond api (api_calls s) (datafiles_create (upload_data s)))
      as [record [error|]].
    + destruct (Py.contains _ _); inversion E; subst; clear E; cbn; rewrite T.
      * exists (head ++ progress reads)%list.
        rewrite <- !app_assoc. split; [reflexivity|exact R0].
      * exists (head ++ progress reads ++
                [Log prefix (Upload_of_file_failed file_path)])%list.
        rewrite <- !app_assoc. split; [reflexivity|]. now apply R.
    + inversion E; subst; clear E; cbn; rewrite T.
      exists (head ++ progress reads ++ [Log prefix Upload_duration])%list.
      rewrite <- !app_assoc. split; [reflexivity|]. now apply R.
  - inversion E; subst; clear E. rewrite T.
    exists (head ++ progress reads)%list.
    rewrite <- !app_assoc. split; [reflexivity|exact R0].
Qed.

Lemma metadata_keeps_record prefix is_raw given s o s' :
  log_prefix = Some prefix ->
  _update_file_metadata is_raw given s = (o, s') ->
  _datafile s' = _datafile s /\ next_handle s' = next_handle s.
Proof.
  intros H E. rewrite (metadata_steps _ _ _ _ H) in E. unfold tagged in E.
  destruct (tags_refused _ _); [inversion E; subst; now split|].
  destruct (_datafile s) eqn:D; [|inversion E; subst; now split].
  destruct (snd (respond _ _ _)); inversion E; subst; now split.
Qed.

(** X5. A retry sends the request again.  After a first resolver attempt
    that raised a dataset-preparation error the second attempt sends the
    very same request; after a first tagger attempt that raised a metadata
    error the second sends the same requests as the first; and after a
    first transport attempt that raised a transfer error the second sends
    the same body fields read from a new handle, the next one. *)
Theorem retry_repeats_the_request prefix is_raw given :
  log_prefix = Some prefix ->
  (forall s m s1 o s2,
     _prepare_dataset s = (Raises (UploadRemoteDatasetPreparationError m), s1) ->
     _prepare_dataset (with_event (Sleep 1) s1) = (o, s2) ->
     exists r d1 d2,
       trace s1 = (trace s ++ d1)%list /\
       trace s2 = (trace s1 ++ Sleep 1 :: d2)%list /\
       requests d1 = [r] /\ requests d2 = [r]) /\
  (forall s m s1 o s2,
     _perform_upload s = (Raises (UploadRemoteFileError m), s1) ->
     _perform_upload (with_event (Sleep 1) s1) = (o, s2) ->
     exists d1 d2,
       trace s1 = (trace s ++ d1)%list /\
       trace s2 = (trace s1 ++ Sleep 1 :: d2)%list /\
       requests d1 =
         [datafiles_create {| field_dataset := dataset_uuid (_context s);
                              field_file := (name file_path, next_handle s) |}] /\
       requests d2 =
         [datafiles_create {| field_dataset := dataset_uuid (_context s);
                              field_file := (name file_path, S (next_handle s)) |}]) /\
  (forall s m s1 o s2,
     _update_file_metadata is_raw given s =
       (Raises (UploadRemoteFileMetadataError m), s1) ->
     _update_file_metadata is_raw given (with_event (Sleep 1) s1) = (o, s2) ->
     exists d1 d2,
       trace s1 = (trace s ++ d1)%list /\
       trace s2 = (trace s1 ++ Sleep 1 :: d2)%list /\
       requests d1 = requests d2).
Proof.
  intros L. split; [|split].
  - intros s m s1 o s2 E1 E2.
    destruct (prepare_requests _ _ _ _ L E1) as (d1 & T1 & R1).
    destruct (prepare_requests _ _ _ _ L E2) as (d2 & T2 & R2).
    destruct (prepare_raises_keeps _ _ _ _ L E1) as (C & _).
    cbn [_context with_event] in R2. rewrite C in R2.
    destruct (resolver_request (_context s)) as [r|] eqn:Q.
    + exists r, d1, d2. cbn in T2. rewrite <- app_assoc in T2. auto.
    + rewrite (prepare_steps _ _ L) in E1. unfold prepared in E1.
      rewrite Q in E1. discriminate E1.
  - intros s m s1 o s2 E1 E2.
    destruct (upload_requests _ _ _ _ L E1) as (d1 & T1 & R1).
    destruct (upload_requests _ _ _ _ L E2) as (d2 & T2 & R2).
    destruct (upload_effect _ _ _ _ L E1) as (_ & C & _ & N).
    exists d1, d2. cbn in T2. rewrite <- app_assoc in T2.
    split; [exact T1|]. split; [exact T2|]. split; [exact R1|].
    rewrite R2. unfold upload_data. cbn [_context next_handle with_event].
    now rewrite C, N.
  - intros s m s1 o s2 E1 E2.
    destruct (metadata_requests _ _ _ _ _ _ L E1) as (d1 & T1 & R1).
    destruct (metadata_requests _ _ _ _ _ _ L E2) as (d2 & T2 & R2).
    destruct (metadata_effect _ _ _ _ _ _ L E1) as (_ & C & _).
    destruct (metadata_keeps_record _ _ _ _ _ _ L E1) as (D & _).
    exists d1, d2. cbn in T2. rewrite <- app_assoc in T2.
    split; [exact T1|]. split; [exact T2|].
    rewrite R1, R2. cbn [_context _datafile with_event]. now rewrite C, D.
Qed.

(** X6. A failure that the retry overcomes costs nothing but the pause.
    When the second attempt of a phase returns, [upload_file] goes on from
    the state that attempt left exactly as it goes on after a first
    attempt that returned: after the preparation with the transport block,
    after the transport with the closing part, and after the tagger by
    returning (OK, DONE, None), although the status was (ERROR, ERROR,
    None) between the attempts when the server refused the update. *)
Theorem overcome_failure_goes_on prefix is_raw given s :
  log_prefix = Some prefix ->
  is_validated (_context s) = true ->
  let s0 := with_event (Log prefix Opening_upload_sequence) s in
  (forall m s1 s2,
     _prepare_dataset s0 = (Raises (UploadRemoteDatasetPreparationError m), s1) ->
     _prepare_dataset (with_event (Sleep 1) s1) = (Returns tt, s2) ->
     upload_file is_raw given s = (transport_phase ;; finish is_raw given) s2) /\
  (forall s1 m s2 s3,
     prepare_phase s0 = (Returns tt, s1) ->
     _perform_upload s1 = (Raises (UploadRemoteFileError m), s2) ->
     _perform_upload (with_event (Sleep 1) s2) = (Returns tt, s3) ->
     _status s2 = (ERROR, Substatus.ERROR, None) /\
     upload_file is_raw given s = finish is_raw given s3) /\
  (forall s1 s2 m s3 s4,
     prepare_phase s0 = (Returns tt, s1) ->
     transport_phase s1 = (Returns tt, s2) ->
     Status_eqb (fst (fst (_status s2))) SKIPPED = false ->
     _update_file_metadata is_raw given (with_event (Log prefix Upload_done) s2) =
       (Raises (UploadRemoteFileMetadataError m), s3) ->
     _update_file_metadata is_raw given (with_event (Sleep 1) s3) = (Returns tt, s4) ->
     upload_file is_raw given s =
       (Returns (OK, Substatus.DONE, None),
        with_event (Log prefix Closing_upload_sequence) s4)).
Proof.
  intros L V s0. split; [|split].
  - intros m s1 s2 E1 E2.
    rewrite (upload_file_steps _ _ _ _ L), V. fold s0.
    unfold bind at 1. unfold prepare_phase.
    now rewrite (retry_once _ _ _ _ _ E1 eq_refl), E2.
  - intros s1 m s2 s3 P E1 E2. split.
    + destruct (upload_exit _ _ _ _ L E1)
        as [(C & _)|[(C & _)|[(_ & S)|(C & _)]]]; try discriminate C. exact S.
    + rewrite (upload_file_steps _ _ _ _ L), V. fold s0.
      unfold bind at 1. rewrite P. unfold bind at 1. unfold transport_phase.
      now rewrite (retry_once _ _ _ _ _ E1 eq_refl), E2.
  - intros s1 s2 m s3 s4 P T N E1 E2.
    rewrite (upload_file_steps _ _ _ _ L), V. fold s0.
    unfold bind at 1. rewrite P. unfold bind at 1. rewrite T.
    rewrite (finish_tags _ _ _ _ L N).
    unfold bind at 1. unfold tagging_phase.
    rewrite (retry_once _ _ _ _ _ E1 eq_refl), E2.
    destruct (metadata_exit _ _ _ _ _ _ L E2) as [(_ & S)|((e & C) & _)];
      [|discriminate C].
    unfold info. rewrite L. unfold bind, emit, get_status.
    cbn [_status with_event]. now rewrite S.
Qed.

(** ** The shape of a whole run *)

Lemma only_requests ph d :
  only ph d -> Forall (fun r => request_phase r = ph) (requests d).
Proof.
  intros H. induction H as [|e d He _ IH]; [constructor|].
  destruct e; cbn; try exact IH.
  constructor; [|exact IH]. cbn in He. now injection He.
Qed.

Lemma prepare_attempt prefix s o s' :
  log_prefix = Some prefix ->
  _prepare_dataset s = (o, s') ->
  exists d, trace s' = (trace s ++ d)%list /\ attempt_of Preparation d.
Proof.
  intros L E.
  destruct (prepare_effect _ _ _ _ L E) as (d & T & Hd & _).
  destruct (prepare_requests _ _ _ _ L E) as (d' & T' & R).
  rewrite T in T'. apply app_inv_head in T'. subst d'.
  exists d. split; [exact T|]. split; [exact Hd|].
  rewrite R. destruct (resolver_request _); cbn; lia.
Qed.

Lemma upload_attempt prefix s o s' :
  log_prefix = Some prefix ->
  _perform_upload s = (o, s') ->
  exists d, trace s' = (trace s ++ d)%list /\ attempt_of Transport d.
Proof.
  intros L E.
  destruct (upload_effect _ _ _ _ L E) as ((d & T & Hd & _) & _).
  destruct (upload_requests _ _ _ _ L E) as (d' & T' & R).
  rewrite T in T'. apply app_inv_head in T'. subst d'.
  exists d. split; [exact T|]. split; [exact Hd|]. rewrite R. cbn. lia.
Qed.

Lemma metadata_attempt prefix is_raw given s o s' :
  log_prefix = Some prefix ->
  _update_file_metadata is_raw given s = (o, s') ->
  exists d, trace s' = (trace s ++ d)%list /\ attempt_of Tagging d.
Proof.
  intros L E.
  destruct (metadata_effect _ _ _ _ _ _ L E) as ((d & T & Hd & _) & _).
  destruct (metadata_requests _ _ _ _ _ _ L E) as (d' & T' & R).
  rewrite T in T'. apply app_inv_head in T'. subst d'.
  exists d. split; [exact T|]. split; [exact Hd|].
  rewrite R. unfold tagger_requests.
  destruct (tags_refused _ _); [cbn; lia|]. destruct (_datafile s); cbn; lia.
Qed.

Lemma block_summary {A} ph (f : M A) class :
  (forall s o s', f s = (o, s') ->
     exists d, trace s' = (trace s ++ d)%list /\ attempt_of ph d) ->
  forall s o s', try_except f class (sleep 1 ;; f) s = (o, s') ->
    exists d, trace s' = (trace s ++ d)%list /\ block_of ph d.
Proof.
  intros F s o s' E. unfold try_except in E.
  assert (One : forall d, attempt_of ph d -> block_of ph d).
  { intros d (Hd & R). unfold block_of. rewrite (only_sleeps _ _ Hd).
    repeat split; [now apply only_requests|lia|constructor|cbn; lia]. }
  destruct (f s) as [[a|e] s1] eqn:E1.
  - inversion E; subst. destruct (F _ _ _ E1) as (d & T & Hd). eauto.
  - destruct (F _ _ _ E1) as (d1 & T1 & Hd1 & R1).
    destruct (class e).
    + change ((sleep 1 ;; f) s1) with (f (with_event (Sleep 1) s1)) in E.
      destruct (F _ _ _ E) as (d2 & T2 & Hd2 & R2).
      exists (d1 ++ [Sleep 1] ++ d2)%list. split.
      * rewrite T2. cbn. rewrite T1. now rewrite <- !app_assoc.
      * unfold block_of.
        rewrite !requests_app, !sleeps_app, !length_app.
        rewrite (only_sleeps _ _ Hd1), (only_sleeps _ _ Hd2).
        cbn [requests sleeps flat_map app length].
        repeat split.
        -- apply Forall_app. split; now apply only_requests.
        -- lia.
        -- repeat constructor.
        -- lia.
    + inversion E; subst. exists d1. split; [exact T1|]. now apply One.
Qed.

Lemma finish_summary prefix is_raw given s o s' :
  log_prefix = Some prefix ->
  finish is_raw given s = (o, s') ->
  exists d, trace s' = (trace s ++ d)%list /\ block_of Tagging d.
Proof.
  intros L E. destruct (Status_eqb (fst (fst (_status s))) SKIPPED) eqn:N.
  - rewrite (finish_skipped _ _ _ _ L N) in E. inversion E; subst.
    exists [Log prefix Upload_skipped; Log prefix Closing_upload_sequence].
    cbn. rewrite <- app_assoc. split; [reflexivity|].
    unfold block_of. cbn. repeat split; try constructor; lia.
  - rewrite (finish_tags _ _ _ _ L N) in E. unfold bind at 1 in E.
    destruct (tagging_phase _ _ _) as [[[]|e] s1] eqn:G;
      destruct (block_summary Tagging _ _
                  (fun s o s' E => metadata_attempt prefix is_raw given s o s' L E)
                  _ _ _ G) as (d & T & B1 & B2 & B3 & B4);
      cbn [trace with_event] in T.
    + unfold info in E. rewrite L in E. cbn in E. inversion E; subst.
      exists ([Log prefix Upload_done] ++ d ++ [Log prefix Closing_upload_sequence])%list.
      cbn [trace with_event]. rewrite T. rewrite <- !app_assoc.
      split; [reflexivity|]. unfold block_of.
      rewrite !requests_app, !sleeps_app. cbn. rewrite !app_nil_r. auto.
    + inversion E; subst.
      exists ([Log prefix Upload_done] ++ d)%list. rewrite T.
      rewrite <- app_assoc. split; [reflexivity|]. unfold block_of.
      rewrite !requests_app, !sleeps_app. cbn. auto.
Qed.

(** X7. Whatever [upload_file] yields, the requests it has sent come in
    the order of the phases: first those of the dataset, then the uploads,
    then the metadata updates, at most two of each; and it has paused at
    most three times, each time for one second. *)
Theorem requests_follow_the_phases is_raw given s o s' :
  upload_file is_raw given s = (o, s') ->
  exists d rp rt rg,
    trace s' = (trace s ++ d)%list /\
    requests d = (rp ++ rt ++ rg)%list /\
    Forall (fun r => request_phase r = Preparation) rp /\
    Forall (fun r => request_phase r = Transport) rt /\
    Forall (fun r => request_phase r = Tagging) rg /\
    length rp <= 2 /\ length rt <= 2 /\ length rg <= 2 /\
    Forall (eq 1%Z) (sleeps d) /\
    length (sleeps d) <= 3.
Proof.
  intros E. destruct log_prefix as [prefix|] eqn:L.
  2:{ unfold upload_file, bind in E. rewrite (info_fails _ _ L) in E.
      inversion E; subst. exists [], [], [], []. rewrite app_nil_r.
      cbn. repeat split; try apply Forall_nil; lia. }
  rewrite (upload_file_steps _ _ _ _ L) in E.
  destruct (is_validated _).
  2:{ inversion E; subst. exists [Log prefix Opening_upload_sequence], [], [], [].
      cbn. repeat split; try apply Forall_nil; lia. }
  unfold bind at 1 in E.
  destruct (prepare_phase _) as [[[]|e1] s1] eqn:P;
    destruct (block_summary Preparation _ _
                (fun s o s' E => prepare_attempt prefix s o s' L E) _ _ _ P)
      as (dp & Tp & P1 & P2 & P3 & P4);
    cbn [trace with_event] in Tp.
  2:{ inversion E; subst.
      exists ([Log prefix Opening_upload_sequence] ++ dp)%list, (requests dp), [], [].
      rewrite Tp, <- app_assoc, !app_nil_r, requests_app, sleeps_app.
      cbn [requests sleeps flat_map app length].
      repeat split; try apply Forall_nil; try assumption; lia. }
  unfold bind at 1 in E.
  destruct (transport_phase s1) as [[[]|e2] s2] eqn:T;
    destruct (block_summary Transport _ _
                (fun s o s' E => upload_attempt prefix s o s' L E) _ _ _ T)
      as (dt & Tt & T1 & T2 & T3 & T4).
  2:{ inversion E; subst.
      exists ([Log prefix Opening_upload_sequence] ++ dp ++ dt)%list,
             (requests dp), (requests dt), [].
      rewrite Tt, Tp, <- !app_assoc, !app_nil_r, !requests_app, !sleeps_app, !length_app.
      cbn [requests sleeps flat_map app length].
      repeat split; try apply Forall_nil; try assumption; try lia.
      apply Forall_app. now split. }
  destruct (finish_summary _ _ _ _ _ _ L E) as (dg & Tg & G1 & G2 & G3 & G4).
  exists ([Log prefix Opening_upload_sequence] ++ dp ++ dt ++ dg)%list,
         (requests dp), (requests dt), (requests dg).
  rewrite Tg, Tt, Tp, <- !app_assoc, !requests_app, !sleeps_app, !length_app.
  cbn [requests sleeps flat_map app length].
  repeat split; try assumption; try lia.
  apply Forall_app. split; [assumption|]. apply Forall_app. now split.
Qed.

(** ** The shared context *)

Lemma prepare_keeps_known_dataset prefix s o s' :
  log_prefix = Some prefix ->
  Py.truthy (dataset_uuid (_context s)) = true ->
  _prepare_dataset s = (o, s') ->
  _context s' = _context s.
Proof.
  intros L U E. rewrite (prepare_steps _ _ L) in E. unfold prepared in E.
  unfold resolver_request in E. rewrite U in E.
  destruct (_should_update_dataset_with_telescope _);
    destruct (respond api _ _) as [data [error|]]; inversion E; subst; reflexivity.
Qed.

(** X8. With a dataset UUID in the context, [upload_file] never changes
    the context, whatever it yields: [update_dataset] is called on the
    create path only. *)
Theorem known_dataset_keeps_context is_raw given s o s' :
  Py.truthy (dataset_uuid (_context s)) = true ->
  upload_file is_raw given s = (o, s') ->
  _context s' = _context s.
Proof.
  intros U E. destruct log_prefix as [prefix|] eqn:L.
  2:{ unfold upload_file, bind in E. rewrite (info_fails _ _ L) in E.
      now inversion E. }
  rewrite (upload_file_steps _ _ _ _ L) in E.
  destruct (is_validated _); [|now inversion E].
  unfold bind at 1 in E.
  assert (K : forall o1 s1,
            prepare_phase (with_event (Log prefix Opening_upload_sequence) s) = (o1, s1) ->
            _context s1 = _context s).
  { intros o1 s1 P. unfold prepare_phase, try_except in P.
    destruct (_prepare_dataset _) as [[[]|e1] s2] eqn:E1;
      pose proof (prepare_keeps_known_dataset prefix
                    (with_event (Log prefix Opening_upload_sequence) s) _ _ L U E1) as C1;
      cbn [_context with_event] in C1.
    - inversion P; subst. exact C1.
    - destruct (is_DatasetPreparationError e1); [|inversion P; subst; exact C1].
      change ((sleep 1 ;; _prepare_dataset) s2)
        with (_prepare_dataset (with_event (Sleep 1) s2)) in P.
      rewrite <- C1 in U.
      now rewrite (prepare_keeps_known_dataset prefix (with_event (Sleep 1) s2)
                     _ _ L U P). }
  destruct (prepare_phase _) as [[[]|e1] s1] eqn:P;
    pose proof (K _ _ eq_refl) as C1; [|now inversion E; subst].
  unfold bind at 1 in E.
  destruct (transport_phase s1) as [[[]|e2] s2] eqn:T;
    destruct (transport_phase_quiet _ _ _ _ L T) as (_ & C2).
  - rewrite (finish_keeps _ _ _ _ _ _ L E). congruence.
  - inversion E; subst. congruence.
Qed.

(** ** The log prefix *)

Lemma strip_prefix_spec pre : forall l rest,
  strip_prefix pre l = Some rest <-> l = (pre ++ rest)%list.
Proof.
  induction pre as [|x pre IH]; intros l rest; cbn.
  - split; [now intros [= ->]|now intros ->].
  - destruct l as [|y l]; [split; discriminate|].
    destruct (String.eqb_spec x y) as [->|N].
    + rewrite IH. split; [now intros ->|now intros [= ->]].
    + split; [discriminate|]. intros [= -> _]. now elim N.
Qed.

(** X9. The log prefix exists exactly when the file lies under the root,
    that is when both have the same anchor and the root's names begin the
    file's names; it is then the rest of the names, as a path, in
    brackets.  For a file elsewhere every entry point raises [ValueError]
    at its first line and does nothing else, [upload_file] even before it
    looks at the validation flag. *)
Theorem log_prefix_needs_file_under_root is_raw given :
  (forall prefix,
     log_prefix = Some prefix <->
     exists rest,
       anchor file_path = anchor root_path /\
       names file_path = (names root_path ++ rest)%list /\
       prefix = "[" ++ str {| anchor := ""; names := rest |} ++ "]") /\
  (log_prefix = None ->
   forall s,
     upload_file is_raw given s = (Raises ValueError, s) /\
     _prepare_dataset s = (Raises ValueError, s) /\
     _perform_upload s = (Raises ValueError, s) /\
     _update_file_metadata is_raw given s = (Raises ValueError, s)).
Proof.
  split.
  - intros prefix. unfold log_prefix, relative_to.
    destruct (String.eqb_spec (anchor file_path) (anchor root_path)) as [A|A].
    + destruct (strip_prefix _ _) as [rest|] eqn:S.
      * apply strip_prefix_spec in S. split.
        -- intros [= <-]. eauto.
        -- intros (rest' & _ & N & ->). rewrite S in N.
           apply app_inv_head in N. now subst.
      * split; [discriminate|]. intros (rest & _ & N & _).
        apply strip_prefix_spec in N. congruence.
    + split; [discriminate|]. intros (rest & A' & _). now elim A.
  - intros L s.
    unfold upload_file, _prepare_dataset, _perform_upload, _update_file_metadata, bind.
    now rewrite !(info_fails _ _ L).
Qed.

(** ** The duplicate heuristic *)

Lemma prefix_spec needle : forall hay,
  String.prefix needle hay = true <-> exists post, hay = needle ++ post.
Proof.
  induction needle as [|c needle IH]; intros hay.
  - split; [intros _; now exists hay|]. intros _. destruct hay; reflexivity.
  - destruct hay as [|c' hay]; cbn.
    + split; [discriminate|]. intros (post & E). discriminate E.
    + destruct (Ascii.ascii_dec c c') as [->|N].
      * rewrite IH. split; intros (post & E); exists post.
        -- now rewrite E.
        -- now injection E.
      * split; [discriminate|]. intros (post & E). injection E as E1 _. now elim N.
Qed.

Lemma contains_unfold needle hay :
  Py.contains needle hay =
    if String.prefix needle hay then true
    else match hay with
         | EmptyString => false
         | String _ rest => Py.contains needle rest
         end.
Proof. destruct hay; reflexivity. Qed.

Lemma contains_spec needle : forall hay,
  Py.contains needle hay = true <->
  exists pre post, hay = pre ++ needle ++ post.
Proof.
  induction hay as [|c hay IH]; rewrite contains_unfold.
  - destruct (String.prefix needle "") eqn:P.
    + apply prefix_spec in P. destruct P as (post & E).
      split; [|reflexivity]. intros _. now exists "", post.
    + split; [discriminate|]. intros (pre & post & E).
      destruct pre; [|discriminate E]. cbn in E.
      assert (String.prefix needle "" = true) by (apply prefix_spec; eauto).
      congruence.
  - destruct (String.prefix needle (String c hay)) eqn:P.
    + apply prefix_spec in P. destruct P as (post & E).
      split; [|reflexivity]. intros _. now exists "", post.
    + rewrite IH. split.
      * intros (pre & post & E). exists (String c pre), post. cbn. now rewrite E.
      * intros (pre & post & E). destruct pre as [|c' pre].
        -- cbn in E.
           assert (String.prefix needle (String c hay) = true)
             by (apply prefix_spec; eauto).
           congruence.
        -- cbn in E. injection E as _ E. eauto.
Qed.

(** X10. The duplicate test is a plain substring test.  When the server
    answers the upload with an error, [_perform_upload] returns normally,
    leaving the file as skipped, if and only if the phrase
    "already exists in dataset" occurs somewhere in the error's text, with
    exactly these characters; in every other case it raises. *)
Theorem skip_iff_phrase_occurs prefix s record error :
  log_prefix = Some prefix ->
  _file_size <> 0%Z ->
  respond api (api_calls s) (datafiles_create (upload_data s)) = (record, Some error) ->
  (exists s', _perform_upload s = (Returns tt, s')) <->
  (exists before after,
     error_text error = before ++ "already exists in dataset" ++ after).
Proof.
  intros L NZ R. rewrite <- contains_spec.
  destruct (upload_refused _ _ _ _ L NZ R) as (s' & E & _).
  destruct (Py.contains _ _).
  - split; eauto.
  - split; [|discriminate]. intros (s'' & E'). rewrite E in E'. discriminate E'.
Qed.

(** ** The tagger's other ways out *)

(** X11. An exception of the tagger other than a metadata error is never
    retried and always comes before the request.  After an upload that was
    not skipped, if the first tagger attempt raises such an exception,
    [upload_file] raises it at once; it is either the validator's refusal
    of the call's tags or the [AttributeError] of a missing file record;
    no metadata request has been sent, and the status stays
    (FINISHING, TAGGING, None): the file is uploaded and left untagged. *)
Theorem tagger_error_before_request prefix is_raw given s s1 s2 e s3 :
  log_prefix = Some prefix ->
  is_validated (_context s) = true ->
  prepare_phase (with_event (Log prefix Opening_upload_sequence) s) = (Returns tt, s1) ->
  transport_phase s1 = (Returns tt, s2) ->
  Status_eqb (fst (fst (_status s2))) SKIPPED = false ->
  _update_file_metadata is_raw given (with_event (Log prefix Upload_done) s2) =
    (Raises e, s3) ->
  is_FileMetadataError e = false ->
  upload_file is_raw given s = (Raises e, s3) /\
  (tags_refused (_context s2) given = Some e \/
   (e = AttributeError /\ _datafile s2 = None)) /\
  _status s3 = (FINISHING, Substatus.TAGGING, None) /\
  trace s3 = (trace s2 ++ [Log prefix Upload_done;
                           Log prefix Updating_file_metadata])%list.
Proof.
  intros L V P T N E M. split.
  - rewrite (upload_file_steps _ _ _ _ L), V.
    unfold bind at 1. rewrite P. unfold bind at 1. rewrite T.
    rewrite (finish_tags _ _ _ _ L N). unfold bind at 1.
    unfold tagging_phase, try_except. now rewrite E, M.
  - rewrite (metadata_steps _ _ _ _ L) in E. unfold tagged in E.
    cbn [_context _datafile with_event] in E.
    destruct (tags_refused (_context s2) given) as [e0|].
    { inversion E; subst. cbn. rewrite <- app_assoc. auto. }
    destruct (_datafile s2) as [record|].
    2:{ inversion E; subst. cbn. rewrite <- app_assoc. auto. }
    destruct (snd (respond _ _ _)); inversion E; subst. discriminate M.
Qed.

Lemma get_missing key : forall record,
  (forall v, ~ In (key, v) record) -> Py.get record key = Py.None_.
Proof.
  induction record as [|[k v] record IH]; intros H; [reflexivity|]. cbn.
  destruct (String.eqb_spec k key) as [->|N].
  - elim (H v). now left.
  - apply IH. intros v' I. apply (H v'). now right.
Qed.

(** X12. A file record without a "pk" entry does not stop the tagger: the
    lookup yields [None], and the metadata update is sent all the same,
    addressed to [None]. *)
Theorem record_without_pk_is_addressed_to_none prefix is_raw given s record :
  log_prefix = Some prefix ->
  tags_refused (_context s) given = None ->
  _datafile s = Some record ->
  (forall v, ~ In ("pk", v) record) ->
  exists o s' d,
    _update_file_metadata is_raw given s = (o, s') /\
    trace s' = (trace s ++ d)%list /\
    requests d =
      [datafiles_update Py.None_ (metadata_payload (_context s) is_raw given)].
Proof.
  intros L G D K.
  destruct (_update_file_metadata is_raw given s) as [o s'] eqn:E.
  destruct (metadata_requests _ _ _ _ _ _ L E) as (d & T & R).
  unfold tagger_requests in R. rewrite G, D, (get_missing _ _ K) in R.
  exists o, s', d. auto.
Qed.

(** ** The dataset an upload is sent to *)

Lemma transport_first_request prefix s o s' :
  log_prefix = Some prefix ->
  transport_phase s = (o, s') ->
  exists d rest, trace s' = (trace s ++ d)%list /\
                 requests d = datafiles_create (upload_data s) :: rest.
Proof.
  intros L T. unfold transport_phase, try_except in T.
  destruct (_perform_upload s) as [[[]|e] s1] eqn:E1;
    destruct (upload_requests _ _ _ _ L E1) as (d1 & T1 & R1).
  - inversion T; subst. eauto.
  - destruct (is_FileError e); [|inversion T; subst; eauto].
    change ((sleep 1 ;; _perform_upload) s1)
      with (_perform_upload (with_event (Sleep 1) s1)) in T.
    destruct (upload_requests _ _ _ _ L T) as (d2 & T2 & R2).
    exists (d1 ++ [Sleep 1] ++ d2)%list. eexists. split.
    + rewrite T2. cbn [trace with_event]. rewrite T1. now rewrite <- !app_assoc.
    + rewrite !requests_app, R1. reflexivity.
Qed.

Lemma finish_grows prefix is_raw given s o s' :
  log_prefix = Some prefix ->
  finish is_raw given s = (o, s') ->
  exists d, trace s' = (trace s ++ d)%list.
Proof.
  intros L E. destruct (finish_summary _ _ _ _ _ _ L E) as (d & T & _). eauto.
Qed.

(** X13. A dataset created on the way is the one the file goes to.  When
    the context has a name and no UUID and the server accepts the create,
    the first two requests of [upload_file] are that create and an upload
    whose dataset field is the UUID of the context as [update_dataset]
    left it, whatever that is, and whose file field is the file's base
    name with the first handle opened. *)
Theorem upload_goes_to_created_dataset prefix is_raw given s data o s' :
  log_prefix = Some prefix ->
  is_validated (_context s) = true ->
  Py.truthy (dataset_uuid (_context s)) = false ->
  Py.truthy (dataset_name (_context s)) = true ->
  let create :=
    datasets_create
      (("name", Py.of_opt (dataset_name (_context s))) ::
       if _should_update_dataset_with_telescope (_context s)
       then [("telescope", Py.of_opt (telescope_uuid (_context s)))]
       else []) in
  respond api (api_calls s) create = (data, None) ->
  upload_file is_raw given s = (o, s') ->
  exists d rest,
    trace s' = (trace s ++ d)%list /\
    requests d =
      create ::
      datafiles_create
        {| field_dataset := dataset_uuid (update_dataset (_context s) data);
           field_file := (name file_path, next_handle s) |} :: rest.
Proof.
  intros L V U N create R E.
  set (s0 := with_event (Log prefix Opening_upload_sequence) s).
  assert (Q : resolver_request (_context s0) = Some create).
  { unfold resolver_request. cbn [s0 _context with_event]. rewrite U, N.
    subst create. now destruct (_should_update_dataset_with_telescope _). }
  assert (P : _prepare_dataset s0 = prepared prefix s0) by apply (prepare_steps _ _ L).
  unfold prepared in P. rewrite Q in P.
  change (api_calls s0) with (api_calls s) in P. rewrite R in P.
  change (is_create create) with true in P. cbv iota in P.
  match type of P with _ = (_, ?st) => set (s1 := st) in * end.
  rewrite (upload_file_steps _ _ _ _ L), V in E. fold s0 in E.
  unfold bind at 1 in E. unfold prepare_phase in E.
  rewrite (no_retry _ _ _ _ _ P) in E. unfold bind at 1 in E.
  assert (T1 : trace s1 = (trace s ++ [Log prefix Opening_upload_sequence;
                                      Log prefix Preparing_Dataset;
                                      Request create;
                                      Log prefix Dataset_preparation_done])%list).
  { cbn. now rewrite <- !app_assoc. }
  destruct (transport_phase s1) as [[[]|e] s2] eqn:T;
    destruct (transport_first_request _ _ _ _ L T) as (dt & rest & Tt & Rt).
  - destruct (finish_grows _ _ _ _ _ _ L E) as (dg & Tg).
    exists ([Log prefix Opening_upload_sequence; Log prefix Preparing_Dataset;
             Request create; Log prefix Dataset_preparation_done] ++ dt ++ dg)%list,
           (rest ++ requests dg)%list.
    split.
    + rewrite Tg, Tt, T1, <- !app_assoc. reflexivity.
    + rewrite !requests_app, Rt. reflexivity.
  - inversion E; subst.
    exists ([Log prefix Opening_upload_sequence; Log prefix Preparing_Dataset;
             Request create; Log prefix Dataset_preparation_done] ++ dt)%list, rest.
    split.
    + rewrite Tt, T1, <- !app_assoc. reflexivity.
    + rewrite !requests_app, Rt. reflexivity.
Qed.

(** ** One [open] for each transport attempt *)

Lemma opens_per_attempt_trans a b c :
  opens_per_attempt a b -> opens_per_attempt b c -> opens_per_attempt a c.
Proof.
  intros (d1 & T1 & F1 & N1) (d2 & T2 & F2 & N2).
  exists (d1 ++ d2)%list. rewrite attempts_app. split; [|split].
  - now rewrite T2, T1, app_assoc.
  - rewrite handles_opened_app, F1, F2, N1. now rewrite seq_app.
  - lia.
Qed.

Lemma opens_per_attempt_quiet s s' d :
  trace s' = (trace s ++ d)%list ->
  attempts Transport d = 0 ->
  handles_opened d = [] ->
  next_handle s' = next_handle s ->
  opens_per_attempt s s'.
Proof.
  intros T A F N. exists d. rewrite A, F. cbn.
  split; [exact T|]. split; [reflexivity|]. rewrite N. lia.
Qed.

Lemma opens_per_attempt_event e s :
  is_entry Transport e = false -> handles_opened [e] = [] ->
  opens_per_attempt s (with_event e s).
Proof.
  intros H F. apply (opens_per_attempt_quiet _ _ [e]); try reflexivity; [|exact F].
  unfold attempts. cbn [filter]. now rewrite H.
Qed.

Lemma prepare_opens_per_attempt prefix s o s' :
  log_prefix = Some prefix ->
  _prepare_dataset s = (o, s') -> opens_per_attempt s s'.
Proof.
  intros L E.
  destruct (prepare_effect _ _ _ _ L E) as (d & T & Hd & _).
  destruct (prepare_exit _ _ _ _ L E) as (_ & N).
  apply (opens_per_attempt_quiet _ _ d); auto.
  - apply (only_attempts_other _ _ _ Hd). discriminate.
  - apply (only_handles_other _ _ Hd). discriminate.
Qed.

Lemma upload_opens_per_attempt prefix s o s' :
  log_prefix = Some prefix ->
  _perform_upload s = (o, s') -> opens_per_attempt s s'.
Proof.
  intros L E.
  destruct (upload_opens _ _ _ _ L E) as (d & T & A & F).
  destruct (upload_effect _ _ _ _ L E) as (_ & _ & _ & N).
  exists d. rewrite A, F. cbn. split; [exact T|]. split; [reflexivity|lia].
Qed.

Lemma metadata_opens_per_attempt prefix is_raw given s o s' :
  log_prefix = Some prefix ->
  _update_file_metadata is_raw given s = (o, s') -> opens_per_attempt s s'.
Proof.
  intros L E.
  destruct (metadata_effect _ _ _ _ _ _ L E) as ((d & T & Hd & _) & _).
  destruct (metadata_keeps_record _ _ _ _ _ _ L E) as (_ & N).
  apply (opens_per_attempt_quiet _ _ d); auto.
  - apply (only_attempts_other _ _ _ Hd). discriminate.
  - apply (only_handles_other _ _ Hd). discriminate.
Qed.

Lemma block_opens_per_attempt {A} (f : M A) class :
  (forall s o s', f s = (o, s') -> opens_per_attempt s s') ->
  forall s o s', try_except f class (sleep 1 ;; f) s = (o, s') ->
    opens_per_attempt s s'.
Proof.
  intros F s o s' E. unfold try_except in E.
  destruct (f s) as [[a|e] s1] eqn:E1.
  - inversion E; subst. eauto.
  - destruct (class e).
    + change ((sleep 1 ;; f) s1) with (f (with_event (Sleep 1) s1)) in E.
      apply (opens_per_attempt_trans _ s1); [eauto|].
      apply (opens_per_attempt_trans _ (with_event (Sleep 1) s1)); [|eauto].
      apply opens_per_attempt_event; reflexivity.
    + inversion E; subst. eauto.
Qed.

Lemma block_attempts {A} ph (f : M A) class :
  (forall s o s', f s = (o, s') ->
     exists d, trace s' = (trace s ++ d)%list /\ only ph d /\ attempts ph d = 1) ->
  forall s o s', try_except f class (sleep 1 ;; f) s = (o, s') ->
    exists d, trace s' = (trace s ++ d)%list /\
              attempts ph d <= 2 /\
              forall ph', ph <> ph' -> attempts ph' d = 0.
Proof.
  intros F s o s' E. unfold try_except in E.
  destruct (f s) as [[a|e] s1] eqn:E1.
  - inversion E; subst. destruct (F _ _ _ E1) as (d & T & Hd & A1).
    exists d. split; [exact T|]. split; [lia|].
    intros. now apply (only_attempts_other ph).
  - destruct (F _ _ _ E1) as (d1 & T1 & Hd1 & A1).
    destruct (class e).
    + change ((sleep 1 ;; f) s1) with (f (with_event (Sleep 1) s1)) in E.
      destruct (F _ _ _ E) as (d2 & T2 & Hd2 & A2).
      exists (d1 ++ [Sleep 1] ++ d2)%list. split; [|split].
      * rewrite T2. cbn [trace with_event]. rewrite T1. now rewrite <- !app_assoc.
      * rewrite !attempts_app, A1, A2.
        replace (attempts ph [Sleep 1]) with 0 by now destruct ph. lia.
      * intros ph' N. rewrite !attempts_app.
        rewrite (only_attempts_other _ _ _ Hd1 N), (only_attempts_other _ _ _ Hd2 N).
        now destruct ph'.
    + inversion E; subst. exists d1. split; [exact T1|]. split; [lia|].
      intros. now apply (only_attempts_other ph).
Qed.

Lemma finish_opens_per_attempt prefix is_raw given s o s' :
  log_prefix = Some prefix ->
  finish is_raw given s = (o, s') ->
  opens_per_attempt s s' /\
  exists d, trace s' = (trace s ++ d)%list /\ attempts Transport d = 0.
Proof.
  intros L E. destruct (Status_eqb (fst (fst (_status s))) SKIPPED) eqn:N.
  - rewrite (finish_skipped _ _ _ _ L N) in E. inversion E; subst. split.
    + apply (opens_per_attempt_trans _ (with_event (Log prefix Upload_skipped) s));
        apply opens_per_attempt_event; reflexivity.
    + exists [Log prefix Upload_skipped; Log prefix Closing_upload_sequence].
      cbn. now rewrite <- app_assoc.
  - rewrite (finish_tags _ _ _ _ L N) in E. unfold bind at 1 in E.
    destruct (tagging_phase _ _ _) as [[[]|e] s1] eqn:G;
      pose proof (block_opens_per_attempt _ _
                    (fun s o s' E => metadata_opens_per_attempt prefix is_raw given s o s' L E)
                    _ _ _ G) as O;
      destruct (block_attempts Tagging _ _
                  (fun s o s' E => proj1 (metadata_effect prefix is_raw given s o s' L E))
                  _ _ _ G) as (d & T & _ & Z);
      cbn [trace with_event] in T;
      pose proof (Z Transport ltac:(discriminate)) as Zt.
    + unfold info in E. rewrite L in E. cbn in E. inversion E; subst. split.
      * apply (opens_per_attempt_trans _ (with_event (Log prefix Upload_done) s));
          [apply opens_per_attempt_event; reflexivity|].
        apply (opens_per_attempt_trans _ s1);
          [exact O|apply opens_per_attempt_event; reflexivity].
      * exists ([Log prefix Upload_done] ++ d ++
                [Log prefix Closing_upload_sequence])%list.
        cbn [trace with_event]. rewrite T, <- !app_assoc. split; [reflexivity|].
        now rewrite !attempts_app, Zt.
    + inversion E; subst. split.
      * apply (opens_per_attempt_trans _ (with_event (Log prefix Upload_done) s));
          [apply opens_per_attempt_event; reflexivity|exact O].
      * exists ([Log prefix Upload_done] ++ d)%list.
        rewrite T, <- !app_assoc. split; [reflexivity|].
        now rewrite !attempts_app, Zt.
Qed.

(** X14. [upload_file] opens the file once for each transport attempt it
    makes and not otherwise: whatever it yields, it has made at most two
    transport attempts, and the handles [open] gave it are as many as
    those attempts, each one new, numbered from the next free handle on;
    a call that stops before the transport opens nothing. *)
Theorem one_open_per_transport_attempt is_raw given s o s' :
  upload_file is_raw given s = (o, s') ->
  exists d,
    trace s' = (trace s ++ d)%list /\
    attempts Transport d <= 2 /\
    handles_opened d = seq (next_handle s) (attempts Transport d) /\
    next_handle s' = next_handle s + attempts Transport d.
Proof.
  intros E.
  assert (Same : forall s s' d, opens_per_attempt s s' ->
                   trace s' = (trace s ++ d)%list ->
                   handles_opened d = seq (next_handle s) (attempts Transport d) /\
                   next_handle s' = next_handle s + attempts Transport d).
  { intros a b d (d' & T' & F & N) T. rewrite T in T'.
    apply app_inv_head in T'. now subst. }
  destruct log_prefix as [prefix|] eqn:L.
  2:{ unfold upload_file, bind in E. rewrite (info_fails _ _ L) in E.
      inversion E; subst. exists []. cbn. rewrite !app_nil_r. auto. }
  rewrite (upload_file_steps _ _ _ _ L) in E.
  set (s0 := with_event (Log prefix Opening_upload_sequence) s) in *.
  assert (O0 : opens_per_attempt s s0)
    by (apply opens_per_attempt_event; reflexivity).
  destruct (is_validated _).
  2:{ inversion E; subst. exists [Log prefix Opening_upload_sequence].
      split; [reflexivity|]. split; [cbn; lia|]. now apply Same. }
  unfold bind at 1 in E.
  destruct (prepare_phase s0) as [[[]|e1] s1] eqn:P;
    pose proof (block_opens_per_attempt _ _
                  (fun s o s' E => prepare_opens_per_attempt prefix s o s' L E)
                  _ _ _ P) as O1;
    destruct (block_attempts Preparation _ _
                (fun s o s' E =>
                   match prepare_effect prefix s o s' L E with
                   | ex_intro _ d (conj T (conj only_d (conj A _))) =>
                       ex_intro _ d (conj T (conj only_d A))
                   end) _ _ _ P) as (dp & Tp & _ & Zp);
    cbn [s0 trace with_event] in Tp;
    pose proof (Zp Transport ltac:(discriminate)) as Zpt.
  2:{ inversion E; subst.
      exists ([Log prefix Opening_upload_sequence] ++ dp)%list.
      assert (T : trace s' = (trace s ++ [Log prefix Opening_upload_sequence] ++ dp)%list)
        by now rewrite Tp, <- app_assoc.
      split; [exact T|]. split.
      - rewrite attempts_app, Zpt. cbn. lia.
      - apply Same; [|exact T]. now apply (opens_per_attempt_trans _ s0). }
  unfold bind at 1 in E.
  destruct (transport_phase s1) as [[[]|e2] s2] eqn:Tr;
    pose proof (block_opens_per_attempt _ _
                  (fun s o s' E => upload_opens_per_attempt prefix s o s' L E)
                  _ _ _ Tr) as O2;
    destruct (block_attempts Transport _ _
                (fun s o s' E => proj1 (upload_effect prefix s o s' L E))
                _ _ _ Tr) as (dt & Tt & At & _).
  2:{ inversion E; subst.
      exists ([Log prefix Opening_upload_sequence] ++ dp ++ dt)%list.
      assert (T : trace s' =
                  (trace s ++ [Log prefix Opening_upload_sequence] ++ dp ++ dt)%list)
        by now rewrite Tt, Tp, <- !app_assoc.
      split; [exact T|]. split.
      - rewrite !attempts_app, Zpt. cbn. lia.
      - apply Same; [|exact T].
        apply (opens_per_attempt_trans _ s0); [exact O0|].
        now apply (opens_per_attempt_trans _ s1). }
  destruct (finish_opens_per_attempt _ _ _ _ _ _ L E) as (O3 & dg & Tg & Zg).
  exists ([Log prefix Opening_upload_sequence] ++ dp ++ dt ++ dg)%list.
  assert (T : trace s' =
              (trace s ++ [Log prefix Opening_upload_sequence] ++ dp ++ dt ++ dg)%list)
    by now rewrite Tg, Tt, Tp, <- !app_assoc.
  split; [exact T|]. split.
  - rewrite !attempts_app, Zpt, Zg. cbn. lia.
  - apply Same; [|exact T].
    apply (opens_per_attempt_trans _ s0); [exact O0|].
    apply (opens_per_attempt_trans _ s1); [exact O1|].
    now apply (opens_per_attempt_trans _ s2).
Qed.

(** ** The progress display *)

Lemma printed_app a b : printed (a ++ b) = (printed a ++ printed b)%list.
Proof. apply flat_map_app. Qed.

Lemma progress_printed reads :
  _file_size <> 0%Z -> printed (progress reads) = map shown reads.
Proof.
  intros NZ. induction reads as [|b rest IH]; [reflexivity|].
  cbn [progress map]. unfold fraction.
  destruct (Z.eqb_spec _file_size 0); [contradiction|].
  cbn. fold (printed (progress rest)). now rewrite IH.
Qed.

Lemma last_of_cons {A} (x : A) l : forall d d', last (x :: l) d = last (x :: l) d'.
Proof.
  revert x. induction l as [|y l IH]; intros x d d'; [reflexivity|].
  change (last (y :: l) d = last (y :: l) d'). apply IH.
Qed.

Lemma monitored_bytes_read reads : forall s,
  _file_size <> 0%Z ->
  __bytes_read (monitored reads s) = last reads (__bytes_read s).
Proof.
  induction reads as [|b rest IH]; intros s NZ; [reflexivity|].
  cbn [monitored]. unfold fraction.
  destruct (Z.eqb_spec _file_size 0); [contradiction|].
  rewrite IH by assumption. cbn [__bytes_read with_event with_bytes_read].
  destruct rest as [|z rest]; [reflexivity|].
  change (last (b :: z :: rest) (__bytes_read s))
    with (last (z :: rest) (__bytes_read s)).
  apply last_of_cons.
Qed.

(** X16. While a file that is not empty is sent, the progress is shown at
    every read of the body and only then: whatever the transport attempt
    yields, the fractions it has printed are those of the byte counts the
    monitor reported, one for each read and in the same order, and the
    count the uploader remembers is the last one reported. *)
Theorem progress_is_shown_at_every_read prefix s o s' :
  log_prefix = Some prefix ->
  _file_size <> 0%Z ->
  _perform_upload s = (o, s') ->
  exists d,
    trace s' = (trace s ++ d)%list /\
    printed d = map shown (body_reads api (api_calls s)) /\
    __bytes_read s' = last (body_reads api (api_calls s)) (__bytes_read s).
Proof.
  intros L NZ E. rewrite (upload_steps _ _ L) in E. unfold uploaded in E.
  rewrite (monitor_outcome_returns _ NZ) in E.
  set (reads := body_reads api (api_calls s)) in *.
  set (head := [Log prefix Start_uploading;
                Log prefix (Starting_upload_to_Arcsecond _file_size);
                Open file_path (next_handle s);
                Request (datafiles_create (upload_data s))]).
  match type of E with context [monitored reads ?s0] =>
    pose proof (monitored_trace reads s0) as T;
    pose proof (monitored_bytes_read reads s0 NZ) as B;
    set (m := monitored reads s0) in *
  end.
  cbn in T, B.
  assert (P : forall tail, printed tail = [] ->
                printed (head ++ progress reads ++ tail) = map shown reads).
  { intros tail Q. rewrite !printed_app, (progress_printed _ NZ), Q.
    cbn. now rewrite app_nil_r. }
  destruct (respond api (api_calls s) (datafiles_create (upload_data s)))
    as [record [error|]].
  - destruct (Py.contains _ _); inversion E; subst; clear E; cbn; rewrite T.
    + exists (head ++ progress reads ++ [])%list.
      rewrite app_nil_r at 1. rewrite <- !app_assoc. split; [reflexivity|].
      split; [now apply P|exact B].
    + exists (head ++ progress reads ++
              [Log prefix (Upload_of_file_failed file_path)])%list.
      rewrite <- !app_assoc. split; [reflexivity|]. split; [now apply P|exact B].
  - inversion E; subst; clear E; cbn; rewrite T.
    exists (head ++ progress reads ++ [Log prefix Upload_duration])%list.
    rewrite <- !app_assoc. split; [reflexivity|]. split; [now apply P|exact B].
Qed.

(** ** A run without a failure *)

(** X17. When nothing fails, [upload_file] sends exactly three requests
    and never pauses: the resolver's request, one upload whose dataset
    field is the UUID of the context the resolver left, and one metadata
    update addressed to the "pk" of the record the upload returned, built
    from that same context.  It returns (OK, DONE, None), leaves the
    resolver's context in place and has opened the file once. *)
Theorem clean_run_sends_three_requests prefix is_raw given s r record :
  log_prefix = Some prefix ->
  _file_size <> 0%Z ->
  is_validated (_context s) = true ->
  resolver_request (_context s) = Some r ->
  snd (respond api (api_calls s) r) = None ->
  let c := if is_create r
           then update_dataset (_context s) (fst (respond api (api_calls s) r))
           else _context s in
  let body := {| field_dataset := dataset_uuid c;
                 field_file := (name file_path, next_handle s) |} in
  let update := datafiles_update (Py.get record "pk")
                  (metadata_payload c is_raw given) in
  respond api (S (api_calls s)) (datafiles_create body) = (Some record, None) ->
  tags_refused c given = None ->
  snd (respond api (S (S (api_calls s))) update) = None ->
  exists s' d,
    upload_file is_raw given s = (Returns (OK, Substatus.DONE, None), s') /\
    trace s' = (trace s ++ d)%list /\
    requests d = [r; datafiles_create body; update] /\
    sleeps d = [] /\
    _context s' = c /\
    handles_opened d = [next_handle s].
Proof.
  intros L NZ V Q A c body update U G M.
  set (s0 := with_event (Log prefix Opening_upload_sequence) s).
  (* the preparation *)
  destruct (_prepare_dataset s0) as [o1 s1] eqn:P.
  pose proof P as P'. rewrite (prepare_steps _ _ L) in P'. unfold prepared in P'.
  change (_context s0) with (_context s) in P'. rewrite Q in P'.
  change (api_calls s0) with (api_calls s) in P'.
  destruct (respond api (api_calls s) r) as [data error] eqn:R.
  cbn [snd] in A. subst error. cbn [fst] in c.
  destruct (prepare_requests _ _ _ _ L P) as (dp & Tp & Rp).
  change (_context s0) with (_context s) in Rp. rewrite Q in Rp.
  destruct (prepare_effect _ _ _ _ L P) as (dp' & Tp' & Hp & _ & Fp).
  rewrite Tp in Tp'. apply app_inv_head in Tp'. subst dp'.
  destruct (prepare_exit _ _ _ _ L P) as (_ & Np).
  assert (C1 : _context s1 = c /\ api_calls s1 = S (api_calls s) /\ o1 = Returns tt).
  { subst c. destruct (is_create r); inversion P'; subst; repeat split. }
  destruct C1 as (C1 & K1 & ->).
  cbn [s0 trace next_handle open_files with_event] in Tp, Np, Fp.
  (* the transport *)
  assert (U1 : respond api (api_calls s1) (datafiles_create (upload_data s1)) =
               (Some record, None)).
  { unfold upload_data. now rewrite K1, C1, Np. }
  destruct (upload_accepted _ _ _ L NZ U1) as (s2 & E2 & S2 & D2 & C2 & K2).
  destruct (upload_requests _ _ _ _ L E2) as (dt & Tt & Rt).
  destruct (upload_effect _ _ _ _ L E2) as ((dt' & Tt' & Ht & _) & _).
  rewrite Tt in Tt'. apply app_inv_head in Tt'. subst dt'.
  destruct (upload_opens _ _ _ _ L E2) as (dt' & Tt' & _ & Ot).
  rewrite Tt in Tt'. apply app_inv_head in Tt'. subst dt'.
  (* the tagger *)
  set (s2' := with_event (Log prefix Upload_done) s2).
  assert (G' : tags_refused (_context s2') given = None)
    by (cbn [s2' _context with_event]; now rewrite C2, C1).
  destruct (metadata_answered prefix is_raw given s2' record L G' D2)
    as (s3 & E3 & S3 & T3).
  cbn [s2' _context with_event api_calls trace] in E3, S3, T3.
  rewrite C2, C1, K2, K1 in E3, S3, T3. fold update in E3, S3, T3.
  rewrite M in E3, S3, T3.
  destruct (metadata_effect _ _ _ _ _ _ L E3) as (_ & C3 & F3).
  (* the whole *)
  exists (with_event (Log prefix Closing_upload_sequence) s3).
  exists ([Log prefix Opening_upload_sequence] ++ dp ++ dt ++
          [Log prefix Upload_done; Log prefix Updating_file_metadata;
           Request update; Log prefix Closing_upload_sequence])%list.
  split; [|split; [|split; [|split; [|split]]]].
  - rewrite (upload_file_steps _ _ _ _ L), V. fold s0.
    unfold bind at 1. unfold prepare_phase. rewrite (no_retry _ _ _ _ _ P).
    unfold bind at 1. unfold transport_phase. rewrite (no_retry _ _ _ _ _ E2).
    rewrite (finish_tags _ _ _ _ L) by now rewrite S2. fold s2'.
    unfold bind at 1. unfold tagging_phase.
    rewrite (no_retry _ is_FileMetadataError _ _ _ E3).
    unfold info. rewrite L. unfold bind, emit, get_status.
    cbn [_status with_event]. now rewrite S3.
  - cbn [trace with_event]. rewrite T3, Tt, Tp, <- !app_assoc. reflexivity.
  - rewrite !requests_app, Rp, Rt. unfold upload_data. now rewrite C1, Np.
  - rewrite !sleeps_app, (only_sleeps _ _ Hp), (only_sleeps _ _ Ht). reflexivity.
  - cbn [_context with_event]. rewrite C3. cbn [s2' _context with_event].
    now rewrite C2.
  - rewrite !handles_opened_app, Ot, Np.
    rewrite (only_handles_other _ _ Hp) by discriminate. reflexivity.
Qed.

(** ** What a call owes to the calls before it *)

Lemma alike_trans a a' a'' b b' b'' :
  alike a a' b b' -> alike a' a'' b' b'' -> alike a a'' b b''.
Proof.
  intros (d1 & A1 & B1) (d2 & A2 & B2). exists (d1 ++ d2)%list.
  now rewrite A2, A1, B2, B1, !app_assoc.
Qed.

Lemma alike_event e a b : alike a (with_event e a) b (with_event e b).
Proof. now exists [e]. Qed.

Lemma alike_refl a b : alike a a b b.
Proof. exists []. now rewrite !app_nil_r. Qed.

Lemma alike_from a a' b b' d :
  trace a' = (trace a ++ d)%list -> trace b' = (trace b ++ d)%list -> alike a a' b b'.
Proof. intros. now exists d. Qed.

Lemma prepare_alike prefix a b oa a' ob b' :
  log_prefix = Some prefix ->
  same_world a b ->
  _prepare_dataset a = (oa, a') ->
  _prepare_dataset b = (ob, b') ->
  oa = ob /\ same_world a' b' /\ _status a' = _status b' /\ alike a a' b b'.
Proof.
  intros L (C & N & K) Ea Eb.
  rewrite (prepare_steps _ a L) in Ea. rewrite (prepare_steps _ b L) in Eb.
  unfold prepared in Ea, Eb. rewrite <- C, <- K in Eb.
  destruct (resolver_request (_context a)) as [r|].
  - destruct (respond api (api_calls a) r) as [data [error|]];
      inversion Ea; inversion Eb; subst; clear Ea Eb.
    + split; [reflexivity|]. split; [|split; [reflexivity|]].
      * repeat split; cbn; congruence.
      * apply (alike_from _ _ _ _ [Log prefix Preparing_Dataset; Request r;
                                   Log prefix Dataset_preparation_failed]);
          cbn; now rewrite <- !app_assoc.
    + split; [reflexivity|].
      destruct (is_create r); (split; [|split; [reflexivity|]]);
        try (repeat split; cbn; congruence);
        apply (alike_from _ _ _ _ [Log prefix Preparing_Dataset; Request r;
                                   Log prefix Dataset_preparation_done]);
        cbn; now rewrite <- !app_assoc.
  - inversion Ea; inversion Eb; subst; clear Ea Eb.
    split; [reflexivity|]. split; [|split; [reflexivity|]].
    + repeat split; cbn; congruence.
    + apply (alike_from _ _ _ _ [Log prefix Preparing_Dataset]); reflexivity.
Qed.

Lemma upload_alike prefix a b oa a' ob b' :
  log_prefix = Some prefix ->
  same_world a b ->
  _perform_upload a = (oa, a') ->
  _perform_upload b = (ob, b') ->
  oa = ob /\ same_world a' b' /\ alike a a' b b' /\
  (oa <> Raises ZeroDivisionError -> same_uploader a' b').
Proof.
  intros L (C & N & K) Ea Eb.
  rewrite (upload_steps _ a L) in Ea. rewrite (upload_steps _ b L) in Eb.
  unfold uploaded in Ea, Eb.
  assert (D : upload_data b = upload_data a) by (unfold upload_data; congruence).
  rewrite D, <- K in Eb.
  assert (Z0 : forall e, monitor_outcome (body_reads api (api_calls a)) = Raises e ->
                 e = ZeroDivisionError).
  { intros e. unfold monitor_outcome. destruct (body_reads _ _); [discriminate|].
    destruct (_file_size =? 0)%Z; [|discriminate]. now intros [= <-]. }
  set (reads := body_reads api (api_calls a)) in *.
  set (data := upload_data a) in *.
  set (head := [Log prefix Start_uploading;
                Log prefix (Starting_upload_to_Arcsecond _file_size);
                Open file_path (next_handle a);
                Request (datafiles_create data)]).
  match type of Ea with context [monitored reads ?s0] =>
    pose proof (monitored_trace reads s0) as Ta;
    destruct (monitored_keeps reads s0) as (A1 & A2 & A3 & A4 & A5 & A6);
    set (ma := monitored reads s0) in *
  end.
  match type of Eb with context [monitored reads ?s0] =>
    pose proof (monitored_trace reads s0) as Tb;
    destruct (monitored_keeps reads s0) as (B1 & B2 & B3 & B4 & B5 & B6);
    set (mb := monitored reads s0) in *
  end.
  cbn in Ta, Tb, A1, A2, A3, A5, A6, B1, B2, B3, B5, B6.
  rewrite <- N in Tb.
  assert (W : same_world ma mb) by (repeat split; congruence).
  assert (T : forall tail,
            (trace ma ++ tail = trace a ++ (head ++ progress reads ++ tail))%list /\
            (trace mb ++ tail = trace b ++ (head ++ progress reads ++ tail))%list).
  { intros tail. rewrite Ta, Tb, <- !app_assoc. split; reflexivity. }
  destruct (monitor_outcome reads) as [[]|e] eqn:O.
  - destruct (respond api (api_calls a) (datafiles_create data)) as [record [error|]].
    + destruct (Py.contains _ _); inversion Ea; inversion Eb; subst; clear Ea Eb.
      * split; [reflexivity|]. split; [exact W|]. split.
        -- destruct (T []) as (Xa & Xb). rewrite !app_nil_r in Xa, Xb.
           now apply (alike_from _ _ _ _ (head ++ progress reads)).
        -- intros _. split; [exact W|]. now split.
      * split; [reflexivity|]. split; [exact W|]. split.
        -- destruct (T [Log prefix (Upload_of_file_failed file_path)]) as (Xa & Xb).
           eexists; split; [exact Xa|exact Xb].
        -- intros _. split; [exact W|]. now split.
    + inversion Ea; inversion Eb; subst; clear Ea Eb.
      split; [reflexivity|]. split; [exact W|]. split.
      * destruct (T [Log prefix Upload_duration]) as (Xa & Xb).
        eexists; split; [exact Xa|exact Xb].
      * intros _. split; [exact W|]. cbn. split; congruence.
  - inversion Ea; inversion Eb; subst; clear Ea Eb.
    split; [reflexivity|]. split; [exact W|]. split.
    + destruct (T []) as (Xa & Xb). rewrite !app_nil_r in Xa, Xb.
      now apply (alike_from _ _ _ _ (head ++ progress reads)).
    + intros X. elim X. now rewrite (Z0 _ eq_refl).
Qed.

Lemma metadata_alike prefix is_raw given a b oa a' ob b' :
  log_prefix = Some prefix ->
  same_uploader a b ->
  _update_file_metadata is_raw given a = (oa, a') ->
  _update_file_metadata is_raw given b = (ob, b') ->
  oa = ob /\ same_uploader a' b' /\ alike a a' b b'.
Proof.
  intros L ((C & N & K) & S & D) Ea Eb.
  rewrite (metadata_steps _ _ _ a L) in Ea. rewrite (metadata_steps _ _ _ b L) in Eb.
  unfold tagged in Ea, Eb. rewrite <- C, <- K, <- D in Eb.
  destruct (tags_refused (_context a) given).
  { inversion Ea; inversion Eb; subst. split; [reflexivity|]. split.
    - repeat split; cbn; congruence.
    - now exists [Log prefix Updating_file_metadata]. }
  destruct (_datafile a) as [record|] eqn:Da.
  2:{ inversion Ea; inversion Eb; subst. split; [reflexivity|]. split.
      - repeat split; cbn; congruence.
      - now exists [Log prefix Updating_file_metadata]. }
  destruct (snd (respond _ _ _)); inversion Ea; inversion Eb; subst;
    (split; [reflexivity|]); (split; [repeat split; cbn; congruence|]).
  - eexists [Log prefix Updating_file_metadata; Request _;
             Log prefix Update_of_metadata_failed].
    cbn. rewrite <- !app_assoc. split; reflexivity.
  - eexists [Log prefix Updating_file_metadata; Request _].
    cbn. rewrite <- !app_assoc. split; reflexivity.
Qed.

Lemma same_world_event e a b :
  same_world a b -> same_world (with_event e a) (with_event e b).
Proof. intros H. exact H. Qed.

Lemma same_uploader_event e a b :
  same_uploader a b -> same_uploader (with_event e a) (with_event e b).
Proof. intros H. exact H. Qed.

Lemma prepare_phase_alike prefix a b oa a' ob b' :
  log_prefix = Some prefix ->
  same_world a b ->
  prepare_phase a = (oa, a') ->
  prepare_phase b = (ob, b') ->
  oa = ob /\ same_world a' b' /\ _status a' = _status b' /\ alike a a' b b'.
Proof.
  intros L W Ea Eb. unfold prepare_phase, try_except in Ea, Eb.
  destruct (_prepare_dataset a) as [[[]|ea] a1] eqn:Pa;
    destruct (_prepare_dataset b) as [[[]|eb] b1] eqn:Pb;
    destruct (prepare_alike _ _ _ _ _ _ _ L W Pa Pb) as (O1 & W1 & S1 & A1);
    try discriminate O1.
  - inversion Ea; inversion Eb; subst. auto.
  - injection O1 as <-.
    destruct (is_DatasetPreparationError ea).
    + change ((sleep 1 ;; _prepare_dataset) a1)
        with (_prepare_dataset (with_event (Sleep 1) a1)) in Ea.
      change ((sleep 1 ;; _prepare_dataset) b1)
        with (_prepare_dataset (with_event (Sleep 1) b1)) in Eb.
      destruct (prepare_alike _ _ _ _ _ _ _ L (same_world_event (Sleep 1) _ _ W1) Ea Eb)
        as (O2 & W2 & S2 & A2).
      repeat split; try assumption; try apply W2.
      apply (alike_trans _ _ _ _ _ _ A1).
      apply (alike_trans _ _ _ _ _ _ (alike_event (Sleep 1) a1 b1) A2).
    + inversion Ea; inversion Eb; subst. auto.
Qed.

Lemma transport_phase_alike prefix a b oa a' ob b' :
  log_prefix = Some prefix ->
  same_world a b ->
  transport_phase a = (oa, a') ->
  transport_phase b = (ob, b') ->
  oa = ob /\ same_world a' b' /\ alike a a' b b' /\
  (oa = Returns tt -> same_uploader a' b').
Proof.
  intros L W Ea Eb. unfold transport_phase, try_except in Ea, Eb.
  destruct (_perform_upload a) as [[[]|ea] a1] eqn:Pa;
    destruct (_perform_upload b) as [[[]|eb] b1] eqn:Pb;
    destruct (upload_alike _ _ _ _ _ _ _ L W Pa Pb) as (O1 & W1 & A1 & U1);
    try discriminate O1.
  - inversion Ea; inversion Eb; subst.
    split; [reflexivity|]. split; [exact W1|]. split; [exact A1|].
    intros _. apply U1. discriminate.
  - injection O1 as <-.
    destruct (is_FileError ea).
    + change ((sleep 1 ;; _perform_upload) a1)
        with (_perform_upload (with_event (Sleep 1) a1)) in Ea.
      change ((sleep 1 ;; _perform_upload) b1)
        with (_perform_upload (with_event (Sleep 1) b1)) in Eb.
      destruct (upload_alike _ _ _ _ _ _ _ L (same_world_event (Sleep 1) _ _ W1) Ea Eb)
        as (O2 & W2 & A2 & U2).
      split; [exact O2|]. split; [exact W2|]. split.
      * apply (alike_trans _ _ _ _ _ _ A1).
        apply (alike_trans _ _ _ _ _ _ (alike_event (Sleep 1) a1 b1) A2).
      * intros ->. apply U2. discriminate.
    + inversion Ea; inversion Eb; subst.
      split; [reflexivity|]. split; [exact W1|]. split; [exact A1|]. discriminate.
Qed.

Lemma tagging_phase_alike prefix is_raw given a b oa a' ob b' :
  log_prefix = Some prefix ->
  same_uploader a b ->
  tagging_phase is_raw given a = (oa, a') ->
  tagging_phase is_raw given b = (ob, b') ->
  oa = ob /\ same_uploader a' b' /\ alike a a' b b'.
Proof.
  intros L W Ea Eb. unfold tagging_phase, try_except in Ea, Eb.
  destruct (_update_file_metadata is_raw given a) as [[[]|ea] a1] eqn:Pa;
    destruct (_update_file_metadata is_raw given b) as [[[]|eb] b1] eqn:Pb;
    destruct (metadata_alike _ _ _ _ _ _ _ _ _ L W Pa Pb) as (O1 & W1 & A1);
    try discriminate O1.
  - inversion Ea; inversion Eb; subst. auto.
  - injection O1 as <-.
    destruct (is_FileMetadataError ea).
    + change ((sleep 1 ;; _update_file_metadata is_raw given) a1)
        with (_update_file_metadata is_raw given (with_event (Sleep 1) a1)) in Ea.
      change ((sleep 1 ;; _update_file_metadata is_raw given) b1)
        with (_update_file_metadata is_raw given (with_event (Sleep 1) b1)) in Eb.
      destruct (metadata_alike _ _ _ _ _ _ _ _ _ L
                  (same_uploader_event (Sleep 1) _ _ W1) Ea Eb) as (O2 & W2 & A2).
      split; [exact O2|]. split; [exact W2|].
      apply (alike_trans _ _ _ _ _ _ A1).
      apply (alike_trans _ _ _ _ _ _ (alike_event (Sleep 1) a1 b1) A2).
    + inversion Ea; inversion Eb; subst. auto.
Qed.

Lemma finish_alike prefix is_raw given a b oa a' ob b' :
  log_prefix = Some prefix ->
  same_uploader a b ->
  finish is_raw given a = (oa, a') ->
  finish is_raw given b = (ob, b') ->
  oa = ob /\ same_world a' b' /\ alike a a' b b'.
Proof.
  intros L W Ea Eb. pose proof W as (W0 & S & D).
  destruct (Status_eqb (fst (fst (_status a))) SKIPPED) eqn:N.
  - rewrite (finish_skipped _ _ _ a L N) in Ea.
    rewrite (finish_skipped _ _ _ b L) in Eb by now rewrite <- S.
    inversion Ea; inversion Eb; subst. split; [now rewrite S|]. split; [exact W0|].
    exists [Log prefix Upload_skipped; Log prefix Closing_upload_sequence].
    cbn. now rewrite <- !app_assoc.
  - rewrite (finish_tags _ _ _ a L N) in Ea.
    rewrite (finish_tags _ _ _ b L) in Eb by now rewrite <- S.
    unfold bind at 1 in Ea. unfold bind at 1 in Eb.
    destruct (tagging_phase is_raw given (with_event _ a)) as [[[]|ea] a1] eqn:Ga;
      destruct (tagging_phase is_raw given (with_event _ b)) as [[[]|eb] b1] eqn:Gb;
      destruct (tagging_phase_alike _ _ _ _ _ _ _ _ _ L
                  (same_uploader_event (Log prefix Upload_done) _ _ W) Ga Gb)
        as (O1 & (W1 & S1 & D1) & A1);
      try discriminate O1.
    + unfold info in Ea, Eb. rewrite L in Ea, Eb. cbn in Ea, Eb.
      inversion Ea; inversion Eb; subst. split; [now rewrite S1|].
      split; [exact W1|].
      apply (alike_trans _ _ _ _ _ _ (alike_event (Log prefix Upload_done) a b)).
      apply (alike_trans _ _ _ _ _ _ A1). apply alike_event.
    + inversion Ea; inversion Eb; subst. injection O1 as ->.
      split; [reflexivity|]. split; [exact W1|].
      apply (alike_trans _ _ _ _ _ _ (alike_event (Log prefix Upload_done) a b)).
      exact A1.
Qed.

(** X18. [upload_file] owes nothing to the calls before it but the world
    they left.  Run from two states with the same context, the same next
    free handle and the same number of requests sent, it yields the same
    outcome, writes the same events and leaves the same world, whatever
    status, file record and byte count each state held: it never reads
    what an earlier call left in them. *)
Theorem previous_run_is_ignored is_raw given a b oa a' ob b' :
  same_world a b ->
  upload_file is_raw given a = (oa, a') ->
  upload_file is_raw given b = (ob, b') ->
  oa = ob /\ same_world a' b' /\ alike a a' b b'.
Proof.
  intros W Ea Eb. destruct log_prefix as [prefix|] eqn:L.
  2:{ unfold upload_file, bind in Ea, Eb.
      rewrite (info_fails _ a L) in Ea. rewrite (info_fails _ b L) in Eb.
      inversion Ea; inversion Eb; subst.
      split; [reflexivity|]. split; [exact W|apply alike_refl]. }
  rewrite (upload_file_steps _ _ _ a L) in Ea.
  rewrite (upload_file_steps _ _ _ b L) in Eb.
  pose proof W as (C & _). rewrite <- C in Eb.
  pose proof (alike_event (Log prefix Opening_upload_sequence) a b) as A0.
  pose proof (same_world_event (Log prefix Opening_upload_sequence) a b W) as W0.
  destruct (is_validated (_context a)).
  2:{ inversion Ea; inversion Eb; subst. auto. }
  unfold bind at 1 in Ea. unfold bind at 1 in Eb.
  destruct (prepare_phase (with_event _ a)) as [[[]|ea] a1] eqn:Pa;
    destruct (prepare_phase (with_event _ b)) as [[[]|eb] b1] eqn:Pb;
    destruct (prepare_phase_alike _ _ _ _ _ _ _ L W0 Pa Pb) as (O1 & W1 & _ & A1);
    try discriminate O1.
  2:{ inversion Ea; inversion Eb; subst. injection O1 as ->.
      split; [reflexivity|]. split; [exact W1|].
      exact (alike_trans _ _ _ _ _ _ A0 A1). }
  unfold bind at 1 in Ea. unfold bind at 1 in Eb.
  destruct (transport_phase a1) as [[[]|ea] a2] eqn:Ta;
    destruct (transport_phase b1) as [[[]|eb] b2] eqn:Tb;
    destruct (transport_phase_alike _ _ _ _ _ _ _ L W1 Ta Tb) as (O2 & W2 & A2 & U2);
    try discriminate O2.
  2:{ inversion Ea; inversion Eb; subst. injection O2 as ->.
      split; [reflexivity|]. split; [exact W2|].
      exact (alike_trans _ _ _ _ _ _ A0 (alike_trans _ _ _ _ _ _ A1 A2)). }
  destruct (finish_alike _ _ _ _ _ _ _ _ _ L (U2 eq_refl) Ea Eb) as (O3 & W3 & A3).
  split; [exact O3|]. split; [exact W3|].
  exact (alike_trans _ _ _ _ _ _ A0
           (alike_trans _ _ _ _ _ _ A1 (alike_trans _ _ _ _ _ _ A2 A3))).
Qed.

End DataFileUploader.

(** ** The progress of an empty file *)

(** C6, where the code departs from the claim.  For a file of size 0 the
    progress computation does not yield the fraction 1.0: the division is
    not guarded, so at every read, whatever the byte count, the callback
    records the count and then raises [ZeroDivisionError]. *)
Theorem progress_of_empty_file_raises bytes_read s :
  fraction bytes_read 0 = None /\
  percent_printer 0 bytes_read s =
    (Raises ZeroDivisionError, with_bytes_read bytes_read s).
Proof. split; reflexivity. Qed.

(** ** The theorems at work on the example observatory *)

Import Example.

Local Abbreviation opened := (with_event (Log prefix Opening_upload_sequence)).
Local Abbreviation run_upload_file api :=
  (upload_file root file "dome" "1.2.3" 1024 api store accept).
Local Abbreviation run_prepare api := (_prepare_dataset root file api store).
Local Abbreviation run_prepare_phase api := (prepare_phase root file api store).
Local Abbreviation run_upload api := (_perform_upload root file 1024 api).
Local Abbreviation run_transport_phase api := (transport_phase root file 1024 api).
Local Abbreviation run_tagger api :=
  (_update_file_metadata root file "dome" "1.2.3" api accept).

(** Uploading an empty file to a willing server stops in the transport. *)
Example empty_file_upload_raises :
  fst (upload_file root file "dome" "1.2.3" 0 willing store accept None None
         (init by_name)) = Raises ZeroDivisionError.
Proof. vm_compute. reflexivity. Qed.

Lemma invalidated_context_is_refused_witness :
  log_prefix root file = Some prefix /\
  is_validated (_context (init not_validated)) <> true /\
  exists s' d,
    run_upload_file willing (Some true) None (init not_validated) =
      (Raises UploadRemoteFileInvalidatedContextError, s') /\
    trace s' = d /\ requests d = [] /\
    _status s' = (NEW, Substatus.PENDING, None).
Proof.
  split; [reflexivity|]. split; [discriminate|].
  destruct (invalidated_context_is_refused root file "dome" "1.2.3" 1024 willing
              store accept prefix (Some true) None (init not_validated)
              eq_refl ltac:(discriminate))
    as (s' & d & E & T & R & _ & _ & _ & F).
  exists s', d. split; [exact E|]. split; [exact T|]. split; [exact R|].
  exact (F not_validated eq_refl).
Defined.

Lemma missing_dataset_is_not_retried_witness :
  log_prefix root file = Some prefix /\
  Py.truthy (dataset_uuid (_context (init no_dataset))) = false /\
  Py.truthy (dataset_name (_context (init no_dataset))) = false /\
  is_validated (_context (init no_dataset)) = true /\
  exists s' d,
    run_upload_file willing None None (init no_dataset) =
      (Raises (UploadRemoteDatasetCheckError "No dataset specified."), s') /\
    trace s' = d /\ attempts Preparation d = 1 /\ sleeps d = [] /\ requests d = [].
Proof.
  do 4 (split; [reflexivity|]).
  destruct (proj2 (missing_dataset_is_not_retried root file "dome" "1.2.3" 1024
                     willing store accept prefix None None (init no_dataset)
                     eq_refl eq_refl eq_refl) eq_refl)
    as (s' & d & E & T & A & S & R & _).
  exists s', d. auto.
Defined.

Lemma dataset_resolution_branches_witness :
  log_prefix root file = Some prefix /\
  Py.truthy (dataset_uuid by_uuid) = true /\
  (exists o s' d,
     run_prepare (failing 0) (init by_uuid) = (o, s') /\
     trace s' = d /\
     requests d = [datasets_update (Some "d-1") [("telescope", Py.Str_ "t-9")]] /\
     _context s' = by_uuid /\
     o = Raises (UploadRemoteDatasetPreparationError "Service unavailable")) /\
  Py.truthy (dataset_uuid by_name) = false /\
  Py.truthy (dataset_name by_name) = true /\
  (exists o s' d,
     run_prepare willing (init by_name) = (o, s') /\
     trace s' = d /\
     requests d = [datasets_create [("name", Py.Str_ "M31-survey")]] /\
     o = Returns tt /\
     _context s' = store by_name (Some created)).
Proof.
  do 2 (split; [reflexivity|]). split; [|do 2 (split; [reflexivity|])].
  - exact (proj1 (dataset_resolution_branches root file (failing 0) store prefix
                    (init by_uuid) eq_refl) eq_refl).
  - exact (proj2 (dataset_resolution_branches root file willing store prefix
                    (init by_name) eq_refl) eq_refl eq_refl).
Defined.


(** Closing a side condition by running the code. *)
Ltac by_running := vm_compute; reflexivity.

Lemma duplicate_upload_is_skipped_witness :
  log_prefix root file = Some prefix /\
  1024%Z <> 0%Z /\
  (exists s',
     run_upload holding (init by_uuid) = (Returns tt, s') /\
     _status s' = (SKIPPED, Substatus.ALREADY_SYNCED, None)) /\
  (exists s',
     run_upload (failing 1) (init by_uuid) =
       (Raises (UploadRemoteFileError
                  (Py.str_int (error_status unavailable) ++ " - " ++
                   error_text unavailable)), s') /\
     _status s' = (ERROR, Substatus.ERROR, None)) /\
  (exists s' d,
     run_upload_file holding None None (init by_name) =
       (Returns (SKIPPED, Substatus.ALREADY_SYNCED, None), s') /\
     _status s' = (SKIPPED, Substatus.ALREADY_SYNCED, None) /\
     trace s' = (trace (init by_name) ++ d)%list /\ ran Tagging d = []) /\
  (exists s' d,
     run_upload_file forgetful None None (init by_name) =
       (Returns (SKIPPED, Substatus.ALREADY_SYNCED, None), s') /\
     _status s' = (SKIPPED, Substatus.ALREADY_SYNCED, None) /\
     trace s' = (trace (init by_name) ++ d)%list /\ ran Tagging d = []).
Proof.
  assert (L : log_prefix root file = Some prefix) by reflexivity.
  assert (NZ : 1024%Z <> 0%Z) by discriminate.
  split; [exact L|]. split; [exact NZ|].
  split; [|split; [|split]].
  - pose proof (proj1 (duplicate_upload_is_skipped root file "dome" "1.2.3" 1024
                         holding store accept prefix L NZ)
                  (init by_uuid) None duplicate ltac:(by_running)) as P.
    assert (C : Py.contains "already exists in dataset" (error_text duplicate) = true)
      by by_running.
    rewrite C in P. exact P.
  - pose proof (proj1 (duplicate_upload_is_skipped root file "dome" "1.2.3" 1024
                         (failing 1) store accept prefix L NZ)
                  (init by_uuid) None unavailable ltac:(by_running)) as P.
    assert (C : Py.contains "already exists in dataset" (error_text unavailable) = false)
      by by_running.
    rewrite C in P. exact P.
  - set (s1 := snd (run_prepare_phase holding (opened (init by_name)))).
    assert (P : run_prepare_phase holding (opened (init by_name)) = (Returns tt, s1))
      by by_running.
    assert (R : respond holding (api_calls s1) (datafiles_create (upload_data file s1)) =
                (None, Some duplicate)) by by_running.
    exact (proj2 (duplicate_upload_is_skipped root file "dome" "1.2.3" 1024
                    holding store accept prefix L NZ)
             None None (init by_name) s1 s1 None duplicate
             eq_refl P (or_introl eq_refl) R ltac:(by_running)).
  - set (s1 := snd (run_prepare_phase forgetful (opened (init by_name)))).
    set (s1' := snd (run_upload forgetful s1)).
    assert (P : run_prepare_phase forgetful (opened (init by_name)) = (Returns tt, s1))
      by by_running.
    assert (F : run_upload forgetful s1 =
                (Raises (UploadRemoteFileError "503 - Service unavailable"), s1'))
      by by_running.
    assert (R : respond forgetful (api_calls (with_event (Sleep 1) s1'))
                  (datafiles_create (upload_data file (with_event (Sleep 1) s1'))) =
                (None, Some duplicate)) by by_running.
    exact (proj2 (duplicate_upload_is_skipped root file "dome" "1.2.3" 1024
                    forgetful store accept prefix L NZ)
             None None (init by_name) s1 (with_event (Sleep 1) s1') None duplicate
             eq_refl P
             (or_intror (ex_intro _ _ (ex_intro _ s1' (conj F eq_refl))))
             R ltac:(by_running)).
Defined.

Lemma second_failure_propagates_witness :
  log_prefix root file = Some prefix /\
  is_validated (_context (init by_name)) = true /\
  (exists s2 d,
     run_upload_file (failing 0) None None (init by_name) =
       (Raises (UploadRemoteDatasetPreparationError "Service unavailable"), s2) /\
     trace s2 = (trace (opened (init by_name)) ++ d)%list /\
     attempts Preparation d = 2 /\ sleeps d = [1%Z]) /\
  (exists s3 d,
     run_upload_file (failing 1) None None (init by_name) =
       (Raises (UploadRemoteFileError "503 - Service unavailable"), s3) /\
     trace s3 = (trace (init by_name) ++ d)%list /\ ran Tagging d = []) /\
  (exists s4,
     run_upload_file (failing 2) None None (init by_name) =
       (Raises (UploadRemoteFileMetadataError "Service unavailable"), s4)).
Proof.
  assert (L : log_prefix root file = Some prefix) by reflexivity.
  assert (V : is_validated (_context (init by_name)) = true) by reflexivity.
  split; [exact L|]. split; [exact V|].
  split; [|split].
  - set (s1 := snd (run_prepare (failing 0) (opened (init by_name)))).
    set (s2 := snd (run_prepare (failing 0) (with_event (Sleep 1) s1))).
    assert (E1 : run_prepare (failing 0) (opened (init by_name)) =
                 (Raises (UploadRemoteDatasetPreparationError "Service unavailable"), s1))
      by by_running.
    assert (E2 : run_prepare (failing 0) (with_event (Sleep 1) s1) =
                 (Raises (UploadRemoteDatasetPreparationError "Service unavailable"), s2))
      by by_running.
    destruct (proj2 (proj1 (second_failure_propagates root file "dome" "1.2.3" 1024
                              (failing 0) store accept prefix None None (init by_name)
                              L V) _ s1 E1) _ s2 E2)
      as (U & (d & T & A & S) & _).
    exists s2, d. auto.
  - set (s1 := snd (run_prepare_phase (failing 1) (opened (init by_name)))).
    set (s2 := snd (run_upload (failing 1) s1)).
    set (s3 := snd (run_upload (failing 1) (with_event (Sleep 1) s2))).
    assert (P : run_prepare_phase (failing 1) (opened (init by_name)) = (Returns tt, s1))
      by by_running.
    assert (E1 : run_upload (failing 1) s1 =
                 (Raises (UploadRemoteFileError "503 - Service unavailable"), s2))
      by by_running.
    assert (E2 : run_upload (failing 1) (with_event (Sleep 1) s2) =
                 (Raises (UploadRemoteFileError "503 - Service unavailable"), s3))
      by by_running.
    destruct (proj2 (proj1 (proj2 (second_failure_propagates root file "dome" "1.2.3"
                                     1024 (failing 1) store accept prefix None None
                                     (init by_name) L V)) s1 _ s2 P E1) _ s3 E2)
      as (U & _ & (d & T & Q)).
    exists s3, d. auto.
  - set (s1 := snd (run_prepare_phase (failing 2) (opened (init by_name)))).
    set (s2 := snd (run_transport_phase (failing 2) s1)).
    set (s3 := snd (run_tagger (failing 2) None None
                      (with_event (Log prefix Upload_done) s2))).
    set (s4 := snd (run_tagger (failing 2) None None (with_event (Sleep 1) s3))).
    assert (P : run_prepare_phase (failing 2) (opened (init by_name)) = (Returns tt, s1))
      by by_running.
    assert (T : run_transport_phase (failing 2) s1 = (Returns tt, s2)) by by_running.
    assert (N : Status_eqb (fst (fst (_status s2))) SKIPPED = false) by by_running.
    assert (E1 : run_tagger (failing 2) None None (with_event (Log prefix Upload_done) s2) =
                 (Raises (UploadRemoteFileMetadataError "Service unavailable"), s3))
      by by_running.
    assert (E2 : run_tagger (failing 2) None None (with_event (Sleep 1) s3) =
                 (Raises (UploadRemoteFileMetadataError "Service unavailable"), s4))
      by by_running.
    destruct (proj2 (proj2 (proj2 (second_failure_propagates root file "dome" "1.2.3"
                                     1024 (failing 2) store accept prefix None None
                                     (init by_name) L V)) s1 s2 _ s3 P T N E1) _ s4 E2)
      as (U & _).
    exists s4. exact U.
Defined.

Lemma full_success_is_done_witness :
  log_prefix root file = Some prefix /\
  1024%Z <> 0%Z /\
  is_validated (_context (init by_name)) = true /\
  (exists s2 s3 d,
     _status s2 = (UPLOADING, Substatus.UPLOADING, None) /\
     run_tagger willing (Some true) (Some ["project:x"])
       (with_event (Log prefix Upload_done) s2) = (Returns tt, s3) /\
     trace s3 = (trace (with_event (Log prefix Upload_done) s2) ++ d)%list /\
     attempts Tagging d = 1 /\
     _status s3 = (OK, Substatus.DONE, None) /\
     run_upload_file willing (Some true) (Some ["project:x"]) (init by_name) =
       (Returns (OK, Substatus.DONE, None),
        with_event (Log prefix Closing_upload_sequence) s3)) /\
  (exists s',
     run_tagger (failing 2) (Some true) (Some ["project:x"])
       (with_datafile (Some stored) (init by_uuid)) =
       (Raises (UploadRemoteFileMetadataError (error_text unavailable)), s') /\
     _status s' = (ERROR, Substatus.ERROR, None)).
Proof.
  assert (L : log_prefix root file = Some prefix) by reflexivity.
  assert (NZ : 1024%Z <> 0%Z) by discriminate.
  split; [exact L|]. split; [exact NZ|]. split; [reflexivity|]. split.
  - set (s1 := snd (run_prepare_phase willing (opened (init by_name)))).
    assert (P : run_prepare_phase willing (opened (init by_name)) = (Returns tt, s1))
      by by_running.
    destruct (proj1 (full_success_is_done root file "dome" "1.2.3" 1024 willing store
                       accept prefix (Some true) (Some ["project:x"]) L NZ)
                (init by_name) s1 stored eq_refl P
                ltac:(by_running) ltac:(by_running) ltac:(by_running))
      as (s2 & s3 & d & _ & _ & S2 & E3 & T3 & A3 & _ & S3 & U).
    exists s2, s3, d. auto 10.
  - exact (proj2 (proj2 (full_success_is_done root file "dome" "1.2.3" 1024 (failing 2)
                           store accept prefix (Some true) (Some ["project:x"]) L NZ))
             (with_datafile (Some stored) (init by_uuid)) stored None unavailable
             ltac:(by_running) ltac:(by_running) ltac:(by_running)).
Defined.

Lemma tag_list_is_stable_witness :
  log_prefix root file = Some prefix /\
  exists o s' d,
    run_tagger willing (Some true) (Some ["project:x"])
      (with_datafile (Some stored) (init by_uuid)) = (o, s') /\
    trace s' = (trace (with_datafile (Some stored) (init by_uuid)) ++ d)%list /\
    requests d =
      [datafiles_update (Py.Int_ 7)
         [("tags", Py.List_ ["arcsecond|root|/data"; "arcsecond|origin|dome";
                             "arcsecond|uploader|alice"; "arcsecond|version|1.2.3";
                             "arcsecond|telescope|t-9"; "project:x"]);
          ("is_raw", Py.Bool_ true);
          ("fsname", Py.Str_ "dome");
          ("fspath", Py.Str_ "/data")]].
Proof.
  assert (L : log_prefix root file = Some prefix) by reflexivity.
  split; [exact L|].
  destruct (proj1 (tag_list_is_stable root file "dome" "1.2.3" willing accept prefix
                     (Some true) (Some ["project:x"]) L)
              (with_datafile (Some stored) (init by_uuid)) stored
              ltac:(by_running) ltac:(by_running))
    as (o & s' & d & E & T & R).
  exists o, s', d. split; [exact E|]. split; [exact T|].
  rewrite R. by_running.
Defined.



Lemma created_dataset_is_kept_witness :
  log_prefix root file = Some prefix /\
  is_validated (_context (init by_name)) = true /\
  fst (run_upload_file (failing 1) None None (init by_name)) =
    Raises (UploadRemoteFileError "503 - Service unavailable") /\
  _context (snd (run_upload_file (failing 1) None None (init by_name))) =
    store (_context (init by_name)) (Some created).
Proof.
  assert (L : log_prefix root file = Some prefix) by reflexivity.
  split; [exact L|]. split; [reflexivity|]. split; [by_running|].
  exact (proj2 (created_dataset_is_kept root file "dome" "1.2.3" 1024 (failing 1)
                  store accept prefix None None (init by_name) _ _
                  L eq_refl (surjective_pairing _))
           (Some created) ltac:(by_running) ltac:(by_running) ltac:(by_running)).
Defined.

(** ** The further theorems at work on the example observatory *)

Lemma returned_status_is_terminal_witness :
  run_upload_file willing None None (init by_name) =
    (Returns (OK, Substatus.DONE, None),
     snd (run_upload_file willing None None (init by_name))) /\
  (OK, Substatus.DONE, None) =
    _status (snd (run_upload_file willing None None (init by_name))).
Proof.
  assert (E : run_upload_file willing None None (init by_name) =
              (Returns (OK, Substatus.DONE, None),
               snd (run_upload_file willing None None (init by_name))))
    by by_running.
  split; [exact E|].
  exact (proj1 (returned_status_is_terminal root file "dome" "1.2.3" 1024 willing
                  store accept None None (init by_name) _ _ E)).
Defined.

Lemma raised_call_never_reports_success_witness :
  fst (fst (_status (init by_name))) <> OK /\
  fst (fst (_status (init by_name))) <> SKIPPED /\
  run_upload_file (failing 2) None None (init by_name) =
    (Raises (UploadRemoteFileMetadataError "Service unavailable"),
     snd (run_upload_file (failing 2) None None (init by_name))) /\
  fst (fst (_status (snd (run_upload_file (failing 2) None None (init by_name)))))
    <> OK.
Proof.
  assert (N1 : fst (fst (_status (init by_name))) <> OK) by discriminate.
  assert (N2 : fst (fst (_status (init by_name))) <> SKIPPED) by discriminate.
  assert (E : run_upload_file (failing 2) None None (init by_name) =
              (Raises (UploadRemoteFileMetadataError "Service unavailable"),
               snd (run_upload_file (failing 2) None None (init by_name))))
    by by_running.
  split; [exact N1|]. split; [exact N2|]. split; [exact E|].
  exact (proj1 (raised_call_never_reports_success root file "dome" "1.2.3" 1024
                  (failing 2) store accept None None (init by_name) _ _ N1 N2 E)).
Defined.

Lemma empty_file_is_not_retried_witness :
  log_prefix root file = Some prefix /\
  is_validated (_context (init by_name)) = true /\
  body_reads willing 1 <> [] /\
  (exists s' d,
     upload_file root file "dome" "1.2.3" 0 willing store accept None None
       (init by_name) = (Raises ZeroDivisionError, s') /\
     trace s' =
       (trace (snd (run_prepare_phase willing (opened (init by_name)))) ++ d)%list /\
     attempts Transport d = 1 /\ sleeps d = [] /\ length (requests d) = 1 /\
     _datafile s' = None /\
     _status s' = (UPLOADING, Substatus.UPLOADING, None)) /\
  fst (_perform_upload root file 0 willing (init by_uuid)) = Raises ZeroDivisionError /\
  body_reads willing (api_calls (init by_uuid)) <> [].
Proof.
  assert (L : log_prefix root file = Some prefix) by reflexivity.
  assert (R : body_reads willing 1 <> []) by discriminate.
  split; [exact L|]. split; [reflexivity|]. split; [exact R|].
  set (s1 := snd (run_prepare_phase willing (opened (init by_name)))).
  assert (P : run_prepare_phase willing (opened (init by_name)) = (Returns tt, s1))
    by by_running.
  assert (D : _datafile s1 = None) by by_running.
  pose proof (empty_file_is_not_retried root file "dome" "1.2.3" 0 willing
                store accept prefix None None (init by_name) s1 L)
    as (Stops & Only).
  split; [|split].
  - destruct (Stops eq_refl P eq_refl R) as (s' & d & E & T & A & S & Q & F & St).
    exists s', d. rewrite Q, D in *. auto 10.
  - by_running.
  - set (s3 := snd (_perform_upload root file 0 willing (init by_uuid))).
    assert (E : _perform_upload root file 0 willing (init by_uuid) =
                (Raises ZeroDivisionError, s3)) by by_running.
    exact (proj2 (Only (init by_uuid) s3 E)).
Defined.

Lemma failed_preparation_is_not_marked_witness :
  log_prefix root file = Some prefix /\
  is_validated (_context (init by_name)) = true /\
  exists s1,
    run_upload_file (failing 0) None None (init by_name) =
      (Raises (UploadRemoteDatasetPreparationError "Service unavailable"), s1) /\
    _status s1 = (PREPARING, Substatus.CHECKING, None) /\
    _context s1 = _context (init by_name).
Proof.
  assert (L : log_prefix root file = Some prefix) by reflexivity.
  split; [exact L|]. split; [reflexivity|].
  set (s1 := snd (run_prepare_phase (failing 0) (opened (init by_name)))).
  assert (P : run_prepare_phase (failing 0) (opened (init by_name)) =
              (Raises (UploadRemoteDatasetPreparationError "Service unavailable"), s1))
    by by_running.
  destruct (failed_preparation_is_not_marked root file "dome" "1.2.3" 1024 (failing 0)
              store accept prefix None None (init by_name) _ s1 L eq_refl P)
    as (E & _ & S & C & _).
  exists s1. auto.
Defined.

Lemma retry_repeats_the_request_witness :
  log_prefix root file = Some prefix /\
  (exists r d1 d2,
     trace (snd (run_prepare (failing 0) (init by_uuid))) =
       (trace (init by_uuid) ++ d1)%list /\
     requests d1 = [r] /\ requests d2 = [r] /\
     r = datasets_update (Some "d-1") [("telescope", Py.Str_ "t-9")]) /\
  (exists d1 d2,
     trace (snd (run_upload (failing 1) (init by_uuid))) =
       (trace (init by_uuid) ++ d1)%list /\
     requests d1 =
       [datafiles_create {| field_dataset := Some "d-1";
                            field_file := ("m31.fits", 0) |}] /\
     requests d2 =
       [datafiles_create {| field_dataset := Some "d-1";
                            field_file := ("m31.fits", 1) |}]).
Proof.
  assert (L : log_prefix root file = Some prefix) by reflexivity.
  split; [exact L|]. split.
  - set (s1 := snd (run_prepare (failing 0) (init by_uuid))).
    assert (E1 : run_prepare (failing 0) (init by_uuid) =
                 (Raises (UploadRemoteDatasetPreparationError "Service unavailable"), s1))
      by by_running.
    destruct (proj1 (retry_repeats_the_request root file "dome" "1.2.3" 1024
                       (failing 0) store accept prefix None None L)
                (init by_uuid) _ s1 _ _ E1 (surjective_pairing _))
      as (r & d1 & d2 & T1 & _ & R1 & R2).
    exists r, d1, d2. split; [exact T1|]. split; [exact R1|]. split; [exact R2|].
    assert (Q : requests d1 = [datasets_update (Some "d-1") [("telescope", Py.Str_ "t-9")]]).
    { apply (f_equal (skipn (length (trace (init by_uuid))))) in T1.
      rewrite skipn_app, skipn_all, Nat.sub_diag in T1. cbn [skipn app] in T1.
      rewrite <- T1. by_running. }
    rewrite R1 in Q. now injection Q.
  - set (s1 := snd (run_upload (failing 1) (init by_uuid))).
    assert (E1 : run_upload (failing 1) (init by_uuid) =
                 (Raises (UploadRemoteFileError "503 - Service unavailable"), s1))
      by by_running.
    destruct (proj1 (proj2 (retry_repeats_the_request root file "dome" "1.2.3" 1024
                              (failing 1) store accept prefix None None L))
                (init by_uuid) _ s1 _ _ E1 (surjective_pairing _))
      as (d1 & d2 & T1 & _ & R1 & R2).
    exists d1, d2. auto.
Defined.

Lemma overcome_failure_goes_on_witness :
  log_prefix root file = Some prefix /\
  is_validated (_context (init by_name)) = true /\
  exists s4,
    run_upload_file stumbling None None (init by_name) =
      (Returns (OK, Substatus.DONE, None),
       with_event (Log prefix Closing_upload_sequence) s4) /\
    sleeps (trace s4) = [1; 1; 1]%Z.
Proof.
  assert (L : log_prefix root file = Some prefix) by reflexivity.
  split; [exact L|]. split; [reflexivity|].
  set (s1 := snd (run_prepare_phase stumbling (opened (init by_name)))).
  set (s2 := snd (run_transport_phase stumbling s1)).
  set (s3 := snd (run_tagger stumbling None None
                    (with_event (Log prefix Upload_done) s2))).
  set (s4 := snd (run_tagger stumbling None None (with_event (Sleep 1) s3))).
  exists s4. split; [|by_running].
  exact (proj2 (proj2 (overcome_failure_goes_on root file "dome" "1.2.3" 1024
                         stumbling store accept prefix None None (init by_name)
                         L eq_refl))
           s1 s2 "Service unavailable" s3 s4
           ltac:(by_running) ltac:(by_running) ltac:(by_running)
           ltac:(by_running) ltac:(by_running)).
Defined.

Lemma requests_follow_the_phases_witness :
  exists d rp rt rg,
    trace (snd (run_upload_file stumbling None None (init by_name))) =
      (trace (init by_name) ++ d)%list /\
    requests d = (rp ++ rt ++ rg)%list /\
    length rp <= 2 /\ length rt <= 2 /\ length rg <= 2 /\
    length (sleeps d) <= 3.
Proof.
  destruct (requests_follow_the_phases root file "dome" "1.2.3" 1024 stumbling
              store accept None None (init by_name) _ _ (surjective_pairing _))
    as (d & rp & rt & rg & T & R & _ & _ & _ & Lp & Lt & Lg & _ & Ls).
  exists d, rp, rt, rg. auto 10.
Defined.

Lemma known_dataset_keeps_context_witness :
  Py.truthy (dataset_uuid (_context (init by_uuid))) = true /\
  _context (snd (run_upload_file (failing 1) None None (init by_uuid))) =
    _context (init by_uuid).
Proof.
  split; [reflexivity|].
  exact (known_dataset_keeps_context root file "dome" "1.2.3" 1024 (failing 1)
           store accept None None (init by_uuid) _ _ eq_refl (surjective_pairing _)).
Defined.

Lemma log_prefix_needs_file_under_root_witness :
  log_prefix root file = Some "[night1/m31.fits]" /\
  log_prefix root stray = None /\
  upload_file root stray "dome" "1.2.3" 1024 willing store accept None None
    (init not_validated) = (Raises ValueError, init not_validated).
Proof.
  split; [|split].
  - apply (proj1 (log_prefix_needs_file_under_root root file "dome" "1.2.3" 1024
                    willing store accept None None)).
    exists ["night1"; "m31.fits"]. repeat split.
  - reflexivity.
  - exact (proj1 (proj2 (log_prefix_needs_file_under_root root stray "dome" "1.2.3"
                           1024 willing store accept None None)
                    eq_refl (init not_validated))).
Defined.

Lemma skip_iff_phrase_occurs_witness :
  log_prefix root file = Some prefix /\
  1024%Z <> 0%Z /\
  (exists s', run_upload holding (init by_uuid) = (Returns tt, s')) /\
  ~ (exists s', run_upload (failing 1) (init by_uuid) = (Returns tt, s')).
Proof.
  assert (L : log_prefix root file = Some prefix) by reflexivity.
  assert (NZ : 1024%Z <> 0%Z) by discriminate.
  split; [exact L|]. split; [exact NZ|]. split.
  - apply (proj2 (skip_iff_phrase_occurs root file 1024 holding prefix
                    (init by_uuid) None duplicate L NZ ltac:(by_running))).
    exists "File ", " d-1.". reflexivity.
  - intros H.
    apply (proj1 (skip_iff_phrase_occurs root file 1024 (failing 1) prefix
                    (init by_uuid) None unavailable L NZ ltac:(by_running))) in H.
    apply contains_spec in H. vm_compute in H. discriminate H.
Defined.

Lemma tagger_error_before_request_witness :
  log_prefix root file = Some prefix /\
  is_validated (_context (init by_name)) = true /\
  exists s3,
    run_upload_file recordless None None (init by_name) = (Raises AttributeError, s3) /\
    _status s3 = (FINISHING, Substatus.TAGGING, None) /\
    requests (trace s3) =
      [datasets_create [("name", Py.Str_ "M31-survey")];
       datafiles_create {| field_dataset := Some "d-1";
                           field_file := ("m31.fits", 0) |}].
Proof.
  assert (L : log_prefix root file = Some prefix) by reflexivity.
  split; [exact L|]. split; [reflexivity|].
  set (s1 := snd (run_prepare_phase recordless (opened (init by_name)))).
  set (s2 := snd (run_transport_phase recordless s1)).
  set (s3 := snd (run_tagger recordless None None
                    (with_event (Log prefix Upload_done) s2))).
  destruct (tagger_error_before_request root file "dome" "1.2.3" 1024 recordless
              store accept prefix None None (init by_name) s1 s2 AttributeError s3
              L eq_refl ltac:(by_running) ltac:(by_running) ltac:(by_running)
              ltac:(by_running) eq_refl)
    as (E & _ & S & _).
  exists s3. split; [exact E|]. split; [exact S|]. by_running.
Defined.

Lemma record_without_pk_is_addressed_to_none_witness :
  log_prefix root file = Some prefix /\
  (forall v, ~ In ("pk", v) keyless) /\
  exists o s' d,
    run_tagger willing None None (with_datafile (Some keyless) (init by_uuid)) = (o, s') /\
    requests d =
      [datafiles_update Py.None_
         (metadata_payload root "dome" "1.2.3" by_uuid None None)].
Proof.
  assert (L : log_prefix root file = Some prefix) by reflexivity.
  assert (K : forall v, ~ In ("pk", v) keyless).
  { intros v [H|[]]. discriminate H. }
  split; [exact L|]. split; [exact K|].
  destruct (record_without_pk_is_addressed_to_none root file "dome" "1.2.3" willing
              accept prefix None None (with_datafile (Some keyless) (init by_uuid))
              keyless L eq_refl eq_refl K)
    as (o & s' & d & E & _ & R).
  exists o, s', d. auto.
Defined.

Lemma upload_goes_to_created_dataset_witness :
  log_prefix root file = Some prefix /\
  Py.truthy (dataset_uuid (_context (init by_name))) = false /\
  Py.truthy (dataset_name (_context (init by_name))) = true /\
  exists d rest,
    trace (snd (run_upload_file willing None None (init by_name))) =
      (trace (init by_name) ++ d)%list /\
    requests d =
      datasets_create [("name", Py.Str_ "M31-survey")] ::
      datafiles_create {| field_dataset := Some "d-1";
                          field_file := ("m31.fits", 0) |} :: rest.
Proof.
  assert (L : log_prefix root file = Some prefix) by reflexivity.
  split; [exact L|]. do 2 (split; [reflexivity|]).
  exact (upload_goes_to_created_dataset root file "dome" "1.2.3" 1024 willing store
           accept prefix None None (init by_name) (Some created) _ _
           L eq_refl eq_refl eq_refl eq_refl (surjective_pairing _)).
Defined.

Lemma one_open_per_transport_attempt_witness :
  exists d,
    trace (snd (run_upload_file (failing 1) None None (init by_name))) =
      (trace (init by_name) ++ d)%list /\
    attempts Transport d = 2 /\
    handles_opened d = [0; 1] /\
    next_handle (snd (run_upload_file (failing 1) None None (init by_name))) = 2.
Proof.
  destruct (one_open_per_transport_attempt root file "dome" "1.2.3" 1024 (failing 1)
              store accept None None (init by_name) _ _ (surjective_pairing _))
    as (d & T & _ & F & N).
  assert (A : attempts Transport d = 2).
  { change (trace (init by_name) ++ d)%list with d in T. rewrite <- T. by_running. }
  exists d. rewrite A in F, N.
  split; [exact T|]. split; [exact A|]. split; [exact F|exact N].
Defined.

Lemma progress_is_shown_at_every_read_witness :
  log_prefix root file = Some prefix /\
  1024%Z <> 0%Z /\
  exists d,
    trace (snd (run_upload willing (init by_uuid))) =
      (trace (init by_uuid) ++ d)%list /\
    printed d = map (shown 1024) [512; 1024; 1211]%Z /\
    __bytes_read (snd (run_upload willing (init by_uuid))) = 1211%Z.
Proof.
  assert (L : log_prefix root file = Some prefix) by reflexivity.
  assert (NZ : 1024%Z <> 0%Z) by discriminate.
  split; [exact L|]. split; [exact NZ|].
  exact (progress_is_shown_at_every_read root file 1024 willing prefix
           (init by_uuid) _ _ L NZ (surjective_pairing _)).
Defined.

Lemma clean_run_sends_three_requests_witness :
  log_prefix root file = Some prefix /\
  1024%Z <> 0%Z /\
  is_validated (_context (init by_name)) = true /\
  exists s' d,
    run_upload_file willing (Some true) (Some ["project:x"]) (init by_name) =
      (Returns (OK, Substatus.DONE, None), s') /\
    trace s' = (trace (init by_name) ++ d)%list /\
    length (requests d) = 3 /\
    sleeps d = [] /\
    _context s' = store by_name (Some created) /\
    handles_opened d = [0].
Proof.
  assert (L : log_prefix root file = Some prefix) by reflexivity.
  assert (NZ : 1024%Z <> 0%Z) by discriminate.
  split; [exact L|]. split; [exact NZ|]. split; [reflexivity|].
  destruct (clean_run_sends_three_requests root file "dome" "1.2.3" 1024 willing
              store accept prefix (Some true) (Some ["project:x"]) (init by_name)
              (datasets_create [("name", Py.Str_ "M31-survey")]) stored
              L NZ eq_refl ltac:(by_running) ltac:(by_running)
              ltac:(by_running) ltac:(by_running) ltac:(by_running))
    as (s' & d & E & T & R & S & C & O).
  exists s', d. split; [exact E|]. split; [exact T|].
  split; [now rewrite R|]. split; [exact S|]. split; [|exact O].
  rewrite C. by_running.
Defined.

Lemma previous_run_is_ignored_witness :
  same_world (init by_name)
    (with_status (ERROR, Substatus.ERROR, None)
       (with_datafile (Some keyless) (init by_name))) /\
  fst (run_upload_file willing None None (init by_name)) =
  fst (run_upload_file willing None None
         (with_status (ERROR, Substatus.ERROR, None)
            (with_datafile (Some keyless) (init by_name)))).
Proof.
  assert (W : same_world (init by_name)
                (with_status (ERROR, Substatus.ERROR, None)
                   (with_datafile (Some keyless) (init by_name))))
    by (repeat split).
  split; [exact W|].
  exact (proj1 (previous_run_is_ignored root file "dome" "1.2.3" 1024 willing store
                  accept None None _ _ _ _ _ _ W
                  (surjective_pairing _) (surjective_pairing _))).
Defined.
